(** * cloudify_terminal.tasks: a shallow embedding of the terminal task

    The module [cloudify_terminal/tasks.py] drives an interactive session
    against a remote device: it resolves credentials, connects to the first
    reachable address, executes the lines of every call through the retry
    helper [_rerun], stores selected results in the instance's runtime
    properties and finally closes the session.

    The transport ([terminal_connection.connection]), the template engine
    (jinja2) and the Cloudify context are collaborators of the task: they
    are taken as parameters.  Every interaction with a collaborator (logger,
    clock, transport, property store) is recorded as an [Event], so that
    statements about "how many attempts", "in which order" and "nothing
    afterwards" are statements about the list of events of a run. *)

From Stdlib Require Import ZArith List Ascii String Bool Lia.
From stdpp Require Import base option list gmap strings.

Local Open Scope Z_scope.

(* ===================================================================== *)
(** * Python strings *)
(* ===================================================================== *)

Module Py.

(** [str.isspace] on a byte string (Python 2 [str]): space, \t, \n, \v, \f, \r. *)
Definition isspace (a : ascii) : bool :=
  match a with
  | "009" | "010" | "011" | "012" | "013" | " " => true
  | _ => false
  end%char.

(** Truth value of a string: [not s] holds exactly for the empty string. *)
Definition truthy (s : string) : bool :=
  match s with
  | EmptyString => false
  | String _ _ => true
  end.

Fixpoint lstrip (s : string) : string :=
  match s with
  | EmptyString => EmptyString
  | String a r => if isspace a then lstrip r else s
  end.

Fixpoint rstrip (s : string) : string :=
  match s with
  | EmptyString => EmptyString
  | String a r =>
      match rstrip r with
      | EmptyString => if isspace a then EmptyString else String a EmptyString
      | r' => String a r'
      end
  end.

(** [s.strip()] with no argument: leading and trailing whitespace removed. *)
Definition strip (s : string) : string := lstrip (rstrip s).

Definition newline : ascii := "010"%char.

(** [s.split("\n")]: always at least one piece. *)
Fixpoint split_newline (s : string) : list string :=
  match s with
  | EmptyString => [EmptyString]
  | String a r =>
      if Ascii.eqb a newline then EmptyString :: split_newline r
      else match split_newline r with
           | piece :: pieces => String a piece :: pieces
           | [] => [String a EmptyString]
           end
  end.

(** ["\n".join(pieces)] *)
Fixpoint join_newline (pieces : list string) : string :=
  match pieces with
  | [] => EmptyString
  | [p] => p
  | p :: rest => p +:+ String newline (join_newline rest)
  end.

(** Truth value of an optional string ([None] and [""] are false). *)
Definition truthy_opt (o : option string) : bool :=
  match o with
  | Some s => truthy s
  | None => false
  end.

(** Truth value of a list: [not l] holds exactly for the empty list. *)
Definition truthy_list {A} (l : list A) : bool :=
  match l with
  | [] => false
  | _ :: _ => true
  end.

End Py.

(* ===================================================================== *)
(** * Data model: what the caller passes in *)
(* ===================================================================== *)

(** An entry of [responses]: a question of the device and its answer. *)
Record Response := { question : string; answer : string }.

(** The keyword arguments of [connection.run].  A field is [None] when the
    keyword is not passed ([run] then uses its own default); [prompt_check]
    is also [None] when the value passed is Python's [None]. *)
Record RunKwargs := {
  command : string;
  prompt_check : option (list string);
  error_examples : option (list string);
  warning_examples : option (list string);
  critical_examples : option (list string);
  kw_responses : option (list Response)
}.

(** The messages of the exceptions the task raises itself, and the free
    text of the ones a collaborator raises. *)
Inductive Message :=
| CheckCredentials (* "please check your credentials, ip or user not set" *)
| TryOneMoreTime   (* "Let's try one more time?" *)
| FailedToRerun (args : list string) (kwargs : RunKwargs)
                   (* "Failed to rerun: {}:{}".format(repr(args), repr(kwargs)) *)
| Text (s : string).

(** Exceptions, by class.  [RecoverableWarning] is the transport's own
    class; the next three are [cloudify.exceptions]. *)
Inductive Exn :=
| RecoverableWarning (m : Message)
| NonRecoverableError (m : Message)
| RecoverableError (m : Message)
| OperationRetry (m : Message)
| OtherException (cls : string) (m : Message).

(** [except terminal_connection.RecoverableWarning] catches exactly these. *)
Definition is_warning (e : Exn) : bool :=
  match e with
  | RecoverableWarning _ => true
  | _ => false
  end.

(** How the workflow engine treats the exceptions of [cloudify.exceptions]:
    a [NonRecoverableError] fails the operation for good, a
    [RecoverableError] or an [OperationRetry] makes the engine run the
    operation again. *)
Definition is_fatal (e : Exn) : bool :=
  match e with
  | NonRecoverableError _ => true
  | _ => false
  end.

Definition is_retryable (e : Exn) : bool :=
  match e with
  | RecoverableError _ | OperationRetry _ => true
  | _ => false
  end.

(** The value under ['ip']: one address or a list of addresses. *)
Inductive IpSpec :=
| IpStr (ip : string)
| IpList (ips : list string).

(** The ['terminal_auth'] mapping; [None] is a key that is not there. *)
Record TerminalAuth := {
  auth_ip : option IpSpec;
  auth_user : option string;
  auth_password : option string;
  auth_key_content : option string;
  auth_port : option Z;
  auth_promt_check : option (list string);
  auth_errors : option (list string);
  auth_warnings : option (list string);
  auth_criticals : option (list string);
  auth_exit_command : option string;
  auth_store_logs : option bool
}.

(** The empty mapping [{}]. *)
Definition no_auth : TerminalAuth :=
  {| auth_ip := None; auth_user := None; auth_password := None;
     auth_key_content := None; auth_port := None; auth_promt_check := None;
     auth_errors := None; auth_warnings := None; auth_criticals := None;
     auth_exit_command := None; auth_store_logs := None |}.

(** [d.get(key, dflt)] on one key, and [d.update(other)] on one key. *)
Definition get {A} (o : option A) (dflt : A) : A :=
  match o with
  | Some a => a
  | None => dflt
  end.

Definition override {A} (base other : option A) : option A :=
  match other with
  | Some a => Some a
  | None => base
  end.

(** [base.update(other)]: the keys of [other] win. *)
Definition auth_update (base other : TerminalAuth) : TerminalAuth :=
  {| auth_ip := override (auth_ip base) (auth_ip other);
     auth_user := override (auth_user base) (auth_user other);
     auth_password := override (auth_password base) (auth_password other);
     auth_key_content :=
       override (auth_key_content base) (auth_key_content other);
     auth_port := override (auth_port base) (auth_port other);
     auth_promt_check :=
       override (auth_promt_check base) (auth_promt_check other);
     auth_errors := override (auth_errors base) (auth_errors other);
     auth_warnings := override (auth_warnings base) (auth_warnings other);
     auth_criticals := override (auth_criticals base) (auth_criticals other);
     auth_exit_command :=
       override (auth_exit_command base) (auth_exit_command other);
     auth_store_logs :=
       override (auth_store_logs base) (auth_store_logs other) |}.

(** A value bound in the template namespace: text, or the whole context
    under the key ['ctx']. *)
Inductive ParamValue :=
| PText (s : string)
| PCtx.

(** One entry of [calls]. *)
Record Call := {
  responses : option (list Response);
  promt_check : option (list string);
  errors : option (list string);
  warnings : option (list string);
  criticals : option (list string);
  action : option string;
  template : option string;
  params : option (gmap string ParamValue);
  template_text : option string;
  retry_count : option Z;
  retry_sleep : option Z;
  save_to : option string
}.

(** The keyword arguments of the operation. *)
Record Kwargs := {
  kw_calls : option (list Call);
  kw_terminal_auth : option TerminalAuth
}.

(** The other arguments of [connection.connect], after the address. *)
Record ConnectArgs := {
  c_user : string;
  c_password : option string;
  c_key_content : option string;
  c_port : Z;
  c_promt_check : option (list string);
  c_log_file_name : option string
}.

(** The node instance the operation runs for. *)
Record Instance := { host_ip : string; instance_id : string }.

(** [ctx.node.properties] raises [NonRecoverableError] in a relationship
    operation; the task then takes the target's node and instance. *)
Inductive Scope :=
| NodeScope (terminal_auth : option TerminalAuth) (instance : Instance)
| RelationshipScope (target_terminal_auth : option TerminalAuth)
                    (target_instance : Instance).

(** The Cloudify context [ctx]. *)
Record Ctx := {
  scope : Scope;
  execution_id : string;
  workflow_id : string;
  get_resource : string -> option string
}.

(* ===================================================================== *)
(** * Events: what a run does to its collaborators *)
(* ===================================================================== *)

Inductive Level := Info | Debug.

(** One constructor per logger call of the source. *)
Inductive LogMsg :=
| NoCalls                                  (* "No calls" *)
| UsedHostFromContainer (ips : list string)(* "Used host from container: %s" *)
| LogsSavedTo (file : string)      (* "Communication logs will be saved to %s" *)
| CantConnect (ip : string) (ex : Exn)
    (* "Can't connect to:{} with exception:{} and type:{}" *)
| WillBeUsed (ip : string)                 (* "Will be used: " + ip *)
| DevicePrompt (prompt : string)           (* "Device prompt: " + prompt *)
| EmptyTemplate                            (* "Empty template." *)
| EmptyTemplateText                        (* "Empty template_text." *)
| PredefinedResponses (r : list Response)  (* "We have predefined responses: " *)
| TemplateIs (operation : string)          (* "Template: \n" + str(operation) *)
| ExecutingTemplate                        (* "Executing template..." *)
| Execute (op_line : string)               (* "Execute: " + op_line *)
| NeedRerun (e : Exn)                      (* "Need for rerun: {}" *)
| ResultPart (stripped : string)           (* result_part.strip() *)
| ForSave (stripped : string)              (* "For save: " + result.strip() *)
| ExecuteClose                             (* "Execute close" *)
| ResultOfClose (result : string).         (* "Result of close: " + repr(result) *)

Inductive Event :=
| Log (lvl : Level) (m : LogMsg)
| Sleep (seconds : Z)
| Connect (ip : string) (a : ConnectArgs) (r : Exn + string)
| Run (kw : RunKwargs) (r : Exn + string)
| IsClosed (closed : bool)
| Close
| Store (key value : string).

(* ===================================================================== *)
(** * The transport *)
(* ===================================================================== *)

Module terminal_connection.

(** A [connection] object: a state and the four methods the task calls.
    [connect] and [run] either raise or return a string. *)
Record connection := {
  state : Type;
  connect : state -> string -> ConnectArgs -> (Exn + string) * state;
  run : state -> RunKwargs -> (Exn + string) * state;
  is_closed : state -> bool * state;
  close : state -> state
}.

End terminal_connection.

(* ===================================================================== *)
(** * Computations: state, events, exceptions *)
(* ===================================================================== *)

(** How a computation ends: with a value, with an exception, or not at all
    within the steps it was given ([Unfinished]; only the closing loop, the
    one unbounded loop of the source, can end so). *)
Inductive Outcome (A : Type) :=
| Val (a : A)
| Exc (e : Exn)
| Unfinished.

Arguments Val {A} a.
Arguments Exc {A} e.
Arguments Unfinished {A}.

(** What [time.sleep] raises when its argument is negative. *)
Definition sleep_error : Exn :=
  OtherException "IOError" (Text "[Errno 22] Invalid argument").

Section Task.

Context (connection : terminal_connection.connection).
Context (ctx : Ctx).
(** [Template(text).render(namespace)] of jinja2. *)
Context (render : string -> gmap string ParamValue -> string).

(** What a run changes: the transport and the runtime properties of the
    instance. *)
Record World := {
  session : terminal_connection.state connection;
  runtime_properties : gmap string string
}.

Definition M (A : Type) : Type := World -> Outcome A * World * list Event.

Definition ret {A} (a : A) : M A := fun w => (Val a, w, []).

Definition raise {A} (e : Exn) : M A := fun w => (Exc e, w, []).

Definition unfinished {A} : M A := fun w => (Unfinished, w, []).

Definition bind {A B} (m : M A) (f : A -> M B) : M B := fun w =>
  match m w with
  | (Val a, w1, evs1) =>
      match f a w1 with
      | (o, w2, evs2) => (o, w2, evs1 ++ evs2)
      end
  | (Exc e, w1, evs1) => (Exc e, w1, evs1)
  | (Unfinished, w1, evs1) => (Unfinished, w1, evs1)
  end.

Notation "x <- m ;; k" := (bind m (fun x => k))
  (at level 100, m at next level, right associativity).
Notation "m ;; k" := (bind m (fun _ => k))
  (at level 100, right associativity).

Definition emit (ev : Event) : M unit := fun w => (Val tt, w, [ev]).

Definition log_info (m : LogMsg) : M unit := emit (Log Info m).
Definition log_debug (m : LogMsg) : M unit := emit (Log Debug m).

(** [time.sleep(seconds)]: a negative length raises ([IOError] under
    Python 2, which this module is written for) and nothing is slept. *)
Definition sleep (seconds : Z) : M unit :=
  if seconds <? 0 then raise sleep_error else emit (Sleep seconds).

(** [connection.connect(ip, ...)], with what it raised or returned. *)
Definition connection_connect (ip : string) (a : ConnectArgs)
  : M (Exn + string) := fun w =>
  match terminal_connection.connect connection (session w) ip a with
  | (r, s) =>
      (Val r, {| session := s; runtime_properties := runtime_properties w |},
       [Connect ip a r])
  end.

(** [connection.run] called with the positional [args] and the keywords
    [kwargs]; the task never passes positional arguments. *)
Definition connection_run (args : list string) (kwargs : RunKwargs)
  : M (Exn + string) := fun w =>
  match terminal_connection.run connection (session w) kwargs with
  | (r, s) =>
      (Val r, {| session := s; runtime_properties := runtime_properties w |},
       [Run kwargs r])
  end.

(** A call that is not inside a [try]: what it raises goes up. *)
Definition uncaught {A} (m : M (Exn + A)) : M A :=
  r <- m ;;
  match r with
  | inl e => raise e
  | inr a => ret a
  end.

Definition connection_is_closed : M bool := fun w =>
  match terminal_connection.is_closed connection (session w) with
  | (b, s) =>
      (Val b, {| session := s; runtime_properties := runtime_properties w |},
       [IsClosed b])
  end.

Definition connection_close : M unit := fun w =>
  (Val tt,
   {| session := terminal_connection.close connection (session w);
      runtime_properties := runtime_properties w |},
   [Close]).

(** [ctx_instance.runtime_properties[key] = value] *)
Definition store (key value : string) : M unit := fun w =>
  (Val tt,
   {| session := session w;
      runtime_properties := <[key := value]> (runtime_properties w) |},
   [Store key value]).

(* ===================================================================== *)
(** * [_rerun] *)
(* ===================================================================== *)

(** The [while retry_count > 0] loop, with the [raise] that follows it.
    [func] either raises or returns. *)
Fixpoint rerun_loop (func : list string -> RunKwargs -> M (Exn + string))
    (args : list string) (kwargs : RunKwargs)
    (retry_count : nat) (retry_sleep : Z) : M string :=
  match retry_count with
  | O => raise (RecoverableError (FailedToRerun args kwargs))
  | S remaining =>
      r <- func args kwargs ;;
      match r with
      | inr output => ret output
      | inl (RecoverableWarning m) =>
          log_info (NeedRerun (RecoverableWarning m)) ;;
          sleep retry_sleep ;;
          rerun_loop func args kwargs remaining retry_sleep
      | inl e => raise e
      end
  end.

(** The first statement of the body assigns [retry_count = 10], whatever
    the caller passed. *)
Definition _rerun (func : list string -> RunKwargs -> M (Exn + string))
    (args : list string) (kwargs : RunKwargs)
    (retry_count : Z) (retry_sleep : Z) : M string :=
  let retry_count := 10 in
  rerun_loop func args kwargs (Z.to_nat retry_count) retry_sleep.

(* ===================================================================== *)
(** * [run]: the pieces of its body, in source order *)
(* ===================================================================== *)

(** [if not ip_list] on the value under ['ip']. *)
Definition truthy_ip (o : option IpSpec) : bool :=
  match o with
  | Some (IpStr ip) => Py.truthy ip
  | Some (IpList ips) => Py.truthy_list ips
  | None => false
  end.

(** [if isinstance(ip_list, basestring): ip_list = [ip_list]] *)
Definition as_ip_list (spec : IpSpec) : list string :=
  match spec with
  | IpStr ip => [ip]
  | IpList ips => ips
  end.

(** "/tmp/terminal-%s_%s_%s.log" % (execution_id, instance id, workflow_id) *)
Definition log_file_of (ctx_instance : Instance) : string :=
  "/tmp/terminal-" +:+ execution_id ctx +:+ "_" +:+ instance_id ctx_instance
    +:+ "_" +:+ workflow_id ctx +:+ ".log".

(** The [for ip in ip_list: ... else: raise OperationRetry] loop; it
    returns the prompt of the first address that connects. *)
Fixpoint connect_first (ip_list : list string) (a : ConnectArgs) : M string :=
  match ip_list with
  | [] => raise (OperationRetry TryOneMoreTime)
  | ip :: rest =>
      r <- connection_connect ip a ;;
      match r with
      | inr prompt => log_info (WillBeUsed ip) ;; ret prompt
      | inl ex => log_info (CantConnect ip ex) ;; connect_first rest a
      end
  end.

(** The settings of [terminal_auth] that the calls fall back on. *)
Record Globals := {
  global_promt_check : option (list string);
  global_error_examples : list string;
  global_warning_examples : list string;
  global_critical_examples : list string
}.

(** The namespace given to [render]: the call's [params] ([{}] when
    missing or empty) with the context bound under ['ctx']. *)
Definition template_namespace (call : Call) : gmap string ParamValue :=
  <["ctx" := PCtx]> (get (params call) ∅).

(** [if not operation and 'template' in call: ...].  [None] stands for the
    [continue] of the source. *)
Definition from_template (call : Call) (operation : string)
  : M (option string) :=
  match template call with
  | Some template_name =>
      if Py.truthy operation then ret (Some operation)
      else
        match get_resource ctx template_name with
        | Some (String a r) =>
            ret (Some (render (String a r) (template_namespace call)))
        | _ => log_info EmptyTemplate ;; ret None
        end
  | None => ret (Some operation)
  end.

(** [if not operation and 'template_text' in call: ...] *)
Definition from_template_text (call : Call) (operation : string)
  : M (option string) :=
  match template_text call with
  | Some text =>
      if Py.truthy operation then ret (Some operation)
      else
        match text with
        | String a r =>
            ret (Some (render (String a r) (template_namespace call)))
        | EmptyString => log_info EmptyTemplateText ;; ret None
        end
  | None => ret (Some operation)
  end.

(** The text of a call, from [operation = call.get('action', "")] down to
    [if not operation: continue].  [None]: the call is skipped. *)
Definition call_operation (call : Call) : M (option string) :=
  let operation := get (action call) "" in
  o <- from_template call operation ;;
  match o with
  | None => ret None
  | Some operation =>
      o <- from_template_text call operation ;;
      match o with
      | None => ret None
      | Some operation =>
          if Py.truthy operation then ret (Some operation) else ret None
      end
  end.

(** The keywords of [connection.run] for one line of a call. *)
Definition line_kwargs (g : Globals) (call : Call) (op_line : string)
  : RunKwargs :=
  {| command := op_line;
     prompt_check := override (global_promt_check g) (promt_check call);
     error_examples := Some (get (errors call) (global_error_examples g));
     warning_examples :=
       Some (get (warnings call) (global_warning_examples g));
     critical_examples :=
       Some (get (criticals call) (global_critical_examples g));
     kw_responses := Some (get (responses call) []) |}.

(** [for op_line in operation.split("\n"): ...], with [result] so far. *)
Fixpoint run_lines (g : Globals) (call : Call) (lines : list string)
    (result : string) : M string :=
  match lines with
  | [] => ret result
  | op_line :: rest =>
      if negb (Py.truthy (Py.strip op_line)) then run_lines g call rest result
      else
        log_info ExecutingTemplate ;;
        log_debug (Execute op_line) ;;
        result_part <- _rerun connection_run [] (line_kwargs g call op_line)
                         (get (retry_count call) 10)
                         (get (retry_sleep call) 15) ;;
        (if Py.truthy (Py.strip result_part)
         then log_info (ResultPart (Py.strip result_part))
         else ret tt) ;;
        run_lines g call rest (result +:+ result_part +:+ String Py.newline "")
  end.

(** The body of [for call in calls]. *)
Definition run_call (g : Globals) (call : Call) : M unit :=
  o <- call_operation call ;;
  match o with
  | None => ret tt
  | Some operation =>
      (if Py.truthy_list (get (responses call) [])
       then log_info (PredefinedResponses (get (responses call) []))
       else ret tt) ;;
      log_debug (TemplateIs operation) ;;
      result <- run_lines g call (Py.split_newline operation) "" ;;
      match save_to call with
      | Some (String a r) =>
          log_info (ForSave (Py.strip result)) ;;
          store (String a r) (Py.strip result)
      | _ => ret tt
      end
  end.

Fixpoint run_calls (g : Globals) (calls : list Call) : M unit :=
  match calls with
  | [] => ret tt
  | call :: rest => run_call g call ;; run_calls g rest
  end.

(** The keywords of the exit command: [command], [prompt_check] and
    [error_examples] only. *)
Definition exit_kwargs (exit_command : string)
    (promt_check : option (list string)) (error_examples : list string)
  : RunKwargs :=
  {| command := exit_command;
     prompt_check := promt_check;
     error_examples := Some error_examples;
     warning_examples := None;
     critical_examples := None;
     kw_responses := None |}.

(** [while not connection.is_closed() and exit_command: ...].  The source
    puts no bound on this loop; [fuel] bounds the number of times the
    condition is evaluated, and the loop is [Unfinished] when that is not
    enough. *)
Fixpoint close_loop (fuel : nat) (exit_command : string)
    (promt_check : option (list string)) (error_examples : list string)
  : M unit :=
  match fuel with
  | O => unfinished
  | S fuel' =>
      closed <- connection_is_closed ;;
      if negb closed && Py.truthy exit_command then
        log_info ExecuteClose ;;
        result <- uncaught (connection_run []
                    (exit_kwargs exit_command promt_check error_examples)) ;;
        log_info (ResultOfClose result) ;;
        sleep 1 ;;
        close_loop fuel' exit_command promt_check error_examples
      else ret tt
  end.

(** The node and instance the task works on. *)
Definition ctx_properties_auth : option TerminalAuth :=
  match scope ctx with
  | NodeScope a _ => a
  | RelationshipScope a _ => a
  end.

Definition ctx_instance : Instance :=
  match scope ctx with
  | NodeScope _ i => i
  | RelationshipScope _ i => i
  end.

(** [terminal_auth] after [terminal_auth.update(kwargs.get('terminal_auth', {}))].
    The source updates the node's mapping in place; a run reads it once,
    here, so the value is all that matters to what follows. *)
Definition merged_auth (kwargs : Kwargs) : TerminalAuth :=
  auth_update (get ctx_properties_auth no_auth)
              (get (kw_terminal_auth kwargs) no_auth).

(** Lines 59-67: the address list, with the fallback on the container. *)
Definition resolve_ip_list (terminal_auth : TerminalAuth) : M (list string) :=
  let ip_list := auth_ip terminal_auth in
  ip_list <- (if truthy_ip ip_list then ret ip_list
              else
                log_info (UsedHostFromContainer [host_ip ctx_instance]) ;;
                ret (Some (IpList [host_ip ctx_instance]))) ;;
  ret (match ip_list with
       | Some spec => as_ip_list spec
       | None => []
       end).

(** Lines 79-82: the additional settings. *)
Definition globals_of (terminal_auth : TerminalAuth) : Globals :=
  {| global_promt_check := auth_promt_check terminal_auth;
     global_error_examples := get (auth_errors terminal_auth) [];
     global_warning_examples := get (auth_warnings terminal_auth) [];
     global_critical_examples := get (auth_criticals terminal_auth) [] |}.

(** The arguments of [connection.connect] after the address (lines 98-100). *)
Definition connect_args (terminal_auth : TerminalAuth)
    (log_file_name : option string) : ConnectArgs :=
  {| c_user := get (auth_user terminal_auth) "";
     c_password := auth_password terminal_auth;
     c_key_content := auth_key_content terminal_auth;
     c_port := get (auth_port terminal_auth) 22;
     c_promt_check := auth_promt_check terminal_auth;
     c_log_file_name := log_file_name |}.

(** Lines 47-189: from the credentials to the end of [for call in calls]. *)
Definition run_session (kwargs : Kwargs) (calls : list Call) : M unit :=
  let terminal_auth := merged_auth kwargs in
  ip_list <- resolve_ip_list terminal_auth ;;
  let user := auth_user terminal_auth in
  if negb (Py.truthy_list ip_list) || negb (Py.truthy_opt user) then
    raise (NonRecoverableError CheckCredentials)
  else
    log_file_name <-
      (if get (auth_store_logs terminal_auth) false then
         log_info (LogsSavedTo (log_file_of ctx_instance)) ;;
         ret (Some (log_file_of ctx_instance))
       else ret None) ;;
    prompt <- connect_first ip_list (connect_args terminal_auth log_file_name) ;;
    log_info (DevicePrompt prompt) ;;
    run_calls (globals_of terminal_auth) calls.

(** Lines 191-199: the closing loop and [connection.close()].  The
    variables [promt_check] and [error_examples] that the loop reads are
    those the last iteration of [for call in calls] left behind. *)
Definition run_closing (fuel : nat) (kwargs : Kwargs) (last_call : Call)
  : M unit :=
  let terminal_auth := merged_auth kwargs in
  let g := globals_of terminal_auth in
  let exit_command := get (auth_exit_command terminal_auth) "exit" in
  close_loop fuel exit_command
    (override (global_promt_check g) (promt_check last_call))
    (get (errors last_call) (global_error_examples g)) ;;
  connection_close.

(** The operation. *)
Definition run (kwargs : Kwargs) (fuel : nat) : M unit :=
  match get (kw_calls kwargs) [] with
  | [] => log_info NoCalls
  | first_call :: more_calls =>
      run_session kwargs (first_call :: more_calls) ;;
      run_closing fuel kwargs (List.last more_calls first_call)
  end.

End Task.

Arguments World : clear implicits.
Arguments M : clear implicits.
Arguments session {connection} w.
Arguments runtime_properties {connection} w.
Arguments Build_World {connection} session runtime_properties.

(* ===================================================================== *)
(** * Reading a list of events *)
(* ===================================================================== *)

(** The lines sent to the device, with what came back. *)
Fixpoint runs_of (evs : list Event) : list (RunKwargs * (Exn + string)) :=
  match evs with
  | [] => []
  | Run kw r :: rest => (kw, r) :: runs_of rest
  | _ :: rest => runs_of rest
  end.

(** The lines that returned, with their output. *)
Fixpoint outputs_of (evs : list Event) : list (string * string) :=
  match evs with
  | [] => []
  | Run kw (inr output) :: rest => (command kw, output) :: outputs_of rest
  | _ :: rest => outputs_of rest
  end.

(** The addresses [connect] was called with. *)
Fixpoint connects_of (evs : list Event) : list string :=
  match evs with
  | [] => []
  | Connect ip _ _ :: rest => ip :: connects_of rest
  | _ :: rest => connects_of rest
  end.

(** The failed connections that were logged. *)
Fixpoint connect_failures_logged (evs : list Event) : list (string * Exn) :=
  match evs with
  | [] => []
  | Log _ (CantConnect ip ex) :: rest => (ip, ex) :: connect_failures_logged rest
  | _ :: rest => connect_failures_logged rest
  end.

(** The pauses, in seconds. *)
Fixpoint sleeps_of (evs : list Event) : list Z :=
  match evs with
  | [] => []
  | Sleep seconds :: rest => seconds :: sleeps_of rest
  | _ :: rest => sleeps_of rest
  end.

(** The writes to the runtime properties. *)
Fixpoint stores_of (evs : list Event) : list (string * string) :=
  match evs with
  | [] => []
  | Store key value :: rest => (key, value) :: stores_of rest
  | _ :: rest => stores_of rest
  end.

(** How often [connection.close()] was called. *)
Fixpoint closes_of (evs : list Event) : nat :=
  match evs with
  | [] => O
  | Close :: rest => S (closes_of rest)
  | _ :: rest => closes_of rest
  end.

(** The property store after the writes [kvs], oldest first. *)
Definition replay (kvs : list (string * string)) (props : gmap string string)
  : gmap string string :=
  fold_left (fun m kv => <[kv.1 := kv.2]> m) kvs props.

(** One failed attempt of [_rerun]: the call, the log line, the pause. *)
Definition warned (kwargs : RunKwargs) (retry_sleep : Z) (m : Message)
  : list Event :=
  [Run kwargs (inl (RecoverableWarning m));
   Log Info (NeedRerun (RecoverableWarning m));
   Sleep retry_sleep].

(** One turn of the closing loop: not closed, the exit command, the pause. *)
Definition exit_turn (kwargs : RunKwargs) (result : string) : list Event :=
  [IsClosed false; Log Info ExecuteClose; Run kwargs (inr result);
   Log Info (ResultOfClose result); Sleep 1].

(** A failed attempt whose pause raised: the call and the log line,
    nothing slept. *)
Definition unslept (kwargs : RunKwargs) (m : Message) : list Event :=
  [Run kwargs (inl (RecoverableWarning m));
   Log Info (NeedRerun (RecoverableWarning m))].

(** What a call of [_rerun] on [connection.run] looks like from outside,
    when the loop had [budget] turns: [ms] are the warnings it went
    through and slept after, which takes a [retry_sleep] that is not
    negative.  It returned the output of the attempt after them, or that
    attempt raised something else than a warning, or there was no attempt
    left; or [retry_sleep] is negative and the pause after the first
    warning raised. *)
Inductive rerun_trace (args : list string) (kw : RunKwargs) (retry_sleep : Z)
    (budget : nat) : Outcome string -> list Event -> list Message -> Prop :=
| rerun_returned (ms : list Message) (output : string) :
    (length ms < budget)%nat ->
    (ms <> [] -> 0 <= retry_sleep) ->
    rerun_trace args kw retry_sleep budget (Val output)
      (flat_map (warned kw retry_sleep) ms ++ [Run kw (inr output)]) ms
| rerun_raised (ms : list Message) (e : Exn) :
    (length ms < budget)%nat ->
    (ms <> [] -> 0 <= retry_sleep) ->
    is_warning e = false ->
    rerun_trace args kw retry_sleep budget (Exc e)
      (flat_map (warned kw retry_sleep) ms ++ [Run kw (inl e)]) ms
| rerun_exhausted (ms : list Message) :
    length ms = budget ->
    (ms <> [] -> 0 <= retry_sleep) ->
    rerun_trace args kw retry_sleep budget
      (Exc (RecoverableError (FailedToRerun args kw)))
      (flat_map (warned kw retry_sleep) ms) ms
| rerun_sleep_raised (m : Message) :
    (0 < budget)%nat ->
    retry_sleep < 0 ->
    rerun_trace args kw retry_sleep budget (Exc sleep_error)
      (unslept kw m) [].

(** One refused address: the call of [connect] and the log line. *)
Definition refused (a : ConnectArgs) (ip_ex : string * Exn) : list Event :=
  [Connect ip_ex.1 a (inl ip_ex.2); Log Info (CantConnect ip_ex.1 ip_ex.2)].

(** The exit command was sent and returned [length results] times, and the
    closing loop then ended and the session was closed. *)
Definition closing_events (kwargs : RunKwargs) (results : list string)
  : list Event :=
  flat_map (exit_turn kwargs) results ++ [IsClosed true; Close].

(** A call of [run] that raised something else than a warning. *)
Definition fatal_run (ev : Event) : bool :=
  match ev with
  | Run _ (inl e) => negb (is_warning e)
  | _ => false
  end.

(** Either no call of [run] raised anything but warnings, or the one that
    did is the last event and its exception is how the computation ended. *)
Definition aborts_at_fatal {A} (o : Outcome A) (evs : list Event) : Prop :=
  Forall (fun ev => fatal_run ev = false) evs \/
  exists pre kw e,
    evs = pre ++ [Run kw (inl e)] /\
    Forall (fun ev => fatal_run ev = false) pre /\
    is_warning e = false /\ o = Exc e.

(** A computation whose writes are all in its events, and which stops at
    the first fatal line. *)
Definition tracked {connection A} (m : M connection A) : Prop :=
  forall w o w' evs,
    m w = (o, w', evs) ->
    runtime_properties w' = replay (stores_of evs) (runtime_properties w) /\
    aborts_at_fatal o evs.

(** A line that is sent to the device: [op_line.strip()] is not empty. *)
Definition nonblank (op_line : string) : bool := Py.truthy (Py.strip op_line).

(** What the source stores for the outputs [parts] of a call's lines:
    [result] after [result += (result_part + "\n")] for each, stripped. *)
Definition stored_result (parts : list string) : string :=
  Py.strip (Py.join_newline parts).

(** What the specification says is stored: every output trimmed, then
    joined with newlines, then trimmed. *)
Definition spec_stored_result (parts : list string) : string :=
  Py.strip (Py.join_newline (map Py.strip parts)).

Section Reading.

Context (connection : terminal_connection.connection).
Context (ctx : Ctx).
Context (render : string -> gmap string ParamValue -> string).

(** The address list the task ends up with (lines 59-67), as a value. *)
Definition ip_list_of (terminal_auth : TerminalAuth) : list string :=
  match auth_ip terminal_auth with
  | Some spec =>
      if truthy_ip (Some spec) then as_ip_list spec
      else [host_ip (ctx_instance ctx)]
  | None => [host_ip (ctx_instance ctx)]
  end.

(** The arguments [run] gives to [connect]. *)
Definition connect_args_of (kwargs : Kwargs) : ConnectArgs :=
  connect_args (merged_auth ctx kwargs)
    (if get (auth_store_logs (merged_auth ctx kwargs)) false
     then Some (log_file_of ctx (ctx_instance ctx)) else None).

(** The keywords of the exit command of a run whose last call is
    [last_call]. *)
Definition exit_kwargs_of (kwargs : Kwargs) (last_call : Call) : RunKwargs :=
  exit_kwargs (get (auth_exit_command (merged_auth ctx kwargs)) "exit")
    (override (auth_promt_check (merged_auth ctx kwargs))
              (promt_check last_call))
    (get (errors last_call) (get (auth_errors (merged_auth ctx kwargs)) [])).

(** What [run] logs before it connects: the fallback on the container and
    the name of the log file, when they apply. *)
Definition fallback_log (kwargs : Kwargs) : list Event :=
  if truthy_ip (auth_ip (merged_auth ctx kwargs)) then []
  else [Log Info (UsedHostFromContainer [host_ip (ctx_instance ctx)])].

Definition store_logs_log (kwargs : Kwargs) : list Event :=
  if get (auth_store_logs (merged_auth ctx kwargs)) false
  then [Log Info (LogsSavedTo (log_file_of ctx (ctx_instance ctx)))]
  else [].

(** The transport refuses every address of [ips] in turn, starting from
    the state [s]: the exceptions it raises and the state it ends in. *)
Fixpoint connect_failures (a : ConnectArgs) (ips : list string)
    (s : terminal_connection.state connection)
  : option (list Exn * terminal_connection.state connection) :=
  match ips with
  | [] => Some ([], s)
  | ip :: rest =>
      match terminal_connection.connect connection s ip a with
      | (inl ex, s1) =>
          match connect_failures a rest s1 with
          | Some (exs, s2) => Some (ex :: exs, s2)
          | None => None
          end
      | (inr _, _) => None
      end
  end.

(** Starting from the state [s], the transport reports "not closed" and
    lets the exit command return, [turns] times, and then reports
    "closed": the results of the exit commands and the state it ends in. *)
Fixpoint exits_until_closed (kw : RunKwargs) (turns : nat)
    (s : terminal_connection.state connection)
  : option (list string * terminal_connection.state connection) :=
  match terminal_connection.is_closed connection s with
  | (true, s1) =>
      match turns with
      | O => Some ([], s1)
      | S _ => None
      end
  | (false, s1) =>
      match turns with
      | O => None
      | S turns' =>
          match terminal_connection.run connection s1 kw with
          | (inr result, s2) =>
              match exits_until_closed kw turns' s2 with
              | Some (results, s3) => Some (result :: results, s3)
              | None => None
              end
          | (inl _, _) => None
          end
      end
  end.

(** The text of a call as the source resolves it: the action when it is
    not empty; else, with a template name, the rendered template, or
    nothing when the lookup gives nothing; else (no template name, or a
    template that rendered to nothing) the rendered inline text when it is
    given and not empty; else nothing. *)
Definition compile (call : Call) : string :=
  let inline (_ : unit) :=
    match template_text call with
    | Some (String a r) => render (String a r) (template_namespace call)
    | _ => ""
    end in
  match action call with
  | Some (String a r) => String a r
  | _ =>
      match template call with
      | Some template_name =>
          match get_resource ctx template_name with
          | Some (String a r) =>
              match render (String a r) (template_namespace call) with
              | String b t => String b t
              | EmptyString => inline tt
              end
          | _ => ""
          end
      | None => inline tt
      end
  end.

(** What resolving the text of a call logs: one line when the call is
    skipped for a template that cannot be found or is empty, or for an
    inline text that is empty; nothing otherwise. *)
Definition compile_log (call : Call) : list Event :=
  let inline (_ : unit) :=
    match template_text call with
    | Some EmptyString => [Log Info EmptyTemplateText]
    | _ => []
    end in
  match action call with
  | Some (String a r) => []
  | _ =>
      match template call with
      | Some template_name =>
          match get_resource ctx template_name with
          | Some (String a r) =>
              match render (String a r) (template_namespace call) with
              | String b t => []
              | EmptyString => inline tt
              end
          | _ => [Log Info EmptyTemplate]
          end
      | None => inline tt
      end
  end.

(** The resolution order in the words of the specification: (a) the
    action when it is not empty; (b) else, if a template name is given,
    the rendered template, a failed lookup counting as empty; (c) else, if
    inline text is given, that text rendered; (d) otherwise empty. *)
Definition spec_compile (call : Call) : string :=
  match action call with
  | Some (String a r) => String a r
  | _ =>
      match template call with
      | Some template_name =>
          match get_resource ctx template_name with
          | Some (String a r) => render (String a r) (template_namespace call)
          | _ => ""
          end
      | None =>
          match template_text call with
          | Some text => render text (template_namespace call)
          | None => ""
          end
      end
  end.

End Reading.

(* ===================================================================== *)
(** * A scripted transport and a sample context, for concrete runs *)
(* ===================================================================== *)

Module Scripted.

(** What the device will do: the results of the next calls of [connect],
    [run] and [is_closed], and what they do once the script is used up. *)
Record script := {
  connects : list (Exn + string);
  runs : list (Exn + string);
  run_default : Exn + string;
  closed : list bool;
  closed_default : bool
}.

Definition unreachable : Exn :=
  OtherException "socket.error" (Text "unreachable").

Definition connect (s : script) (ip : string) (a : ConnectArgs)
  : (Exn + string) * script :=
  match connects s with
  | r :: rest =>
      (r, {| connects := rest; runs := runs s; run_default := run_default s;
             closed := closed s; closed_default := closed_default s |})
  | [] => (inl unreachable, s)
  end.

Definition run (s : script) (kw : RunKwargs) : (Exn + string) * script :=
  match runs s with
  | r :: rest =>
      (r, {| connects := connects s; runs := rest;
             run_default := run_default s;
             closed := closed s; closed_default := closed_default s |})
  | [] => (run_default s, s)
  end.

Definition is_closed (s : script) : bool * script :=
  match closed s with
  | b :: rest =>
      (b, {| connects := connects s; runs := runs s;
             run_default := run_default s;
             closed := rest; closed_default := closed_default s |})
  | [] => (closed_default s, s)
  end.

Definition close (s : script) : script := s.

Definition connection : terminal_connection.connection :=
  {| terminal_connection.state := script;
     terminal_connection.connect := connect;
     terminal_connection.run := run;
     terminal_connection.is_closed := is_closed;
     terminal_connection.close := close |}.

Definition world (s : script) : World connection :=
  @Build_World connection s ∅.

End Scripted.

Module Sample.

Definition instance : Instance :=
  {| host_ip := "10.0.0.1"; instance_id := "router_1" |}.

(** A context whose only resource, ["noop.tpl"], is a template made of a
    comment. *)
Definition ctx : Ctx :=
  {| scope := NodeScope None instance;
     execution_id := "exec";
     workflow_id := "install";
     get_resource := fun name =>
       if String.eqb name "noop.tpl" then Some "{# nothing #}" else None |}.

(** A renderer that agrees with jinja2 on the two kinds of text used here:
    a lone comment renders to nothing, text without markup to itself. *)
Definition render (text : string) (namespace : gmap string ParamValue)
  : string :=
  if String.eqb text "{# nothing #}" then "" else text.

Definition call : Call :=
  {| responses := None; promt_check := None; errors := None;
     warnings := None; criticals := None; action := None; template := None;
     params := None; template_text := None; retry_count := None;
     retry_sleep := None; save_to := None |}.

Definition act (text : string) : Call :=
  {| responses := None; promt_check := None; errors := None;
     warnings := None; criticals := None; action := Some text;
     template := None; params := None; template_text := None;
     retry_count := None; retry_sleep := None; save_to := None |}.

(** A call with patterns of the three kinds and a prompt check of its
    own. *)
Definition act_with_patterns (text : string) : Call :=
  {| responses := None; promt_check := Some ["#"];
     errors := Some ["% Invalid"]; warnings := Some ["busy"];
     criticals := Some ["fatal"]; action := Some text;
     template := None; params := None; template_text := None;
     retry_count := None; retry_sleep := None; save_to := None |}.

Definition act_and_save (text key : string) : Call :=
  {| responses := None; promt_check := None; errors := None;
     warnings := None; criticals := None; action := Some text;
     template := None; params := None; template_text := None;
     retry_count := None; retry_sleep := None; save_to := Some key |}.

Definition auth (ip : option IpSpec) (user : option string) : TerminalAuth :=
  {| auth_ip := ip; auth_user := user; auth_password := Some "secret";
     auth_key_content := None; auth_port := None; auth_promt_check := None;
     auth_errors := None; auth_warnings := None; auth_criticals := None;
     auth_exit_command := None; auth_store_logs := None |}.

Definition kwargs (calls : list Call) (a : TerminalAuth) : Kwargs :=
  {| kw_calls := Some calls; kw_terminal_auth := Some a |}.

Definition warning : Exn + string :=
  inl (RecoverableWarning (Text "busy")).

Definition critical : Exn :=
  NonRecoverableError (Text "critical pattern").

(** A device that does what [runs] says and is closed at the first check. *)
Definition device (connects runs : list (Exn + string)) : Scripted.script :=
  {| Scripted.connects := connects; Scripted.runs := runs;
     Scripted.run_default := inr ""; Scripted.closed := [];
     Scripted.closed_default := true |}.

(** A device that reports [closed], then "closed" for ever. *)
Definition closing_device (closed : list bool) : Scripted.script :=
  {| Scripted.connects := [inr "#"]; Scripted.runs := [];
     Scripted.run_default := inr ""; Scripted.closed := closed;
     Scripted.closed_default := true |}.

(** A device that answers every line with a warning. *)
Definition busy_device : Scripted.script :=
  {| Scripted.connects := [inr "#"]; Scripted.runs := [];
     Scripted.run_default := warning; Scripted.closed := [];
     Scripted.closed_default := true |}.

(** A device that never reports "closed". *)
Definition stubborn_device : Scripted.script :=
  {| Scripted.connects := [inr "#"]; Scripted.runs := [];
     Scripted.run_default := inr ""; Scripted.closed := [];
     Scripted.closed_default := false |}.

Definition no_globals : Globals :=
  {| global_promt_check := None; global_error_examples := [];
     global_warning_examples := []; global_critical_examples := [] |}.

(** "show version", with a retry count of 3 and a pause of 5 seconds. *)
Definition three_tries : Call :=
  {| responses := None; promt_check := None; errors := None;
     warnings := None; criticals := None; action := Some "show version";
     template := None; params := None; template_text := None;
     retry_count := Some 3; retry_sleep := Some 5; save_to := None |}.

(** Two lines around a blank one, saved under ["out"]. *)
Definition two_lines : Call :=
  act_and_save
    ("show version" +:+ String Py.newline (String Py.newline "show interfaces"))
    "out".

(** A template that renders to nothing, and an inline text. *)
Definition empty_template_and_text : Call :=
  {| responses := None; promt_check := None; errors := None;
     warnings := None; criticals := None; action := None;
     template := Some "noop.tpl"; params := None;
     template_text := Some "ls"; retry_count := None;
     retry_sleep := None; save_to := None |}.

(** A template that cannot be found, and an inline text. *)
Definition missing_template_and_text : Call :=
  {| responses := None; promt_check := None; errors := None;
     warnings := None; criticals := None; action := None;
     template := Some "missing.tpl"; params := None;
     template_text := Some "ls"; retry_count := None;
     retry_sleep := None; save_to := None |}.

(** An inline text that is empty, and a save key. *)
Definition empty_text_saved : Call :=
  {| responses := None; promt_check := None; errors := None;
     warnings := None; criticals := None; action := None;
     template := None; params := None;
     template_text := Some EmptyString; retry_count := None;
     retry_sleep := None; save_to := Some "out" |}.

Definition admin_at (ips : list string) : TerminalAuth :=
  auth (Some (IpList ips)) (Some "admin").

(** No calls and no credentials at all. *)
Definition nothing_to_do : Kwargs :=
  {| kw_calls := None; kw_terminal_auth := None |}.

(** [closing_device closed] once the task is connected and has seen some
    of the answers to "is it closed". *)
Definition connected (closed : list bool) : Scripted.script :=
  {| Scripted.connects := []; Scripted.runs := [];
     Scripted.run_default := inr ""; Scripted.closed := closed;
     Scripted.closed_default := true |}.

(** A device whose first address refuses for good and whose second one is
    unreachable. *)
Definition refusing_device : Scripted.script :=
  device [inl (NonRecoverableError (Text "bad password"));
          inl Scripted.unreachable] [].

(** A device that is unreachable at the first address and answers at the
    second. *)
Definition second_host_device : Scripted.script :=
  device [inl Scripted.unreachable; inr "#"] [inr "v1"].

(** A device that answers the first line, reports "not closed" and then
    answers the exit command with a warning. *)
Definition exit_refused_device : Scripted.script :=
  {| Scripted.connects := [inr "#"]; Scripted.runs := [inr "v1"; warning];
     Scripted.run_default := inr ""; Scripted.closed := [false];
     Scripted.closed_default := true |}.

(** [exit_refused_device] after the connection and the first line. *)
Definition exit_refused_later (runs : list (Exn + string))
    (closed : list bool) : Scripted.script :=
  {| Scripted.connects := []; Scripted.runs := runs;
     Scripted.run_default := inr ""; Scripted.closed := closed;
     Scripted.closed_default := true |}.

(** Three calls; the device will refuse the second one. *)
Definition version_reload_users : list Call :=
  [act_and_save "show version" "version"; act_and_save "reload" "reload";
   act "show users"].

End Sample.

(* ===================================================================== *)
(** * What a computation can emit and raise *)
(* ===================================================================== *)

(** [m] can return [a]. *)
Definition returns {connection A} (m : M connection A) (a : A) : Prop :=
  exists w w' evs, m w = (Val a, w', evs).

(** Every event of [m], however it ends, satisfies [P]. *)
Definition emits {connection A} (P : Event -> Prop) (m : M connection A)
  : Prop :=
  forall w o w' evs, m w = (o, w', evs) -> Forall P evs.

(** [m] always ends, and an exception it ends with satisfies [Q]. *)
Definition raises_only {connection A} (Q : Exn -> Prop) (m : M connection A)
  : Prop :=
  forall w o w' evs,
    m w = (o, w', evs) ->
    match o with
    | Val _ => True
    | Exc e => Q e
    | Unfinished => False
    end.

(** The string has a newline in it. *)
Fixpoint has_newline (s : string) : bool :=
  match s with
  | EmptyString => false
  | String a r => Ascii.eqb a Py.newline || has_newline r
  end.

(** The save keys of the calls: the values of ['save_to'] that are not
    empty. *)
Fixpoint save_keys (calls : list Call) : list string :=
  match calls with
  | [] => []
  | call :: rest =>
      match save_to call with
      | Some (String a r) => String a r :: save_keys rest
      | _ => save_keys rest
      end
  end.

(** Not a call of [connection.close()]. *)
Definition not_close (ev : Event) : Prop :=
  match ev with
  | Close => False
  | _ => True
  end.

(** Not a call of [connection.connect]. *)
Definition not_connect (ev : Event) : Prop :=
  match ev with
  | Connect _ _ _ => False
  | _ => True
  end.

(** The calls of [connection.connect] among the events, if any, are for an
    address of [ips], with the arguments [a]. *)
Definition connect_with (ips : list string) (a : ConnectArgs) (ev : Event)
  : Prop :=
  match ev with
  | Connect ip a' _ => In ip ips /\ a' = a
  | _ => True
  end.

(** The events of the closing loop: checks, log lines, the exit command
    with the keywords [kw], pauses of one second. *)
Definition closing_event (kw : RunKwargs) (ev : Event) : Prop :=
  match ev with
  | IsClosed _ | Log _ _ => True
  | Run kw' _ => kw' = kw
  | Sleep seconds => seconds = 1
  | _ => False
  end.

Section Policies.

Context (ctx : Ctx).
Context (render : string -> gmap string ParamValue -> string).

(** The events of [for call in calls]: log lines; a line sent to the
    device, which is a line of the text of one of the calls, is not blank,
    and goes with the keywords of that call; a pause, which is the
    [retry_sleep] of one of the calls and is not negative; a write, which is under the save key
    of one of the calls and whose value is stripped. *)
Definition call_event (g : Globals) (calls : list Call) (ev : Event) : Prop :=
  match ev with
  | Log _ _ => True
  | Run kw _ =>
      exists call,
        In call calls /\
        kw = line_kwargs g call (command kw) /\
        In (command kw) (Py.split_newline (compile ctx render call)) /\
        nonblank (command kw) = true
  | Sleep seconds =>
      0 <= seconds /\
      exists call, In call calls /\ seconds = get (retry_sleep call) 15
  | Store key value =>
      In key (save_keys calls) /\ Py.strip value = value
  | _ => False
  end.

(** The events of [run_session] on the calls [calls]: a call of [connect]
    is for an address of the resolved list, with the arguments of the run;
    the rest are events of the calls. *)
Definition session_event (kwargs : Kwargs) (calls : list Call) (ev : Event)
  : Prop :=
  match ev with
  | Connect ip a _ =>
      In ip (ip_list_of ctx (merged_auth ctx kwargs)) /\
      a = connect_args_of ctx kwargs
  | _ => call_event (globals_of (merged_auth ctx kwargs)) calls ev
  end.

(** The events of a run on the calls [calls], the last of which is
    [last_call]: those of the session, those of the closing loop, and
    [connection.close()]. *)
Definition run_event (kwargs : Kwargs) (calls : list Call) (last_call : Call)
    (ev : Event) : Prop :=
  session_event kwargs calls ev \/
  closing_event (exit_kwargs_of ctx kwargs last_call) ev \/
  ev = Close.

End Policies.

(* ===================================================================== *)
(** * cloudify_deployment_proxy: the helpers of [utils.py] and the tasks *)
(* ===================================================================== *)

Module deployment_proxy.

(** The Python values that go through the helpers: [None], booleans,
    integers, strings, and lists and mappings of strings. *)
Inductive PyValue :=
| VNone
| VBool (b : bool)
| VInt (z : Z)
| VStr (s : string)
| VList (items : list string)
| VDict (items : list (string * string)).

(** Truth value: [None], [False], [0], [""], [[]] and [{}] are false. *)
Definition truthy (v : PyValue) : bool :=
  match v with
  | VNone => false
  | VBool b => b
  | VInt z => negb (Z.eqb z 0)
  | VStr s => Py.truthy s
  | VList items => Py.truthy_list items
  | VDict items => Py.truthy_list items
  end.

(** [a or b] *)
Definition or_ (a b : PyValue) : PyValue := if truthy a then a else b.

(** [d.get(key)]: [None] when the key is not there. *)
Definition dict_get (d : gmap string PyValue) (key : string) : PyValue :=
  match d !! key with
  | Some v => v
  | None => VNone
  end.

(** [args.get(key) or instance_attr.get(key) or node_prop.get(key)] *)
Definition get_desired_value (key : string)
    (args instance_attr node_prop : gmap string PyValue) : PyValue :=
  or_ (or_ (dict_get args key) (dict_get instance_attr key))
      (dict_get node_prop key).

(** [ctx.instance.runtime_properties[_type][_key] = _value], on runtime
    properties whose values are mappings.  A [_type] that is not there is a
    KeyError. *)
Definition update_attributes
    (runtime_properties : gmap string (gmap string PyValue))
    (_type _key : string) (_value : PyValue)
  : Exn + gmap string (gmap string PyValue) :=
  match runtime_properties !! _type with
  | Some attributes =>
      inr (<[_type := <[_key := _value]> attributes]> runtime_properties)
  | None => inl (OtherException "KeyError" (Text _type))
  end.

(** 'Error: {0} while trying to run proxy task {1}' *)
Definition proxy_error (message operation : string) : Message :=
  Text ("Error: " +:+ message +:+ " while trying to run proxy task "
          +:+ operation).

(** 'Error traceback {0} with message {1}' *)
Definition traceback_log (traceback message : string) : string :=
  "Error traceback " +:+ traceback +:+ " with message " +:+ message.

(** What [getattr] raises on a name the object does not have. *)
Definition no_attribute (name : string) : Exn :=
  OtherException "AttributeError"
    (Text ("'DeploymentProxyBase' object has no attribute '" +:+ name
             +:+ "'")).

Section Proxy.

(** [exception_to_error_cause] of cloudify: the message and the traceback
    of the exception being handled. *)
Context (message_of traceback_of : Exn -> string).

(** The wrapper that [proxy_operation(operation)] puts around [task]: the
    lines it logs at level error, and what it raises or returns.  A task
    either raises or returns. *)
Definition proxy_operation (operation : string)
    (task : gmap string PyValue -> Exn + PyValue)
    (kwargs : gmap string PyValue) : list string * (Exn + PyValue) :=
  match task (<["operation" := VStr operation]> kwargs) with
  | inr value => ([], inr value)
  | inl (OperationRetry m) =>
      ([traceback_log (traceback_of (OperationRetry m))
          (message_of (OperationRetry m))],
       inl (OperationRetry
              (proxy_error (message_of (OperationRetry m)) operation)))
  | inl e =>
      ([traceback_log (traceback_of e) (message_of e)],
       inl (NonRecoverableError (proxy_error (message_of e) operation)))
  end.

(** The class [DeploymentProxyBase] of the package: building an object
    from keywords, which raises or returns it, and the methods of the
    class by name, each called without arguments on the object. *)
Context {Object : Type}.
Context (DeploymentProxyBase : gmap string PyValue -> Exn + Object).
Context (methods : string -> option (Object -> Exn + PyValue)).

(** The body of the task [name], [def name(operation, **_): return
    getattr(DeploymentProxyBase(_), operation)()]: [operation] is taken
    out of the keywords, the rest builds the object, then the attribute is
    looked up and called.  The texts of the exceptions are those of
    Python 2. *)
Definition task_body (name : string) (kwargs : gmap string PyValue)
  : Exn + PyValue :=
  match kwargs !! "operation" with
  | Some operation =>
      match DeploymentProxyBase (delete "operation" kwargs) with
      | inl e => inl e
      | inr object =>
          match operation with
          | VStr operation =>
              match methods operation with
              | Some method => method object
              | None => inl (no_attribute operation)
              end
          | _ =>
              inl (OtherException "TypeError"
                     (Text "getattr(): attribute name must be string"))
          end
      end
  | None =>
      inl (OtherException "TypeError"
             (Text (name +:+ "() takes exactly 1 argument (0 given)")))
  end.

Definition upload_blueprint :=
  proxy_operation "upload_blueprint" (task_body "upload_blueprint").
Definition create_deployment :=
  proxy_operation "create_deployment" (task_body "create_deployment").
Definition delete_deployment :=
  proxy_operation "delete_deployment" (task_body "delete_deployment").
Definition execute_start :=
  proxy_operation "execute_workflow" (task_body "execute_start").

End Proxy.

End deployment_proxy.

Module ProxySample.

Import deployment_proxy.

(** The text of an exception, and a fixed traceback. *)
Definition message_of (e : Exn) : string :=
  match e with
  | RecoverableWarning (Text s) | NonRecoverableError (Text s)
  | RecoverableError (Text s) | OperationRetry (Text s)
  | OtherException _ (Text s) => s
  | _ => ""
  end.

Definition traceback_of (e : Exn) : string := "Traceback".

(** The object is the keywords it was built with. *)
Definition DeploymentProxyBase (kwargs : gmap string PyValue)
  : Exn + gmap string PyValue := inr kwargs.

(** An object with two methods: one returns, one is not ready yet. *)
Definition methods (name : string)
  : option (gmap string PyValue -> Exn + PyValue) :=
  if String.eqb name "upload_blueprint" then
    Some (fun _ => inr (VBool true))
  else if String.eqb name "create_deployment" then
    Some (fun _ => inl (RecoverableError (Text "not ready")))
  else None.

End ProxySample.

(* ===================================================================== *)
(** * Facts about Python strings *)
(* ===================================================================== *)

Lemma append_cons (a : ascii) (s t : string) :
  String a s +:+ t = String a (s +:+ t).
Proof. reflexivity. Qed.

Lemma append_empty_l (t : string) : "" +:+ t = t.
Proof. reflexivity. Qed.

Lemma append_empty_r (s : string) : s +:+ "" = s.
Proof.
  induction s as [|a s IH]; [reflexivity|].
  rewrite append_cons, IH. reflexivity.
Qed.

Lemma append_assoc (s t u : string) : (s +:+ t) +:+ u = s +:+ (t +:+ u).
Proof.
  induction s as [|a s IH]; [reflexivity|].
  rewrite !append_cons, IH. reflexivity.
Qed.

(** A trailing newline does not survive [rstrip]. *)
Lemma rstrip_trailing_newline (s : string) :
  Py.rstrip (s +:+ String Py.newline "") = Py.rstrip s.
Proof.
  induction s as [|a s IH]; [reflexivity|].
  rewrite append_cons. simpl. rewrite IH. reflexivity.
Qed.

Lemma strip_trailing_newline (s : string) :
  Py.strip (s +:+ String Py.newline "") = Py.strip s.
Proof. unfold Py.strip. rewrite rstrip_trailing_newline. reflexivity. Qed.

(** [result] after the loop over the lines is the outputs, each followed
    by a newline; up to the last newline that is their join. *)
Lemma accumulate_join (parts : list string) (part : string) :
  fold_left (fun result p => result +:+ p +:+ String Py.newline "")
            parts (part +:+ String Py.newline "")
  = Py.join_newline (part :: parts) +:+ String Py.newline "".
Proof.
  revert part. induction parts as [|p parts IH]; intros part.
  - reflexivity.
  - cbn [fold_left].
    replace ((part +:+ String Py.newline "") +:+ p +:+ String Py.newline "")
      with ((part +:+ String Py.newline p) +:+ String Py.newline "")
      by (rewrite !append_assoc; reflexivity).
    rewrite IH.
    change (Py.join_newline (part :: p :: parts))
      with (part +:+ String Py.newline (Py.join_newline (p :: parts))).
    f_equal.
    destruct parts as [|q parts].
    + reflexivity.
    + change (Py.join_newline ((part +:+ String Py.newline p) :: q :: parts))
        with ((part +:+ String Py.newline p)
                +:+ String Py.newline (Py.join_newline (q :: parts))).
      change (Py.join_newline (p :: q :: parts))
        with (p +:+ String Py.newline (Py.join_newline (q :: parts))).
      rewrite append_assoc. reflexivity.
Qed.

Lemma strip_accumulate (parts : list string) :
  Py.strip (fold_left
              (fun result p => result +:+ p +:+ String Py.newline "")
              parts "")
  = stored_result parts.
Proof.
  destruct parts as [|part parts]; [reflexivity|].
  cbn [fold_left]. rewrite append_empty_l.
  rewrite accumulate_join, strip_trailing_newline. reflexivity.
Qed.

(* ===================================================================== *)
(** * Facts about lists of events *)
(* ===================================================================== *)

Lemma runs_of_app (e1 e2 : list Event) :
  runs_of (e1 ++ e2) = runs_of e1 ++ runs_of e2.
Proof.
  induction e1 as [|[| | |kw r| | |] e1 IH]; simpl; rewrite ?IH; reflexivity.
Qed.

Lemma outputs_of_app (e1 e2 : list Event) :
  outputs_of (e1 ++ e2) = outputs_of e1 ++ outputs_of e2.
Proof.
  induction e1 as [|[| | |kw [e|out]| | |] e1 IH]; simpl; rewrite ?IH;
    reflexivity.
Qed.

Lemma connects_of_app (e1 e2 : list Event) :
  connects_of (e1 ++ e2) = connects_of e1 ++ connects_of e2.
Proof.
  induction e1 as [|[| | | | | |] e1 IH]; simpl; rewrite ?IH; reflexivity.
Qed.

Lemma connect_failures_logged_app (e1 e2 : list Event) :
  connect_failures_logged (e1 ++ e2)
  = connect_failures_logged e1 ++ connect_failures_logged e2.
Proof.
  induction e1 as [|[lvl []| | | | | |] e1 IH]; simpl; rewrite ?IH;
    reflexivity.
Qed.

Lemma sleeps_of_app (e1 e2 : list Event) :
  sleeps_of (e1 ++ e2) = sleeps_of e1 ++ sleeps_of e2.
Proof.
  induction e1 as [|[| | | | | |] e1 IH]; simpl; rewrite ?IH; reflexivity.
Qed.

Lemma stores_of_app (e1 e2 : list Event) :
  stores_of (e1 ++ e2) = stores_of e1 ++ stores_of e2.
Proof.
  induction e1 as [|[| | | | | |] e1 IH]; simpl; rewrite ?IH; reflexivity.
Qed.

Lemma closes_of_app (e1 e2 : list Event) :
  closes_of (e1 ++ e2) = (closes_of e1 + closes_of e2)%nat.
Proof.
  induction e1 as [|[| | | | | |] e1 IH]; simpl; rewrite ?IH; reflexivity.
Qed.

Lemma replay_app (k1 k2 : list (string * string)) (props : gmap string string) :
  replay (k1 ++ k2) props = replay k2 (replay k1 props).
Proof. unfold replay. apply fold_left_app. Qed.

(** Under [aborts_at_fatal], a fatal call of [run] anywhere in the events
    is their last element, and its exception is the outcome. *)
Lemma aborts_at_fatal_last {A} (o : Outcome A) (evs pre post : list Event)
    (kw : RunKwargs) (e : Exn) :
  aborts_at_fatal o evs ->
  evs = pre ++ Run kw (inl e) :: post ->
  is_warning e = false ->
  post = [] /\ o = Exc e.
Proof.
  intros [Hq|(pre' & kw' & e' & Hevs & Hq & Hw & Ho)] -> Hne.
  - apply Forall_app in Hq as [_ Hq].
    apply Forall_cons in Hq as [Hq _].
    simpl in Hq. rewrite Hne in Hq. discriminate.
  - destruct post as [|x post' _] using rev_ind.
    + apply app_inj_tail in Hevs as [_ Hx].
      inversion Hx; subst. split; reflexivity.
    + change (pre ++ Run kw (inl e) :: post' ++ [x])
        with (pre ++ (Run kw (inl e) :: post') ++ [x]) in Hevs.
      rewrite app_assoc in Hevs.
      apply app_inj_tail in Hevs as [Hpre _]. subst pre'.
      apply Forall_app in Hq as [_ Hq].
      apply Forall_cons in Hq as [Hq _].
      simpl in Hq. rewrite Hne in Hq. discriminate.
Qed.

(* ===================================================================== *)
(** * Facts about computations *)
(* ===================================================================== *)

Section Facts.

Context {connection : terminal_connection.connection}.
Context (ctx : Ctx).
Context (render : string -> gmap string ParamValue -> string).

Lemma aborts_at_fatal_quiet {A} (o : Outcome A) (evs : list Event) :
  Forall (fun ev => fatal_run ev = false) evs -> aborts_at_fatal o evs.
Proof. intros H. left. exact H. Qed.

Lemma tracked_ret {A} (a : A) : tracked (ret connection a).
Proof.
  intros w o w' evs H. inversion H; subst. split; [reflexivity|].
  apply aborts_at_fatal_quiet. constructor.
Qed.

Lemma tracked_raise {A} (e : Exn) : tracked (@raise connection A e).
Proof.
  intros w o w' evs H. inversion H; subst. split; [reflexivity|].
  apply aborts_at_fatal_quiet. constructor.
Qed.

Lemma tracked_unfinished {A} : tracked (@unfinished connection A).
Proof.
  intros w o w' evs H. inversion H; subst. split; [reflexivity|].
  apply aborts_at_fatal_quiet. constructor.
Qed.

Lemma tracked_bind {A B} (m : M connection A) (f : A -> M connection B) :
  tracked m -> (forall a, tracked (f a)) -> tracked (bind connection m f).
Proof.
  intros Hm Hf w o w' evs H. unfold bind in H.
  destruct (m w) as [[o1 w1] e1] eqn:Em.
  destruct (Hm _ _ _ _ Em) as [Hp1 Ha1].
  destruct o1 as [a|e|].
  - destruct (f a w1) as [[o2 w2] e2] eqn:Ef.
    destruct (Hf a _ _ _ _ Ef) as [Hp2 Ha2].
    inversion H; subst. split.
    + rewrite stores_of_app, replay_app, Hp2, Hp1. reflexivity.
    + destruct Ha1 as [Hq1|(? & ? & ? & _ & _ & _ & Habs)];
        [|discriminate Habs].
      destruct Ha2 as [Hq2|(pre & kw & e & -> & Hq2 & Hw & ->)].
      * left. apply Forall_app. split; assumption.
      * right. exists (e1 ++ pre), kw, e.
        rewrite app_assoc. repeat split; try assumption.
        apply Forall_app. split; assumption.
  - inversion H; subst. split; [assumption|].
    destruct Ha1 as [Hq1|(pre & kw & e' & -> & Hq & Hw & Heq)].
    + left. assumption.
    + right. exists pre, kw, e'. inversion Heq; subst. repeat split; assumption.
  - inversion H; subst. split; [assumption|].
    destruct Ha1 as [Hq1|(? & ? & ? & _ & _ & _ & Habs)];
      [|discriminate Habs].
    left. assumption.
Qed.

Lemma tracked_log (lvl : Level) (m : LogMsg) :
  tracked (emit connection (Log lvl m)).
Proof.
  intros w o w' evs H. inversion H; subst. split; [reflexivity|].
  apply aborts_at_fatal_quiet. repeat constructor.
Qed.

Lemma tracked_log_info (m : LogMsg) : tracked (log_info connection m).
Proof. apply tracked_log. Qed.

Lemma tracked_log_debug (m : LogMsg) : tracked (log_debug connection m).
Proof. apply tracked_log. Qed.

Lemma sleep_nonneg (seconds : Z) :
  0 <= seconds -> sleep connection seconds = emit connection (Sleep seconds).
Proof.
  intros H. unfold sleep. destruct (seconds <? 0) eqn:E; [lia|reflexivity].
Qed.

Lemma sleep_negative (seconds : Z) :
  seconds < 0 -> sleep connection seconds = raise connection sleep_error.
Proof.
  intros H. unfold sleep. destruct (seconds <? 0) eqn:E; [reflexivity|lia].
Qed.

Lemma tracked_sleep (seconds : Z) : tracked (sleep connection seconds).
Proof.
  intros w o w' evs H. unfold sleep in H.
  destruct (seconds <? 0); inversion H; subst; (split; [reflexivity|]);
    apply aborts_at_fatal_quiet; repeat constructor.
Qed.

Lemma tracked_store (key value : string) : tracked (store connection key value).
Proof.
  intros w o w' evs H. inversion H; subst. split; [reflexivity|].
  apply aborts_at_fatal_quiet. repeat constructor.
Qed.

Lemma tracked_connect (ip : string) (a : ConnectArgs) :
  tracked (connection_connect connection ip a).
Proof.
  intros w o w' evs H. unfold connection_connect in H.
  destruct (terminal_connection.connect _ _ _ _) as [r s].
  inversion H; subst. split; [reflexivity|].
  apply aborts_at_fatal_quiet. repeat constructor.
Qed.

Lemma tracked_is_closed : tracked (connection_is_closed connection).
Proof.
  intros w o w' evs H. unfold connection_is_closed in H.
  destruct (terminal_connection.is_closed _ _) as [b s].
  inversion H; subst. split; [reflexivity|].
  apply aborts_at_fatal_quiet. repeat constructor.
Qed.

Lemma tracked_close : tracked (connection_close connection).
Proof.
  intros w o w' evs H. inversion H; subst. split; [reflexivity|].
  apply aborts_at_fatal_quiet. repeat constructor.
Qed.

(** [_rerun] on [connection.run], turn by turn. *)
Lemma rerun_loop_trace (args : list string) (kw : RunKwargs) (retry_sleep : Z)
    (budget : nat) (w : World connection) :
  exists o w' evs ms,
    rerun_loop connection (connection_run connection) args kw budget
      retry_sleep w = (o, w', evs) /\
    runtime_properties w' = runtime_properties w /\
    rerun_trace args kw retry_sleep budget o evs ms.
Proof.
  revert w. induction budget as [|n IH]; intros w.
  - exists (Exc (RecoverableError (FailedToRerun args kw))), w, [], [].
    repeat split. apply (rerun_exhausted _ _ _ _ []); [reflexivity|easy].
  - cbn [rerun_loop]. unfold bind at 1, connection_run at 1.
    destruct (terminal_connection.run connection (session w) kw)
      as [[e|output] s] eqn:Erun.
    + destruct e as [m| | | |];
        try (eexists _, _, _, []; split; [reflexivity|]; split;
             [reflexivity|]; apply (rerun_raised _ _ _ _ []);
             [simpl; lia|easy|reflexivity]).
      destruct (Z_lt_le_dec retry_sleep 0) as [Hneg|Hpos].
      * exists (Exc sleep_error), (Build_World s (runtime_properties w)),
          (unslept kw m), [].
        split; [|split].
        -- rewrite (sleep_negative _ Hneg). reflexivity.
        -- reflexivity.
        -- apply rerun_sleep_raised; [lia|exact Hneg].
      * destruct (IH (Build_World s (runtime_properties w)))
          as (o & w' & evs & ms & Hloop & Hprops & Htrace).
        exists o, w', (warned kw retry_sleep m ++ evs), (m :: ms).
        split; [|split].
        -- rewrite (sleep_nonneg _ Hpos).
           unfold bind, log_info, emit. rewrite Hloop.
           destruct o; reflexivity.
        -- exact Hprops.
        -- destruct Htrace as [ms out Hlen _|ms e Hlen _ Hw|ms Hlen _|m' _ Hneg].
           ++ rewrite app_assoc.
              apply (rerun_returned _ _ _ _ (m :: ms)); [simpl; lia|easy].
           ++ rewrite app_assoc.
              apply (rerun_raised _ _ _ _ (m :: ms));
                [simpl; lia|easy|exact Hw].
           ++ apply (rerun_exhausted _ _ _ _ (m :: ms)); [simpl; lia|easy].
           ++ lia.
    + eexists _, _, _, []. split; [reflexivity|]. split; [reflexivity|].
      apply (rerun_returned _ _ _ _ []); [simpl; lia|easy].
Qed.

Lemma bind_emit {A} (ev : Event) (f : unit -> M connection A)
    (w : World connection) :
  bind connection (emit connection ev) f w
  = match f tt w with (o, w', evs) => (o, w', ev :: evs) end.
Proof. reflexivity. Qed.

Lemma bind_ret {A B} (a : A) (f : A -> M connection B) (w : World connection) :
  bind connection (ret connection a) f w = f a w.
Proof. unfold bind, ret. destruct (f a w) as [[o w'] evs]. reflexivity. Qed.

Lemma warned_quiet (kw : RunKwargs) (retry_sleep : Z) (ms : list Message) :
  Forall (fun ev => fatal_run ev = false) (flat_map (warned kw retry_sleep) ms).
Proof. induction ms as [|m ms IH]; simpl; repeat constructor. exact IH. Qed.

Lemma warned_stores (kw : RunKwargs) (retry_sleep : Z) (ms : list Message) :
  stores_of (flat_map (warned kw retry_sleep) ms) = [].
Proof. induction ms as [|m ms IH]; simpl; [reflexivity|exact IH]. Qed.

Lemma warned_outputs (kw : RunKwargs) (retry_sleep : Z) (ms : list Message) :
  outputs_of (flat_map (warned kw retry_sleep) ms) = [].
Proof. induction ms as [|m ms IH]; simpl; [reflexivity|exact IH]. Qed.

Lemma warned_runs (kw : RunKwargs) (retry_sleep : Z) (ms : list Message) :
  runs_of (flat_map (warned kw retry_sleep) ms)
  = map (fun m => (kw, inl (RecoverableWarning m))) ms.
Proof. induction ms as [|m ms IH]; simpl; [reflexivity|]. rewrite IH. reflexivity. Qed.

Lemma warned_sleeps (kw : RunKwargs) (retry_sleep : Z) (ms : list Message) :
  sleeps_of (flat_map (warned kw retry_sleep) ms)
  = repeat retry_sleep (length ms).
Proof. induction ms as [|m ms IH]; simpl; [reflexivity|]. rewrite IH. reflexivity. Qed.

Lemma rerun_trace_stores args kw retry_sleep budget o evs ms :
  rerun_trace args kw retry_sleep budget o evs ms -> stores_of evs = [].
Proof.
  intros [ms' out _ _|ms' e _ _ _|ms' _ _|m _ _];
    rewrite ?stores_of_app, ?warned_stores; reflexivity.
Qed.

Lemma rerun_trace_aborts args kw retry_sleep budget o evs ms :
  rerun_trace args kw retry_sleep budget o evs ms -> aborts_at_fatal o evs.
Proof.
  intros [ms' out _ _|ms' e _ _ Hw|ms' _ _|m _ _].
  - left. apply Forall_app. split; [apply warned_quiet|repeat constructor].
  - right. exists (flat_map (warned kw retry_sleep) ms'), kw, e.
    repeat split; [apply warned_quiet|exact Hw].
  - left. apply warned_quiet.
  - left. repeat constructor.
Qed.

Lemma tracked_rerun (args : list string) (kw : RunKwargs)
    (retry_count retry_sleep : Z) :
  tracked (_rerun connection (connection_run connection) args kw
             retry_count retry_sleep).
Proof.
  intros w o w' evs H.
  destruct (rerun_loop_trace args kw retry_sleep (Z.to_nat 10) w)
    as (o' & w'' & evs' & ms & Hloop & Hprops & Htrace).
  unfold _rerun in H. rewrite Hloop in H. inversion H; subst.
  split.
  - rewrite (rerun_trace_stores _ _ _ _ _ _ _ Htrace). exact Hprops.
  - exact (rerun_trace_aborts _ _ _ _ _ _ _ Htrace).
Qed.

Lemma tracked_uncaught_run (args : list string) (kw : RunKwargs) :
  tracked (uncaught connection (connection_run connection args kw)).
Proof.
  intros w o w' evs H. unfold uncaught, bind, connection_run in H.
  destruct (terminal_connection.run connection (session w) kw)
    as [[e|output] s].
  - inversion H; subst. split; [reflexivity|].
    destruct (is_warning e) eqn:Hw.
    + left. constructor; [simpl; rewrite Hw; reflexivity|constructor].
    + right. exists [], kw, e. repeat split; [constructor|exact Hw].
  - inversion H; subst. split; [reflexivity|].
    left. repeat constructor.
Qed.

Create HintDb tracked.

#[local] Hint Resolve tracked_ret tracked_raise tracked_unfinished
  tracked_log_info tracked_log_debug tracked_sleep tracked_store
  tracked_connect tracked_is_closed tracked_close tracked_rerun
  tracked_uncaught_run : tracked.

(** One step of a proof that a piece of [run] is [tracked]. *)
Ltac tracked_step :=
  first
    [ solve [auto with tracked nocore]
    | apply tracked_bind; [|intros ?]
    | match goal with
      | |- tracked (if ?b then _ else _) => destruct b
      | |- tracked (match ?x with _ => _ end) => destruct x
      end ].

Lemma tracked_connect_first (ip_list : list string) (a : ConnectArgs) :
  tracked (connect_first connection ip_list a).
Proof.
  induction ip_list as [|ip rest IH]; cbn [connect_first];
    repeat tracked_step.
Qed.

Lemma tracked_run_lines (g : Globals) (call : Call) (lines : list string)
    (result : string) :
  tracked (run_lines connection g call lines result).
Proof.
  revert result. induction lines as [|op_line rest IH]; intros result;
    cbn [run_lines]; repeat tracked_step.
Qed.

Lemma tracked_call_operation (call : Call) :
  tracked (call_operation connection ctx render call).
Proof.
  unfold call_operation, from_template, from_template_text.
  repeat tracked_step.
Qed.

#[local] Hint Resolve tracked_connect_first tracked_run_lines
  tracked_call_operation : tracked.

Lemma tracked_run_call (g : Globals) (call : Call) :
  tracked (run_call connection ctx render g call).
Proof. unfold run_call. repeat tracked_step. Qed.

#[local] Hint Resolve tracked_run_call : tracked.

Lemma tracked_run_calls (g : Globals) (calls : list Call) :
  tracked (run_calls connection ctx render g calls).
Proof.
  induction calls as [|call rest IH]; cbn [run_calls]; repeat tracked_step.
Qed.

Lemma tracked_close_loop (fuel : nat) (exit_command : string)
    (promt_check : option (list string)) (error_examples : list string) :
  tracked (close_loop connection fuel exit_command promt_check error_examples).
Proof.
  induction fuel as [|fuel IH]; cbn [close_loop]; repeat tracked_step.
Qed.

#[local] Hint Resolve tracked_run_calls tracked_close_loop : tracked.

Lemma tracked_run_session (kwargs : Kwargs) (calls : list Call) :
  tracked (run_session connection ctx render kwargs calls).
Proof. unfold run_session, resolve_ip_list. repeat tracked_step. Qed.

#[local] Hint Resolve tracked_run_session : tracked.

Lemma tracked_run (kwargs : Kwargs) (fuel : nat) :
  tracked (run connection ctx render kwargs fuel).
Proof. unfold run, run_closing. repeat tracked_step. Qed.

(** ** The credentials and the choice of a host *)

Lemma resolve_ip_list_eq (terminal_auth : TerminalAuth) (w : World connection) :
  resolve_ip_list connection ctx terminal_auth w
  = (Val (ip_list_of ctx terminal_auth), w,
     if truthy_ip (auth_ip terminal_auth) then []
     else [Log Info (UsedHostFromContainer [host_ip (ctx_instance ctx)])]).
Proof.
  unfold resolve_ip_list, ip_list_of.
  destruct (auth_ip terminal_auth) as [[ip|ips]|];
    [destruct ip|destruct ips|]; reflexivity.
Qed.

(** The fallback always leaves one address in the list. *)
Lemma ip_list_of_nonempty (terminal_auth : TerminalAuth) :
  Py.truthy_list (ip_list_of ctx terminal_auth) = true.
Proof.
  unfold ip_list_of.
  destruct (auth_ip terminal_auth) as [[ip|ips]|];
    [destruct ip|destruct ips|]; reflexivity.
Qed.

Lemma refused_connects (a : ConnectArgs) (ips : list string) (exs : list Exn) :
  length exs = length ips ->
  connects_of (flat_map (refused a) (zip ips exs)) = ips.
Proof.
  revert exs. induction ips as [|ip ips IH]; intros [|ex exs] Hlen;
    try discriminate; [reflexivity|].
  simpl. f_equal. apply IH. simpl in Hlen. lia.
Qed.

Lemma refused_logged (a : ConnectArgs) (l : list (string * Exn)) :
  connect_failures_logged (flat_map (refused a) l) = l.
Proof.
  induction l as [|[ip ex] l IH]; [reflexivity|]. simpl. rewrite IH.
  reflexivity.
Qed.

Lemma refused_runs (a : ConnectArgs) (l : list (string * Exn)) :
  runs_of (flat_map (refused a) l) = [].
Proof. induction l as [|[ip ex] l IH]; [reflexivity|exact IH]. Qed.

Lemma connect_failures_length (a : ConnectArgs) (ips : list string)
    (s s' : terminal_connection.state connection) (exs : list Exn) :
  connect_failures connection a ips s = Some (exs, s') ->
  length exs = length ips.
Proof.
  revert s exs. induction ips as [|ip ips IH]; intros s exs H; simpl in H.
  - inversion H. reflexivity.
  - destruct (terminal_connection.connect connection s ip a) as [[ex|p] s1];
      [|discriminate].
    destruct (connect_failures connection a ips s1) as [[exs' s2]|] eqn:E;
      [|discriminate].
    inversion H; subst. simpl. f_equal. exact (IH _ _ E).
Qed.

(** The loop over the addresses, when the first [length ips] of them are
    refused: it goes on with what follows them. *)
Lemma connect_first_refused (a : ConnectArgs) (ips rest : list string)
    (w : World connection) (exs : list Exn)
    (s' : terminal_connection.state connection) :
  connect_failures connection a ips (session w) = Some (exs, s') ->
  connect_first connection (ips ++ rest) a w
  = match connect_first connection rest a
            (Build_World s' (runtime_properties w)) with
    | (o, w', evs) => (o, w', flat_map (refused a) (zip ips exs) ++ evs)
    end.
Proof.
  revert w exs. induction ips as [|ip ips IH]; intros w exs H; simpl in H.
  - inversion H; subst. destruct w as [s props]. simpl.
    destruct (connect_first _ _ _ _) as [[o w'] evs]. reflexivity.
  - destruct (terminal_connection.connect connection (session w) ip a)
      as [[ex|p] s1] eqn:Ec; [|discriminate].
    destruct (connect_failures connection a ips s1) as [[exs' s2]|] eqn:E;
      [|discriminate].
    inversion H; subst.
    cbn [app connect_first]. unfold bind at 1, connection_connect at 1.
    rewrite Ec. unfold log_info. rewrite bind_emit.
    rewrite (IH (Build_World s1 (runtime_properties w)) exs' E).
    cbn [runtime_properties].
    destruct (connect_first _ _ _ _) as [[o w'] evs]. reflexivity.
Qed.

(** [run_session] when the check of line 73 fails. *)
Lemma run_session_missing (kwargs : Kwargs) (calls : list Call)
    (w : World connection) :
  negb (Py.truthy_list (ip_list_of ctx (merged_auth ctx kwargs)))
    || negb (Py.truthy_opt (auth_user (merged_auth ctx kwargs))) = true ->
  run_session connection ctx render kwargs calls w
  = (Exc (NonRecoverableError CheckCredentials), w, fallback_log ctx kwargs).
Proof.
  intros Hcheck. unfold run_session, bind at 1.
  rewrite resolve_ip_list_eq, Hcheck. unfold raise, fallback_log.
  rewrite app_nil_r. reflexivity.
Qed.

(** [run_session] when the check of line 73 passes: the connection loop,
    then the calls. *)
Lemma run_session_connects (kwargs : Kwargs) (calls : list Call)
    (w : World connection) :
  negb (Py.truthy_list (ip_list_of ctx (merged_auth ctx kwargs)))
    || negb (Py.truthy_opt (auth_user (merged_auth ctx kwargs))) = false ->
  run_session connection ctx render kwargs calls w
  = match connect_first connection (ip_list_of ctx (merged_auth ctx kwargs))
            (connect_args_of ctx kwargs) w with
    | (Val prompt, w1, evs1) =>
        match run_calls connection ctx render
                (globals_of (merged_auth ctx kwargs)) calls w1 with
        | (o, w2, evs2) =>
            (o, w2,
             fallback_log ctx kwargs ++ store_logs_log ctx kwargs
               ++ evs1 ++ Log Info (DevicePrompt prompt) :: evs2)
        end
    | (Exc e, w1, evs1) =>
        (Exc e, w1,
         fallback_log ctx kwargs ++ store_logs_log ctx kwargs ++ evs1)
    | (Unfinished, w1, evs1) =>
        (Unfinished, w1,
         fallback_log ctx kwargs ++ store_logs_log ctx kwargs ++ evs1)
    end.
Proof.
  intros Hcheck. unfold run_session, bind at 1.
  rewrite resolve_ip_list_eq, Hcheck.
  unfold connect_args_of, store_logs_log, fallback_log.
  destruct (get (auth_store_logs (merged_auth ctx kwargs)) false).
  - unfold log_info. unfold bind at 1. rewrite bind_emit.
    unfold ret at 1. unfold bind at 1.
    destruct (connect_first _ _ _ _) as [[[prompt|e|] w1] evs1];
      [|reflexivity..].
    rewrite bind_emit.
    destruct (run_calls _ _ _ _ _ _) as [[o w2] evs2]. reflexivity.
  - unfold bind at 1. unfold ret at 1. unfold bind at 1.
    destruct (connect_first _ _ _ _) as [[[prompt|e|] w1] evs1];
      [|reflexivity..].
    unfold log_info. rewrite bind_emit.
    destruct (run_calls _ _ _ _ _ _) as [[o w2] evs2]. reflexivity.
Qed.

(** ** The closing loop *)

Lemma exits_until_closed_length (kw : RunKwargs) (turns : nat)
    (s s' : terminal_connection.state connection) (results : list string) :
  exits_until_closed connection kw turns s = Some (results, s') ->
  length results = turns.
Proof.
  revert s results. induction turns as [|turns IH]; intros s results H;
    cbn [exits_until_closed] in H;
    destruct (terminal_connection.is_closed connection s) as [[|] s1];
    try discriminate.
  - inversion H. reflexivity.
  - destruct (terminal_connection.run connection s1 kw) as [[e|result] s2];
      [discriminate|].
    destruct (exits_until_closed connection kw turns s2)
      as [[results' s3]|] eqn:E; [|discriminate].
    inversion H; subst. simpl. f_equal. exact (IH _ _ E).
Qed.

(** With enough fuel the loop runs its [turns] turns and ends. *)
Lemma close_loop_closes (exit_command : string)
    (promt_check : option (list string)) (error_examples : list string)
    (turns fuel : nat) (w : World connection) (results : list string)
    (s' : terminal_connection.state connection) :
  Py.truthy exit_command = true ->
  exits_until_closed connection
    (exit_kwargs exit_command promt_check error_examples) turns (session w)
    = Some (results, s') ->
  (turns < fuel)%nat ->
  close_loop connection fuel exit_command promt_check error_examples w
  = (Val tt, Build_World s' (runtime_properties w),
     flat_map (exit_turn (exit_kwargs exit_command promt_check error_examples))
       results ++ [IsClosed true]).
Proof.
  intros Hexit. revert fuel w results.
  induction turns as [|turns IH]; intros fuel w results H Hfuel;
    (destruct fuel as [|fuel]; [lia|]);
    cbn [exits_until_closed] in H; cbn [close_loop];
    unfold bind at 1, connection_is_closed at 1;
    destruct (terminal_connection.is_closed connection (session w))
      as [[|] s1]; try discriminate.
  - inversion H; subst. reflexivity.
  - destruct (terminal_connection.run connection s1 _) as [[e|result] s2] eqn:Er;
      [discriminate|].
    destruct (exits_until_closed connection _ turns s2)
      as [[results' s3]|] eqn:E; [|discriminate].
    inversion H; subst. rewrite Hexit. cbn [negb andb].
    unfold log_info.
    change (sleep connection 1) with (emit connection (Sleep 1)).
    rewrite bind_emit.
    unfold bind at 1, uncaught at 1, bind at 1, connection_run at 1.
    cbn [session]. rewrite Er. cbn [ret]. rewrite !bind_emit.
    cbn [session runtime_properties].
    rewrite (IH fuel (Build_World s2 (runtime_properties w)) results' E)
      by lia.
    reflexivity.
Qed.

(** Without enough fuel the loop is still turning, and nothing was closed. *)
Lemma close_loop_unfinished (exit_command : string)
    (promt_check : option (list string)) (error_examples : list string)
    (turns fuel : nat) (w : World connection) (results : list string)
    (s' : terminal_connection.state connection) :
  Py.truthy exit_command = true ->
  exits_until_closed connection
    (exit_kwargs exit_command promt_check error_examples) turns (session w)
    = Some (results, s') ->
  (fuel <= turns)%nat ->
  exists w' evs,
    close_loop connection fuel exit_command promt_check error_examples w
      = (Unfinished, w', evs) /\
    closes_of evs = O.
Proof.
  intros Hexit. revert turns w results.
  induction fuel as [|fuel IH]; intros turns w results H Hfuel.
  - exists w, []. split; reflexivity.
  - destruct turns as [|turns]; [lia|].
    cbn [exits_until_closed] in H. cbn [close_loop].
    unfold bind at 1, connection_is_closed at 1.
    destruct (terminal_connection.is_closed connection (session w))
      as [[|] s1]; [discriminate|].
    destruct (terminal_connection.run connection s1 _) as [[e|result] s2] eqn:Er;
      [discriminate|].
    destruct (exits_until_closed connection _ turns s2)
      as [[results' s3]|] eqn:E; [|discriminate].
    inversion H; subst. rewrite Hexit. cbn [negb andb].
    unfold log_info.
    change (sleep connection 1) with (emit connection (Sleep 1)).
    rewrite bind_emit.
    unfold bind at 1, uncaught at 1, bind at 1, connection_run at 1.
    cbn [session]. rewrite Er. cbn [ret]. rewrite !bind_emit.
    cbn [session runtime_properties].
    destruct (IH turns (Build_World s2 (runtime_properties w)) results' E)
      as (w' & evs & Hloop & Hcl); [lia|].
    rewrite Hloop. eexists _, _. split; [reflexivity|]. exact Hcl.
Qed.

Lemma exit_turn_closes (kw : RunKwargs) (results : list string) :
  closes_of (flat_map (exit_turn kw) results) = O.
Proof. induction results as [|r results IH]; [reflexivity|exact IH]. Qed.

Lemma exit_turn_runs (kw : RunKwargs) (results : list string) :
  runs_of (flat_map (exit_turn kw) results)
  = map (fun r => (kw, inr r)) results.
Proof.
  induction results as [|r results IH]; [reflexivity|].
  simpl. rewrite IH. reflexivity.
Qed.

Lemma exit_turn_sleeps (kw : RunKwargs) (results : list string) :
  sleeps_of (flat_map (exit_turn kw) results) = repeat 1 (length results).
Proof.
  induction results as [|r results IH]; [reflexivity|].
  simpl. rewrite IH. reflexivity.
Qed.

(** [run] once [run_session] has returned. *)
Lemma run_after_session (kwargs : Kwargs) (fuel : nat)
    (first_call : Call) (more_calls : list Call)
    (w w1 : World connection) (evs1 : list Event) :
  kw_calls kwargs = Some (first_call :: more_calls) ->
  run_session connection ctx render kwargs (first_call :: more_calls) w
    = (Val tt, w1, evs1) ->
  run connection ctx render kwargs fuel w
  = match run_closing connection ctx fuel kwargs
            (List.last more_calls first_call) w1 with
    | (o, w2, evs2) => (o, w2, evs1 ++ evs2)
    end.
Proof.
  intros Hcalls Hsession. unfold run. rewrite Hcalls. cbn [get].
  unfold bind at 1. rewrite Hsession. reflexivity.
Qed.

(** ** The text of a call and its lines *)

(** [call_operation] computes [compile], changes nothing and only logs. *)
Lemma call_operation_compile (call : Call) (w : World connection) :
  exists logs,
    call_operation connection ctx render call w
      = (Val (if Py.truthy (compile ctx render call)
              then Some (compile ctx render call) else None), w, logs) /\
    runs_of logs = [] /\ outputs_of logs = [] /\ stores_of logs = [].
Proof.
  unfold call_operation, compile, from_template, from_template_text.
  destruct (action call) as [[|a r]|]; cbn [get Py.truthy];
    destruct (template call) as [name|];
    try destruct (get_resource ctx name) as [[|b t]|];
    try destruct (render (String b t) (template_namespace call))
      as [|c u] eqn:Er1;
    destruct (template_text call) as [[|d v]|];
    try destruct (render (String d v) (template_namespace call))
      as [|f x] eqn:Er2;
    unfold bind, ret, log_info, emit; cbn [Py.truthy];
    rewrite ?Er1, ?Er2; cbn [Py.truthy];
    eexists; (split; [reflexivity|repeat split]).
Qed.

(** [call_operation], with what it logs. *)
Lemma call_operation_log (call : Call) (w : World connection) :
  call_operation connection ctx render call w
  = (Val (if Py.truthy (compile ctx render call)
          then Some (compile ctx render call) else None), w,
     compile_log ctx render call).
Proof.
  unfold call_operation, compile, compile_log, from_template,
    from_template_text.
  destruct (action call) as [[|a r]|]; cbn [get Py.truthy];
    destruct (template call) as [name|];
    try destruct (get_resource ctx name) as [[|b t]|];
    try destruct (render (String b t) (template_namespace call))
      as [|c u] eqn:Er1;
    destruct (template_text call) as [[|d v]|];
    try destruct (render (String d v) (template_namespace call))
      as [|f x] eqn:Er2;
    unfold bind, ret, log_info, emit; cbn [Py.truthy];
    rewrite ?Er1, ?Er2; cbn [Py.truthy]; reflexivity.
Qed.

(** What [_rerun] leaves in the events when it returns: one output. *)
Lemma rerun_returned_output (args : list string) (kw : RunKwargs)
    (retry_count retry_sleep : Z) (w w' : World connection)
    (output : string) (evs : list Event) :
  _rerun connection (connection_run connection) args kw
    retry_count retry_sleep w = (Val output, w', evs) ->
  outputs_of evs = [(command kw, output)] /\
  stores_of evs = [] /\
  runtime_properties w' = runtime_properties w.
Proof.
  intros H.
  destruct (rerun_loop_trace args kw retry_sleep (Z.to_nat 10) w)
    as (o & w'' & evs' & ms & Hloop & Hprops & Htrace).
  unfold _rerun in H. rewrite Hloop in H. inversion H; subst.
  split; [|split; [exact (rerun_trace_stores _ _ _ _ _ _ _ Htrace)|exact Hprops]].
  inversion Htrace; subst.
  rewrite outputs_of_app, warned_outputs. reflexivity.
Qed.

(** The loop over the lines, when it returns: the lines that are not
    blank were sent in order, and [result] grew by each output and a
    newline. *)
Lemma run_lines_returned (g : Globals) (call : Call) (lines : list string)
    (result r : string) (w w' : World connection) (evs : list Event) :
  run_lines connection g call lines result w = (Val r, w', evs) ->
  map fst (outputs_of evs) = List.filter nonblank lines /\
  r = fold_left (fun acc p => acc +:+ p +:+ String Py.newline "")
        (map snd (outputs_of evs)) result /\
  stores_of evs = [] /\
  runtime_properties w' = runtime_properties w.
Proof.
  revert result w evs.
  induction lines as [|op_line rest IH]; intros result w evs H.
  - inversion H; subst. repeat split.
  - cbn [run_lines] in H. cbn [List.filter]. unfold nonblank at 1.
    destruct (Py.truthy (Py.strip op_line)); cbn [negb] in H;
      [|exact (IH _ _ _ H)].
    unfold log_info, log_debug in H. rewrite !bind_emit in H.
    unfold bind at 1 in H.
    destruct (_rerun connection (connection_run connection) []
                (line_kwargs g call op_line) (get (retry_count call) 10)
                (get (retry_sleep call) 15) w)
      as [[[output|e|] w1] evs1] eqn:Hrerun; try discriminate.
    destruct (rerun_returned_output _ _ _ _ _ _ _ _ Hrerun)
      as (Hout & Hst & Hprops).
    unfold bind at 1 in H.
    destruct (Py.truthy (Py.strip output)).
    + unfold emit at 1 in H.
      destruct (run_lines connection g call rest _ w1)
        as [[o2 w2] evs2] eqn:Hrest.
      inversion H; subst.
      destruct (IH _ _ _ Hrest) as (Hcmds & Hres & Hst2 & Hprops2).
      cbn [outputs_of stores_of].
      rewrite !outputs_of_app, !stores_of_app, Hout, Hst. cbn [outputs_of stores_of app map fold_left].
      repeat split; [f_equal; exact Hcmds|exact Hres|exact Hst2|congruence].
    + unfold ret at 1 in H.
      destruct (run_lines connection g call rest _ w1)
        as [[o2 w2] evs2] eqn:Hrest.
      inversion H; subst.
      destruct (IH _ _ _ Hrest) as (Hcmds & Hres & Hst2 & Hprops2).
      cbn [outputs_of stores_of].
      rewrite !outputs_of_app, !stores_of_app, Hout, Hst. cbn [outputs_of stores_of app map fold_left].
      repeat split; [f_equal; exact Hcmds|exact Hres|exact Hst2|congruence].
Qed.

(* ===================================================================== *)
(** * The claims *)
(* ===================================================================== *)

(** C10: when the caller gives no calls (the key is absent or the list is
    empty), [run] logs "No calls" and returns: the outcome is a plain
    return whatever the credentials are, the transport and the runtime
    properties are left as they were, and there is no connection attempt. *)
Theorem no_calls_returns_at_once (kwargs : Kwargs) (fuel : nat)
    (w : World connection) :
  kw_calls kwargs = None \/ kw_calls kwargs = Some [] ->
  run connection ctx render kwargs fuel w = (Val tt, w, [Log Info NoCalls]) /\
  connects_of [Log Info NoCalls] = [].
Proof.
  intros Hcalls. split; [|reflexivity].
  unfold run. destruct Hcalls as [-> | ->]; reflexivity.
Qed.

(** C6: with at least one call, when the address list after the merge and
    the fallback on the container is empty, or the user is missing or
    empty, [run] raises the NonRecoverableError "please check your
    credentials, ip or user not set" (fatal, not retryable) before any
    connection attempt, and changes nothing.  (The fallback always leaves
    one address, see [ip_list_of_nonempty]: in the source the check fires
    on the user only.) *)
Theorem missing_credentials_is_fatal (kwargs : Kwargs) (fuel : nat)
    (w : World connection) (first_call : Call) (more_calls : list Call) :
  kw_calls kwargs = Some (first_call :: more_calls) ->
  ip_list_of ctx (merged_auth ctx kwargs) = [] \/
    Py.truthy_opt (auth_user (merged_auth ctx kwargs)) = false ->
  run connection ctx render kwargs fuel w
    = (Exc (NonRecoverableError CheckCredentials), w, fallback_log ctx kwargs) /\
  connects_of (fallback_log ctx kwargs) = [] /\
  is_fatal (NonRecoverableError CheckCredentials) = true /\
  is_retryable (NonRecoverableError CheckCredentials) = false.
Proof.
  intros Hcalls Hmissing.
  assert (Hcheck :
    negb (Py.truthy_list (ip_list_of ctx (merged_auth ctx kwargs)))
      || negb (Py.truthy_opt (auth_user (merged_auth ctx kwargs))) = true).
  { destruct Hmissing as [-> | ->]; [reflexivity|apply orb_true_r]. }
  repeat split.
  - unfold run. rewrite Hcalls. cbn [get]. unfold bind.
    rewrite (run_session_missing _ _ _ Hcheck). reflexivity.
  - unfold fallback_log. destruct (truthy_ip _); reflexivity.
Qed.

(** C5: with at least one call and a user, when the transport refuses
    every address of the list in turn, [run] calls [connect] once per
    address, in the order of the list, logs every refusal with the address
    and the exception, sends nothing to the device, and raises
    OperationRetry, which is retryable.  The loop stops at the first
    address that connects: when an address after the refused ones is
    accepted, the addresses that follow it are not tried. *)
Theorem no_reachable_host_is_retryable (kwargs : Kwargs) (fuel : nat)
    (w : World connection) (first_call : Call) (more_calls : list Call)
    (exs : list Exn) (s' : terminal_connection.state connection) :
  kw_calls kwargs = Some (first_call :: more_calls) ->
  Py.truthy_opt (auth_user (merged_auth ctx kwargs)) = true ->
  connect_failures connection (connect_args_of ctx kwargs)
    (ip_list_of ctx (merged_auth ctx kwargs)) (session w) = Some (exs, s') ->
  (exists evs,
     run connection ctx render kwargs fuel w
       = (Exc (OperationRetry TryOneMoreTime),
          Build_World s' (runtime_properties w), evs) /\
     connects_of evs = ip_list_of ctx (merged_auth ctx kwargs) /\
     connect_failures_logged evs
       = zip (ip_list_of ctx (merged_auth ctx kwargs)) exs /\
     length (connect_failures_logged evs)
       = length (ip_list_of ctx (merged_auth ctx kwargs)) /\
     runs_of evs = []) /\
  is_retryable (OperationRetry TryOneMoreTime) = true /\
  is_fatal (OperationRetry TryOneMoreTime) = false /\
  (forall ip rest prompt s2,
     terminal_connection.connect connection s' ip (connect_args_of ctx kwargs)
       = (inr prompt, s2) ->
     connect_first connection
       (ip_list_of ctx (merged_auth ctx kwargs) ++ ip :: rest)
       (connect_args_of ctx kwargs) w
     = (Val prompt, Build_World s2 (runtime_properties w),
        flat_map (refused (connect_args_of ctx kwargs))
          (zip (ip_list_of ctx (merged_auth ctx kwargs)) exs)
          ++ [Connect ip (connect_args_of ctx kwargs) (inr prompt);
              Log Info (WillBeUsed ip)])).
Proof.
  intros Hcalls Huser Hfail.
  pose proof (connect_failures_length _ _ _ _ _ Hfail) as Hlen.
  assert (Hcheck :
    negb (Py.truthy_list (ip_list_of ctx (merged_auth ctx kwargs)))
      || negb (Py.truthy_opt (auth_user (merged_auth ctx kwargs))) = false).
  { rewrite ip_list_of_nonempty, Huser. reflexivity. }
  split; [|split; [reflexivity|split; [reflexivity|]]].
  - eexists. split.
    + unfold run. rewrite Hcalls. cbn [get]. unfold bind.
      rewrite (run_session_connects _ _ _ Hcheck).
      rewrite <- (app_nil_r (ip_list_of ctx (merged_auth ctx kwargs))) at 1.
      rewrite (connect_first_refused _ _ _ _ _ _ Hfail).
      cbn [connect_first]. unfold raise. reflexivity.
    + rewrite app_nil_r.
      rewrite !connects_of_app, !connect_failures_logged_app, !runs_of_app.
      rewrite refused_connects by exact Hlen.
      rewrite refused_logged, refused_runs.
      unfold fallback_log, store_logs_log.
      destruct (truthy_ip _), (get (auth_store_logs _) false); cbn;
        rewrite ?length_zip_with, ?Hlen, ?Nat.min_id; repeat split.
  - intros ip rest prompt s2 Hok.
    rewrite (connect_first_refused _ _ _ _ _ _ Hfail).
    cbn [connect_first]. unfold bind at 1, connection_connect at 1.
    cbn [session]. rewrite Hok. reflexivity.
Qed.

(** C2 (amended): whatever the transport does, [_rerun] on
    [connection.run] ends in one of four ways.  After some attempts that
    each raised a RecoverableWarning, were logged and were followed by a
    pause of [retry_sleep] (which is then not negative): the next attempt
    returned, and its output is the result; or the next attempt raised
    something that is not a RecoverableWarning, and that exception goes up
    at once, with no log line and no pause after it; or no attempt was
    left, every attempt made raised a RecoverableWarning, and [_rerun]
    raises a RecoverableError that carries [args] and [kwargs] - an
    exception the engine retries, not a fatal one.  Or else [retry_sleep]
    is negative: the first attempt raised a RecoverableWarning, which was
    logged, and the pause raised; that exception goes up and there is no
    second attempt.  The runtime properties are not touched. *)
Theorem rerun_outcomes (args : list string) (kw : RunKwargs)
    (retry_count retry_sleep : Z) (w : World connection) :
  exists o w' evs ms,
    _rerun connection (connection_run connection) args kw
      retry_count retry_sleep w = (o, w', evs) /\
    runtime_properties w' = runtime_properties w /\
    (ms <> [] -> 0 <= retry_sleep) /\
    ((exists output,
        o = Val output /\
        evs = flat_map (warned kw retry_sleep) ms ++ [Run kw (inr output)]) \/
     (exists e,
        o = Exc e /\ is_warning e = false /\
        evs = flat_map (warned kw retry_sleep) ms ++ [Run kw (inl e)]) \/
     (o = Exc (RecoverableError (FailedToRerun args kw)) /\
      evs = flat_map (warned kw retry_sleep) ms /\
      runs_of evs = map (fun m => (kw, inl (RecoverableWarning m))) ms /\
      is_retryable (RecoverableError (FailedToRerun args kw)) = true /\
      is_fatal (RecoverableError (FailedToRerun args kw)) = false) \/
     (retry_sleep < 0 /\ ms = [] /\
      exists m,
        o = Exc sleep_error /\
        evs = [Run kw (inl (RecoverableWarning m));
               Log Info (NeedRerun (RecoverableWarning m))] /\
        is_warning sleep_error = false)).
Proof.
  destruct (rerun_loop_trace args kw retry_sleep (Z.to_nat 10) w)
    as (o & w' & evs & ms & Hloop & Hprops & Htrace).
  exists o, w', evs, ms. split; [exact Hloop|]. split; [exact Hprops|].
  destruct Htrace as [ms output _ Hs|ms e _ Hs Hw|ms _ Hs|m _ Hneg].
  - split; [exact Hs|]. left. exists output. split; reflexivity.
  - split; [exact Hs|]. right. left. exists e. repeat split. exact Hw.
  - split; [exact Hs|]. right. right. left. repeat split. apply warned_runs.
  - split; [easy|]. right. right. right. repeat split; [exact Hneg|].
    exists m. repeat split.
Qed.

(** C3 (amended): the closing loop has no cap.  After the calls, with a
    non-empty exit command, when the transport reports "not closed" and
    lets the exit command return [turns] times and then reports "closed",
    the loop sends the exit command exactly [turns] times, whatever
    [turns] is, and [connection.close()] is then called once; a run that
    is given [turns] evaluations of the loop condition or fewer is still
    in the loop and has not called [connection.close()]. *)
Theorem closing_ends_when_transport_closes (kwargs : Kwargs) (fuel : nat)
    (first_call : Call) (more_calls : list Call)
    (w w1 : World connection) (evs1 : list Event)
    (turns : nat) (results : list string)
    (s' : terminal_connection.state connection) :
  kw_calls kwargs = Some (first_call :: more_calls) ->
  run_session connection ctx render kwargs (first_call :: more_calls) w
    = (Val tt, w1, evs1) ->
  Py.truthy (get (auth_exit_command (merged_auth ctx kwargs)) "exit") = true ->
  exits_until_closed connection
    (exit_kwargs_of ctx kwargs (List.last more_calls first_call))
    turns (session w1) = Some (results, s') ->
  ((turns < fuel)%nat ->
   run connection ctx render kwargs fuel w
     = (Val tt,
        Build_World (terminal_connection.close connection s')
          (runtime_properties w1),
        evs1 ++ closing_events
                  (exit_kwargs_of ctx kwargs (List.last more_calls first_call))
                  results) /\
   length (runs_of (closing_events
                      (exit_kwargs_of ctx kwargs
                         (List.last more_calls first_call)) results)) = turns /\
   closes_of (closing_events
                (exit_kwargs_of ctx kwargs (List.last more_calls first_call))
                results) = 1%nat) /\
  ((fuel <= turns)%nat ->
   exists w' evs2,
     run connection ctx render kwargs fuel w = (Unfinished, w', evs1 ++ evs2) /\
     closes_of evs2 = O).
Proof.
  intros Hcalls Hsession Hexit Hscript.
  pose proof (exits_until_closed_length _ _ _ _ _ Hscript) as Hlen.
  rewrite (run_after_session _ fuel _ _ _ _ _ Hcalls Hsession).
  unfold run_closing, bind, globals_of.
  cbn [global_promt_check global_error_examples]. split.
  - intros Hfuel.
    rewrite (close_loop_closes _ _ _ turns fuel w1 results s' Hexit Hscript Hfuel).
    unfold connection_close, closing_events. cbn [session runtime_properties].
    split; [|split].
    + rewrite <- app_assoc. reflexivity.
    + rewrite runs_of_app, exit_turn_runs, length_app, length_map.
      simpl. lia.
    + rewrite closes_of_app, exit_turn_closes. reflexivity.
  - intros Hfuel.
    destruct (close_loop_unfinished _ _ _ turns fuel w1 results s'
                Hexit Hscript Hfuel) as (w' & evs2 & Hloop & Hcl).
    rewrite Hloop. exists w', evs2. split; [reflexivity|exact Hcl].
Qed.

(** C9: after the calls, with a non-empty exit command, when the transport
    reports "not closed" twice and then "closed", and the exit command
    returns both times: exactly two exit commands are sent, each followed
    by a pause of one second, then [connection.close()] is called once.
    The exit command goes with the prompt check and the error patterns of
    the last call (those of the credentials when the call has none) and
    with nothing else: no warning patterns, no critical patterns and no
    responses are passed. *)
Theorem closing_after_two_exit_commands (kwargs : Kwargs) (fuel : nat)
    (first_call : Call) (more_calls : list Call)
    (w w1 : World connection) (evs1 : list Event)
    (s1 s2 s3 s4 s5 : terminal_connection.state connection)
    (r1 r2 : string) :
  kw_calls kwargs = Some (first_call :: more_calls) ->
  run_session connection ctx render kwargs (first_call :: more_calls) w
    = (Val tt, w1, evs1) ->
  Py.truthy (get (auth_exit_command (merged_auth ctx kwargs)) "exit") = true ->
  terminal_connection.is_closed connection (session w1) = (false, s1) ->
  terminal_connection.run connection s1
    (exit_kwargs_of ctx kwargs (List.last more_calls first_call))
    = (inr r1, s2) ->
  terminal_connection.is_closed connection s2 = (false, s3) ->
  terminal_connection.run connection s3
    (exit_kwargs_of ctx kwargs (List.last more_calls first_call))
    = (inr r2, s4) ->
  terminal_connection.is_closed connection s4 = (true, s5) ->
  (2 < fuel)%nat ->
  run connection ctx render kwargs fuel w
    = (Val tt,
       Build_World (terminal_connection.close connection s5)
         (runtime_properties w1),
       evs1 ++
       [IsClosed false; Log Info ExecuteClose;
        Run (exit_kwargs_of ctx kwargs (List.last more_calls first_call))
          (inr r1);
        Log Info (ResultOfClose r1); Sleep 1;
        IsClosed false; Log Info ExecuteClose;
        Run (exit_kwargs_of ctx kwargs (List.last more_calls first_call))
          (inr r2);
        Log Info (ResultOfClose r2); Sleep 1;
        IsClosed true; Close]) /\
  exit_kwargs_of ctx kwargs (List.last more_calls first_call)
    = {| command := get (auth_exit_command (merged_auth ctx kwargs)) "exit";
         prompt_check :=
           match promt_check (List.last more_calls first_call) with
           | Some check => Some check
           | None => auth_promt_check (merged_auth ctx kwargs)
           end;
         error_examples :=
           Some (match errors (List.last more_calls first_call) with
                 | Some patterns => patterns
                 | None =>
                     match auth_errors (merged_auth ctx kwargs) with
                     | Some patterns => patterns
                     | None => []
                     end
                 end);
         warning_examples := None;
         critical_examples := None;
         kw_responses := None |}.
Proof.
  intros Hcalls Hsession Hexit H1 H2 H3 H4 H5 Hfuel.
  split;
    [|unfold exit_kwargs_of, exit_kwargs, override, get;
      destruct (promt_check _), (errors _); reflexivity].
  rewrite (run_after_session _ fuel _ _ _ _ _ Hcalls Hsession).
  unfold run_closing, bind, globals_of.
  cbn [global_promt_check global_error_examples].
  assert (Hscript :
    exits_until_closed connection
      (exit_kwargs_of ctx kwargs (List.last more_calls first_call))
      2 (session w1) = Some ([r1; r2], s5)).
  { cbn [exits_until_closed]. rewrite H1, H2, H3, H4, H5. reflexivity. }
  rewrite (close_loop_closes _ _ _ 2%nat fuel w1 [r1; r2] s5 Hexit Hscript Hfuel).
  reflexivity.
Qed.

(** C4 (amended): for a call whose text is not empty and whose lines all
    end up returning, the lines that are not blank are sent in the order
    of the text and the blank ones are skipped; every output is appended
    to the result as it came back (only the copy that is logged is
    trimmed), followed by a newline; with a non-empty save key the result
    is trimmed and stored under that key - it is the trimmed newline-join
    of the outputs - and that is the only write; without a save key
    nothing is written. *)
Theorem call_lines_and_result (g : Globals) (call : Call)
    (w w' : World connection) (evs : list Event) :
  Py.truthy (compile ctx render call) = true ->
  run_call connection ctx render g call w = (Val tt, w', evs) ->
  map fst (outputs_of evs)
    = List.filter nonblank (Py.split_newline (compile ctx render call)) /\
  match save_to call with
  | Some (String a r) =>
      stores_of evs
        = [(String a r, stored_result (map snd (outputs_of evs)))] /\
      runtime_properties w'
        = <[String a r := stored_result (map snd (outputs_of evs))]>
            (runtime_properties w)
  | _ =>
      stores_of evs = [] /\
      runtime_properties w' = runtime_properties w
  end.
Proof.
  intros Htext H. unfold run_call in H. unfold bind at 1 in H.
  destruct (call_operation_compile call w) as (logs & Hop & _ & Hlo & Hls).
  rewrite Hop, Htext in H.
  set (logs1 := if Py.truthy_list (get (responses call) [])
                then [Log Info (PredefinedResponses (get (responses call) []))]
                else []).
  assert (Hrest :
    exists result w1 evs1,
      run_lines connection g call
        (Py.split_newline (compile ctx render call)) "" w = (Val result, w1, evs1) /\
      match save_to call with
      | Some (String a r) =>
          w' = Build_World (session w1)
                 (<[String a r := Py.strip result]> (runtime_properties w1)) /\
          evs = logs ++ logs1 ++ Log Debug (TemplateIs (compile ctx render call))
                  :: evs1 ++ [Log Info (ForSave (Py.strip result));
                              Store (String a r) (Py.strip result)]
      | _ =>
          w' = w1 /\
          evs = logs ++ logs1 ++ Log Debug (TemplateIs (compile ctx render call))
                  :: evs1 ++ []
      end).
  { subst logs1. unfold bind at 1 in H.
    destruct (Py.truthy_list (get (responses call) []));
      [unfold log_info at 1, emit at 1 in H|unfold ret at 1 in H];
      unfold log_debug in H; rewrite bind_emit in H;
      unfold bind at 1 in H;
      (destruct (run_lines connection g call _ "" w)
         as [[[result|e|] w1] evs1]; try discriminate);
      exists result, w1, evs1; (split; [reflexivity|]);
      (destruct (save_to call) as [[|a r]|];
       [| unfold log_info in H; rewrite bind_emit in H |];
       inversion H; subst; split; try reflexivity;
       destruct w1; reflexivity). }
  destruct Hrest as (result & w1 & evs1 & Hlines & Hsave).
  destruct (run_lines_returned _ _ _ _ _ _ _ _ Hlines)
    as (Hcmds & Hres & Hst & Hprops).
  assert (Houts : outputs_of evs = outputs_of evs1).
  { destruct (save_to call) as [[|a r]|]; destruct Hsave as [_ ->];
      rewrite !outputs_of_app, Hlo; subst logs1;
      destruct (Py.truthy_list _); cbn [outputs_of app];
      rewrite outputs_of_app, ?app_nil_r; reflexivity. }
  assert (Hstored : Py.strip result = stored_result (map snd (outputs_of evs))).
  { rewrite Houts, Hres. apply strip_accumulate. }
  rewrite Houts. split; [exact Hcmds|]. rewrite <- Houts.
  destruct (save_to call) as [[|a r]|]; destruct Hsave as [-> ->];
    rewrite <- ?Hstored;
    (split; [|cbn [runtime_properties]; congruence]);
    rewrite !stores_of_app, Hls; subst logs1;
    destruct (Py.truthy_list _); cbn [stores_of app];
    rewrite stores_of_app, Hst; reflexivity.
Qed.

(** C7 (amended): the text of a call is [compile]: the action when it is
    not empty; else the named template, rendered with the call's
    parameters and the context under ["ctx"] - a template that cannot be
    found, or is empty, is logged ("Empty template.") and the call is
    skipped; else, when no template is named or the named one rendered to
    nothing, the inline text, rendered the same way - an empty inline text
    is logged ("Empty template_text.") and the call is skipped; else
    nothing.  Resolving the text logs these lines and nothing else,
    changes nothing and sends nothing.  The namespace of the rendering
    binds ["ctx"] to the context and has the call's parameters under every
    other key.  A call whose text is empty is skipped: no line is sent and
    nothing is stored, whatever its save key, and the run of the call
    leaves no other event than the log line of the resolution. *)
Theorem call_text_resolution (g : Globals) (call : Call) (w : World connection) :
  call_operation connection ctx render call w
    = (Val (if Py.truthy (compile ctx render call)
            then Some (compile ctx render call) else None), w,
       compile_log ctx render call) /\
  (Py.truthy (compile ctx render call) = false ->
   run_call connection ctx render g call w
     = (Val tt, w, compile_log ctx render call)) /\
  runs_of (compile_log ctx render call) = [] /\
  stores_of (compile_log ctx render call) = [] /\
  (forall a r,
     action call = Some (String a r) ->
     compile ctx render call = String a r /\ compile_log ctx render call = []) /\
  (Py.truthy (get (action call) "") = false ->
   forall name,
     template call = Some name ->
     Py.truthy (get (get_resource ctx name) "") = false ->
     compile ctx render call = "" /\
     compile_log ctx render call = [Log Info EmptyTemplate]) /\
  (Py.truthy (get (action call) "") = false ->
   forall name text,
     template call = Some name ->
     get_resource ctx name = Some text ->
     Py.truthy text = true ->
     Py.truthy (render text (template_namespace call)) = true ->
     compile ctx render call = render text (template_namespace call) /\
     compile_log ctx render call = []) /\
  (Py.truthy (get (action call) "") = false ->
   (template call = None \/
    exists name text,
      template call = Some name /\ get_resource ctx name = Some text /\
      Py.truthy text = true /\
      Py.truthy (render text (template_namespace call)) = false) ->
   match template_text call with
   | Some (String a r) =>
       compile ctx render call
         = render (String a r) (template_namespace call) /\
       compile_log ctx render call = []
   | Some EmptyString =>
       compile ctx render call = "" /\
       compile_log ctx render call = [Log Info EmptyTemplateText]
   | None =>
       compile ctx render call = "" /\ compile_log ctx render call = []
   end) /\
  template_namespace call !! "ctx" = Some PCtx /\
  (forall key,
     key <> "ctx" ->
     template_namespace call !! key = get (params call) ∅ !! key).
Proof.
  pose proof (call_operation_log call w) as Hop.
  split; [exact Hop|].
  split.
  { intros Hempty. unfold run_call, bind.
    rewrite Hop, Hempty. unfold ret. rewrite app_nil_r. reflexivity. }
  split.
  { destruct (call_operation_compile call w) as (logs & Hop' & Hr & _ & _).
    rewrite Hop in Hop'. inversion Hop' as [Hlogs]. rewrite Hlogs. exact Hr. }
  split.
  { destruct (call_operation_compile call w) as (logs & Hop' & _ & _ & Hs).
    rewrite Hop in Hop'. inversion Hop' as [Hlogs]. rewrite Hlogs. exact Hs. }
  split.
  { intros a r Ha. unfold compile, compile_log. rewrite Ha.
    split; reflexivity. }
  split.
  { intros Hact name Hname Hres. unfold compile, compile_log.
    rewrite Hname.
    destruct (action call) as [[|a r]|]; try discriminate Hact;
      destruct (get_resource ctx name) as [[|b t]|]; try discriminate Hres;
      split; reflexivity. }
  split.
  { intros Hact name text Hname Hres Htext Hrender.
    unfold compile, compile_log. rewrite Hname, Hres.
    destruct text as [|b t]; [discriminate Htext|].
    destruct (render (String b t) (template_namespace call)) as [|c u];
      [discriminate Hrender|].
    destruct (action call) as [[|a r]|]; try discriminate Hact;
      split; reflexivity. }
  split.
  { intros Hact Htemplate. unfold compile, compile_log.
    assert (Haction : action call = None \/ action call = Some "").
    { destruct (action call) as [[|a r]|];
        [right; reflexivity|discriminate Hact|left; reflexivity]. }
    destruct Htemplate as [Hnone|(name & text & Hname & Hres & Htext & Hrender)].
    - rewrite Hnone.
      destruct Haction as [-> | ->];
        destruct (template_text call) as [[|d v]|]; split; reflexivity.
    - rewrite Hname, Hres.
      destruct text as [|b t]; [discriminate Htext|].
      destruct (render (String b t) (template_namespace call)) as [|c u];
        [|discriminate Hrender].
      destruct Haction as [-> | ->];
        destruct (template_text call) as [[|d v]|]; split; reflexivity. }
  split.
  { unfold template_namespace. apply lookup_insert_eq. }
  intros key Hkey. unfold template_namespace.
  apply lookup_insert_ne. intros Heq. apply Hkey. symmetry. exact Heq.
Qed.

(** C8: in any run, a line whose execution raises something that is not a
    RecoverableWarning ends the run there: the exception is the outcome of
    the run, the failed call of [connection.run] is the last thing the run
    did - no later line, no later call, no write, no closing - and the
    runtime properties are the ones the writes made before it left
    behind. *)
Theorem fatal_line_aborts_run (kwargs : Kwargs) (fuel : nat)
    (w w' : World connection) (o : Outcome unit)
    (evs pre post : list Event) (kw : RunKwargs) (e : Exn) :
  run connection ctx render kwargs fuel w = (o, w', evs) ->
  evs = pre ++ Run kw (inl e) :: post ->
  is_warning e = false ->
  o = Exc e /\
  post = [] /\
  runs_of post = [] /\ stores_of post = [] /\ closes_of post = O /\
  runtime_properties w' = replay (stores_of pre) (runtime_properties w).
Proof.
  intros Hrun Hevs Hfatal.
  destruct (tracked_run kwargs fuel _ _ _ _ Hrun) as [Hprops Habort].
  destruct (aborts_at_fatal_last _ _ _ _ _ _ Habort Hevs Hfatal) as [-> ->].
  repeat split.
  rewrite Hprops, Hevs, stores_of_app. cbn [stores_of].
  rewrite app_nil_r. reflexivity.
Qed.

End Facts.

(* ===================================================================== *)
(** * Concrete runs *)
(* ===================================================================== *)

(** The count a caller passes to [_rerun] plays no part in what it does. *)
Lemma rerun_ignores_retry_count (connection : terminal_connection.connection)
    (func : list string -> RunKwargs -> M connection (Exn + string))
    (args : list string) (kw : RunKwargs) (n m retry_sleep : Z) :
  _rerun connection func args kw n retry_sleep
  = _rerun connection func args kw m retry_sleep.
Proof. reflexivity. Qed.

(** C1 (the defect, at a failing input): the call asks for a retry count
    of 3 and the device answers "show version" with three warnings and
    then with its output.  The run sends the line four times, pauses three
    times for the 5 seconds of the call, and succeeds: the fourth attempt
    that the retry count of 3 rules out does take place. *)
Theorem fourth_attempt_despite_retry_count_3 :
  let r := run Scripted.connection Sample.ctx Sample.render
             (Sample.kwargs [Sample.three_tries] (Sample.admin_at ["r1"])) 1
             (Scripted.world
                (Sample.device [inr "#"]
                   [Sample.warning; Sample.warning; Sample.warning;
                    inr "v1"])) in
  retry_count Sample.three_tries = Some 3 /\
  r.1.1 = Val tt /\
  length (runs_of r.2) = 4%nat /\
  sleeps_of r.2 = [5; 5; 5] /\
  outputs_of r.2 = [("show version", "v1")].
Proof. vm_compute. repeat split. Qed.

(** C2 (counterexample): on a device that answers every attempt with a
    RecoverableWarning, [_rerun] gives up with an exception that is not
    fatal: it is a RecoverableError, which the engine retries. *)
Lemma rerun_exhaustion_is_not_fatal :
  exists e w' evs,
    _rerun Scripted.connection (connection_run Scripted.connection) []
      (line_kwargs Sample.no_globals Sample.three_tries "show version") 3 5
      (Scripted.world Sample.busy_device) = (Exc e, w', evs) /\
    Forall (fun r => exists m, r.2 = inl (RecoverableWarning m)) (runs_of evs) /\
    e = RecoverableError
          (FailedToRerun []
             (line_kwargs Sample.no_globals Sample.three_tries "show version")) /\
    is_fatal e = false /\
    is_retryable e = true.
Proof.
  eexists _, _, _. split; [vm_compute; reflexivity|].
  split; [|repeat split].
  repeat (constructor; [eexists; reflexivity|]). constructor.
Qed.

(** On a device that never reports "closed" the closing loop is never
    done, however many turns it is given. *)
Lemma stubborn_close_loop (fuel : nat) (props : gmap string string)
    (connects : list (Exn + string)) :
  exists evs,
    close_loop Scripted.connection fuel "exit" None []
      (@Build_World Scripted.connection
         {| Scripted.connects := connects; Scripted.runs := [];
            Scripted.run_default := inr ""; Scripted.closed := [];
            Scripted.closed_default := false |} props)
    = (Unfinished,
       @Build_World Scripted.connection
         {| Scripted.connects := connects; Scripted.runs := [];
            Scripted.run_default := inr ""; Scripted.closed := [];
            Scripted.closed_default := false |} props, evs) /\
    closes_of evs = O /\
    length (runs_of evs) = fuel.
Proof.
  induction fuel as [|fuel (evs & IH & Hcl & Hruns)].
  - exists []. repeat split.
  - eexists. cbn [close_loop]. unfold bind at 1. cbn.
    rewrite IH. split; [reflexivity|].
    cbn. split; [exact Hcl|]. f_equal. exact Hruns.
Qed.

(** C3 (counterexample): a device that never reports "closed", and the
    default exit command.  There is no number of turns after which the run
    is over, by a failure or otherwise, and [connection.close()] is never
    called. *)
Lemma closing_loop_has_no_cap :
  ~ exists fuel,
      let r := run Scripted.connection Sample.ctx Sample.render
                 (Sample.kwargs [Sample.act "show version"]
                    (Sample.admin_at ["r1"])) fuel
                 (Scripted.world Sample.stubborn_device) in
      r.1.1 <> Unfinished \/ closes_of r.2 <> O.
Proof.
  intros [fuel H].
  set (kwargs := Sample.kwargs [Sample.act "show version"]
                   (Sample.admin_at ["r1"])) in H.
  set (r1 := run_session Scripted.connection Sample.ctx Sample.render kwargs
               [Sample.act "show version"]
               (Scripted.world Sample.stubborn_device)).
  assert (Hsession :
    r1 = (Val tt,
          @Build_World Scripted.connection
            {| Scripted.connects := []; Scripted.runs := [];
               Scripted.run_default := inr ""; Scripted.closed := [];
               Scripted.closed_default := false |} ∅, r1.2))
    by (vm_compute; reflexivity).
  assert (Hcl1 : closes_of r1.2 = O) by (vm_compute; reflexivity).
  cbv zeta in H.
  rewrite (run_after_session Sample.ctx Sample.render kwargs fuel
             (Sample.act "show version") [] _ _ _ eq_refl Hsession) in H.
  unfold run_closing, bind in H.
  destruct (stubborn_close_loop fuel ∅ []) as (evs & Hloop & Hcl & _).
  change (close_loop Scripted.connection fuel _ _ _ _)
    with (close_loop Scripted.connection fuel "exit" None []
            (@Build_World Scripted.connection
               {| Scripted.connects := []; Scripted.runs := [];
                  Scripted.run_default := inr ""; Scripted.closed := [];
                  Scripted.closed_default := false |} ∅)) in H.
  rewrite Hloop in H. cbn [fst snd] in H.
  rewrite closes_of_app, Hcl1, Hcl in H.
  destruct H as [H|H]; apply H; reflexivity.
Qed.

(** C4 (counterexample): the device answers "show version" with
    ["  v1  "] and "show interfaces" with ["eth0"].  What is stored keeps
    the two spaces after "v1": the outputs were not trimmed one by one. *)
Lemma outputs_are_not_trimmed_one_by_one :
  exists w' evs,
    run_call Scripted.connection Sample.ctx Sample.render Sample.no_globals
      Sample.two_lines
      (Scripted.world (Sample.device [] [inr "  v1  "; inr "eth0"]))
    = (Val tt, w', evs) /\
    map snd (outputs_of evs) = ["  v1  "; "eth0"] /\
    runtime_properties w' !! "out" = Some (stored_result ["  v1  "; "eth0"]) /\
    stored_result ["  v1  "; "eth0"] <> spec_stored_result ["  v1  "; "eth0"].
Proof.
  eexists _, _. split; [vm_compute; reflexivity|].
  split; [reflexivity|]. split; [vm_compute; reflexivity|].
  vm_compute. discriminate.
Qed.

(** C7 (counterexample): a call with a template that renders to nothing
    and with the inline text "ls".  In the order of the specification the
    template decides and the text of the call is empty, so the call would
    be skipped; the source goes on to the inline text and sends "ls".
    (The inline text is not a general fallback either: when the template
    cannot be found, the call is skipped and "ls" is not sent.) *)
Lemma inline_text_after_empty_template :
  spec_compile Sample.ctx Sample.render Sample.empty_template_and_text = "" /\
  (exists w' evs,
     run_call Scripted.connection Sample.ctx Sample.render Sample.no_globals
       Sample.empty_template_and_text (Scripted.world (Sample.device [] []))
     = (Val tt, w', evs) /\
     runs_of evs
       = [(line_kwargs Sample.no_globals Sample.empty_template_and_text "ls",
           inr "")]) /\
  get_resource Sample.ctx "missing.tpl" = None /\
  run_call Scripted.connection Sample.ctx Sample.render Sample.no_globals
    Sample.missing_template_and_text (Scripted.world (Sample.device [] []))
  = (Val tt, Scripted.world (Sample.device [] []), [Log Info EmptyTemplate]).
Proof.
  split; [reflexivity|]. split; [|split; reflexivity].
  eexists _, _. split; vm_compute; reflexivity.
Qed.

(* ===================================================================== *)
(** * The theorems at work on concrete runs *)
(* ===================================================================== *)

(** C10 at work: no calls, no credentials, a device that would only warn. *)
Lemma no_calls_returns_at_once_witness :
  (kw_calls Sample.nothing_to_do = None \/
   kw_calls Sample.nothing_to_do = Some []) /\
  run Scripted.connection Sample.ctx Sample.render Sample.nothing_to_do 0
    (Scripted.world Sample.busy_device)
  = (Val tt, Scripted.world Sample.busy_device, [Log Info NoCalls]).
Proof.
  assert (Hcalls : kw_calls Sample.nothing_to_do = None \/
                   kw_calls Sample.nothing_to_do = Some [])
    by (left; reflexivity).
  split; [exact Hcalls|].
  exact (proj1 (no_calls_returns_at_once Sample.ctx Sample.render
                  Sample.nothing_to_do 0%nat
                  (Scripted.world Sample.busy_device) Hcalls)).
Defined.

(** C6 at work: one call, neither address nor user. *)
Lemma missing_credentials_is_fatal_witness :
  kw_calls (Sample.kwargs [Sample.act "ls"] (Sample.auth None None))
    = Some [Sample.act "ls"] /\
  (ip_list_of Sample.ctx
     (merged_auth Sample.ctx
        (Sample.kwargs [Sample.act "ls"] (Sample.auth None None))) = [] \/
   Py.truthy_opt
     (auth_user
        (merged_auth Sample.ctx
           (Sample.kwargs [Sample.act "ls"] (Sample.auth None None))))
     = false) /\
  run Scripted.connection Sample.ctx Sample.render
    (Sample.kwargs [Sample.act "ls"] (Sample.auth None None)) 1
    (Scripted.world (Sample.device [inr "#"] []))
  = (Exc (NonRecoverableError CheckCredentials),
     Scripted.world (Sample.device [inr "#"] []),
     [Log Info (UsedHostFromContainer ["10.0.0.1"])]).
Proof.
  assert (Hcalls :
    kw_calls (Sample.kwargs [Sample.act "ls"] (Sample.auth None None))
      = Some [Sample.act "ls"]) by reflexivity.
  assert (Hmissing :
    ip_list_of Sample.ctx
      (merged_auth Sample.ctx
         (Sample.kwargs [Sample.act "ls"] (Sample.auth None None))) = [] \/
    Py.truthy_opt
      (auth_user
         (merged_auth Sample.ctx
            (Sample.kwargs [Sample.act "ls"] (Sample.auth None None))))
      = false) by (right; reflexivity).
  split; [exact Hcalls|]. split; [exact Hmissing|].
  exact (proj1 (missing_credentials_is_fatal Sample.ctx Sample.render
                  _ 1%nat (Scripted.world (Sample.device [inr "#"] []))
                  _ _ Hcalls Hmissing)).
Defined.

(** C5 at work: two addresses, both refused. *)
Lemma no_reachable_host_is_retryable_witness :
  kw_calls (Sample.kwargs [Sample.act "ls"]
              (Sample.admin_at ["10.0.0.1"; "10.0.0.2"]))
    = Some [Sample.act "ls"] /\
  Py.truthy_opt
    (auth_user
       (merged_auth Sample.ctx
          (Sample.kwargs [Sample.act "ls"]
             (Sample.admin_at ["10.0.0.1"; "10.0.0.2"])))) = true /\
  connect_failures Scripted.connection
    (connect_args_of Sample.ctx
       (Sample.kwargs [Sample.act "ls"]
          (Sample.admin_at ["10.0.0.1"; "10.0.0.2"])))
    ["10.0.0.1"; "10.0.0.2"] (Sample.device [] [])
    = Some ([Scripted.unreachable; Scripted.unreachable],
            Sample.device [] []) /\
  exists evs,
    run Scripted.connection Sample.ctx Sample.render
      (Sample.kwargs [Sample.act "ls"]
         (Sample.admin_at ["10.0.0.1"; "10.0.0.2"])) 1
      (Scripted.world (Sample.device [] []))
    = (Exc (OperationRetry TryOneMoreTime),
       Scripted.world (Sample.device [] []), evs) /\
    connects_of evs = ["10.0.0.1"; "10.0.0.2"] /\
    connect_failures_logged evs
      = [("10.0.0.1", Scripted.unreachable);
         ("10.0.0.2", Scripted.unreachable)].
Proof.
  assert (Hcalls :
    kw_calls (Sample.kwargs [Sample.act "ls"]
                (Sample.admin_at ["10.0.0.1"; "10.0.0.2"]))
      = Some [Sample.act "ls"]) by reflexivity.
  assert (Huser :
    Py.truthy_opt
      (auth_user
         (merged_auth Sample.ctx
            (Sample.kwargs [Sample.act "ls"]
               (Sample.admin_at ["10.0.0.1"; "10.0.0.2"])))) = true)
    by reflexivity.
  assert (Hfail :
    connect_failures Scripted.connection
      (connect_args_of Sample.ctx
         (Sample.kwargs [Sample.act "ls"]
            (Sample.admin_at ["10.0.0.1"; "10.0.0.2"])))
      (ip_list_of Sample.ctx
         (merged_auth Sample.ctx
            (Sample.kwargs [Sample.act "ls"]
               (Sample.admin_at ["10.0.0.1"; "10.0.0.2"]))))
      (session (Scripted.world (Sample.device [] [])))
      = Some ([Scripted.unreachable; Scripted.unreachable],
              Sample.device [] [])) by reflexivity.
  split; [exact Hcalls|]. split; [exact Huser|]. split; [exact Hfail|].
  destruct (proj1 (no_reachable_host_is_retryable Sample.ctx Sample.render
                     _ 1%nat _ _ _ _ _ Hcalls Huser Hfail))
    as (evs & Hrun & Hconnects & Hlogged & _).
  exists evs. split; [exact Hrun|]. split; [exact Hconnects|exact Hlogged].
Defined.

(** C3 at work: a device that is closed at the fourth check. *)
Lemma closing_ends_when_transport_closes_witness :
  let kwargs := Sample.kwargs [Sample.act "show version"]
                  (Sample.admin_at ["r1"]) in
  let w := Scripted.world (Sample.closing_device [false; false; false]) in
  let r1 := run_session Scripted.connection Sample.ctx Sample.render kwargs
              [Sample.act "show version"] w in
  kw_calls kwargs = Some [Sample.act "show version"] /\
  r1 = (Val tt, r1.1.2, r1.2) /\
  Py.truthy (get (auth_exit_command (merged_auth Sample.ctx kwargs)) "exit")
    = true /\
  exits_until_closed Scripted.connection
    (exit_kwargs_of Sample.ctx kwargs (Sample.act "show version"))
    3 (session r1.1.2) = Some ([""; ""; ""], Sample.connected []) /\
  (3 < 5)%nat /\
  run Scripted.connection Sample.ctx Sample.render kwargs 5 w
  = (Val tt,
     @Build_World Scripted.connection (Sample.connected [])
       (runtime_properties r1.1.2),
     r1.2 ++ closing_events
               (exit_kwargs_of Sample.ctx kwargs (Sample.act "show version"))
               [""; ""; ""]).
Proof.
  intros kwargs w r1.
  assert (Hcalls : kw_calls kwargs = Some [Sample.act "show version"])
    by reflexivity.
  assert (Hsession : r1 = (Val tt, r1.1.2, r1.2)) by (vm_compute; reflexivity).
  assert (Hexit :
    Py.truthy (get (auth_exit_command (merged_auth Sample.ctx kwargs)) "exit")
      = true) by reflexivity.
  assert (Hscript :
    exits_until_closed Scripted.connection
      (exit_kwargs_of Sample.ctx kwargs
         (List.last [] (Sample.act "show version")))
      3 (session r1.1.2) = Some ([""; ""; ""], Sample.connected []))
    by (vm_compute; reflexivity).
  assert (Hfuel : (3 < 5)%nat) by lia.
  split; [exact Hcalls|]. split; [exact Hsession|]. split; [exact Hexit|].
  split; [exact Hscript|]. split; [exact Hfuel|].
  exact (proj1 (proj1 (closing_ends_when_transport_closes Sample.ctx
                         Sample.render kwargs 5%nat
                         (Sample.act "show version") [] w r1.1.2 r1.2
                         3%nat [""; ""; ""] (Sample.connected [])
                         Hcalls Hsession Hexit Hscript) Hfuel)).
Defined.

(** C9 at work: a device that is closed at the third check, after a call
    that has patterns of the three kinds. *)
Lemma closing_after_two_exit_commands_witness :
  let call := Sample.act_with_patterns "show version" in
  let kwargs := Sample.kwargs [call] (Sample.admin_at ["r1"]) in
  let w := Scripted.world (Sample.closing_device [false; false; true]) in
  let r1 := run_session Scripted.connection Sample.ctx Sample.render kwargs
              [call] w in
  let kw := exit_kwargs_of Sample.ctx kwargs call in
  kw_calls kwargs = Some [call] /\
  r1 = (Val tt, r1.1.2, r1.2) /\
  Py.truthy (get (auth_exit_command (merged_auth Sample.ctx kwargs)) "exit")
    = true /\
  Scripted.is_closed (session r1.1.2)
    = (false, Sample.connected [false; true]) /\
  Scripted.run (Sample.connected [false; true]) kw
    = (inr "", Sample.connected [false; true]) /\
  Scripted.is_closed (Sample.connected [false; true])
    = (false, Sample.connected [true]) /\
  Scripted.run (Sample.connected [true]) kw
    = (inr "", Sample.connected [true]) /\
  Scripted.is_closed (Sample.connected [true])
    = (true, Sample.connected []) /\
  (2 < 3)%nat /\
  run Scripted.connection Sample.ctx Sample.render kwargs 3 w
  = (Val tt,
     @Build_World Scripted.connection (Sample.connected [])
       (runtime_properties r1.1.2),
     r1.2 ++
     [IsClosed false; Log Info ExecuteClose; Run kw (inr "");
      Log Info (ResultOfClose ""); Sleep 1;
      IsClosed false; Log Info ExecuteClose; Run kw (inr "");
      Log Info (ResultOfClose ""); Sleep 1;
      IsClosed true; Close]) /\
  kw = {| command := "exit"; prompt_check := Some ["#"];
          error_examples := Some ["% Invalid"]; warning_examples := None;
          critical_examples := None; kw_responses := None |}.
Proof.
  intros call kwargs w r1 kw.
  assert (Hcalls : kw_calls kwargs = Some [call]) by reflexivity.
  assert (Hsession : r1 = (Val tt, r1.1.2, r1.2)) by (vm_compute; reflexivity).
  assert (Hexit :
    Py.truthy (get (auth_exit_command (merged_auth Sample.ctx kwargs)) "exit")
      = true) by reflexivity.
  assert (H1 : Scripted.is_closed (session r1.1.2)
               = (false, Sample.connected [false; true]))
    by (vm_compute; reflexivity).
  assert (H2 : Scripted.run (Sample.connected [false; true]) kw
               = (inr "", Sample.connected [false; true])) by reflexivity.
  assert (H3 : Scripted.is_closed (Sample.connected [false; true])
               = (false, Sample.connected [true])) by reflexivity.
  assert (H4 : Scripted.run (Sample.connected [true]) kw
               = (inr "", Sample.connected [true])) by reflexivity.
  assert (H5 : Scripted.is_closed (Sample.connected [true])
               = (true, Sample.connected [])) by reflexivity.
  assert (Hfuel : (2 < 3)%nat) by lia.
  repeat (split; [assumption|]).
  exact (closing_after_two_exit_commands Sample.ctx Sample.render
           kwargs 3%nat call [] w r1.1.2 r1.2 _ _ _ _ _ "" ""
           Hcalls Hsession Hexit H1 H2 H3 H4 H5 Hfuel).
Defined.

(** C4 at work: two lines around a blank one, saved under ["out"]. *)
Lemma call_lines_and_result_witness :
  let w := Scripted.world (Sample.device [] [inr "  v1  "; inr "eth0"]) in
  let r := run_call Scripted.connection Sample.ctx Sample.render
             Sample.no_globals Sample.two_lines w in
  Py.truthy (compile Sample.ctx Sample.render Sample.two_lines) = true /\
  r = (Val tt, r.1.2, r.2) /\
  map fst (outputs_of r.2) = ["show version"; "show interfaces"] /\
  stores_of r.2 = [("out", stored_result ["  v1  "; "eth0"])] /\
  runtime_properties r.1.2
    = <["out" := stored_result ["  v1  "; "eth0"]]> ∅.
Proof.
  intros w r.
  assert (Htext :
    Py.truthy (compile Sample.ctx Sample.render Sample.two_lines) = true)
    by reflexivity.
  assert (Hrun : r = (Val tt, r.1.2, r.2)) by (vm_compute; reflexivity).
  assert (Houts : map snd (outputs_of r.2) = ["  v1  "; "eth0"])
    by (vm_compute; reflexivity).
  split; [exact Htext|]. split; [exact Hrun|].
  pose proof (call_lines_and_result Sample.ctx Sample.render
                Sample.no_globals Sample.two_lines w r.1.2 r.2 Htext Hrun)
    as [Hcmds [Hstores Hprops]].
  rewrite Houts in Hstores, Hprops.
  split; [exact Hcmds|]. split; [exact Hstores|exact Hprops].
Defined.

(** C7 at work, on four calls: an empty inline text with a save key (the
    call is skipped with its log line and nothing is stored); a template
    that cannot be found (skipped with its log line, the inline text is
    not used); a template that renders to nothing followed by an inline
    text (the inline text is the text of the call); an action. *)
Lemma call_text_resolution_witness :
  let w := Scripted.world (Sample.device [] []) in
  (Py.truthy (compile Sample.ctx Sample.render Sample.empty_text_saved)
     = false /\
   run_call Scripted.connection Sample.ctx Sample.render Sample.no_globals
     Sample.empty_text_saved w
   = (Val tt, w, [Log Info EmptyTemplateText])) /\
  (Py.truthy (get (action Sample.missing_template_and_text) EmptyString)
     = false /\
   template Sample.missing_template_and_text = Some "missing.tpl" /\
   Py.truthy (get (get_resource Sample.ctx "missing.tpl") EmptyString)
     = false /\
   compile Sample.ctx Sample.render Sample.missing_template_and_text
     = EmptyString /\
   compile_log Sample.ctx Sample.render Sample.missing_template_and_text
     = [Log Info EmptyTemplate]) /\
  (Py.truthy (get (action Sample.empty_template_and_text) EmptyString)
     = false /\
   (template Sample.empty_template_and_text = None \/
    exists name text,
      template Sample.empty_template_and_text = Some name /\
      get_resource Sample.ctx name = Some text /\
      Py.truthy text = true /\
      Py.truthy
        (Sample.render text
           (template_namespace Sample.empty_template_and_text)) = false) /\
   compile Sample.ctx Sample.render Sample.empty_template_and_text = "ls" /\
   compile_log Sample.ctx Sample.render Sample.empty_template_and_text = []) /\
  (action (Sample.act "ls") = Some "ls" /\
   compile Sample.ctx Sample.render (Sample.act "ls") = "ls" /\
   compile_log Sample.ctx Sample.render (Sample.act "ls") = []).
Proof.
  intros w.
  assert (Hempty :
    Py.truthy (compile Sample.ctx Sample.render Sample.empty_text_saved)
      = false) by reflexivity.
  assert (Hact1 :
    Py.truthy (get (action Sample.missing_template_and_text) EmptyString)
      = false) by reflexivity.
  assert (Hname1 :
    template Sample.missing_template_and_text = Some "missing.tpl")
    by reflexivity.
  assert (Hres1 :
    Py.truthy (get (get_resource Sample.ctx "missing.tpl") EmptyString)
      = false) by reflexivity.
  assert (Hact2 :
    Py.truthy (get (action Sample.empty_template_and_text) EmptyString)
      = false) by reflexivity.
  assert (Htemplate2 :
    template Sample.empty_template_and_text = None \/
    exists name text,
      template Sample.empty_template_and_text = Some name /\
      get_resource Sample.ctx name = Some text /\
      Py.truthy text = true /\
      Py.truthy
        (Sample.render text
           (template_namespace Sample.empty_template_and_text)) = false).
  { right. exists "noop.tpl", "{# nothing #}". repeat split. }
  assert (Haction : action (Sample.act "ls") = Some "ls") by reflexivity.
  split; [split; [exact Hempty|]|split; [|split]].
  - exact (proj1 (proj2 (call_text_resolution Sample.ctx Sample.render
                           Sample.no_globals Sample.empty_text_saved w))
             Hempty).
  - repeat (split; [assumption|]).
    exact (proj1 (proj2 (proj2 (proj2 (proj2 (proj2
             (call_text_resolution Sample.ctx Sample.render
                Sample.no_globals Sample.missing_template_and_text w))))))
             Hact1 "missing.tpl" Hname1 Hres1).
  - repeat (split; [assumption|]).
    exact (proj1 (proj2 (proj2 (proj2 (proj2 (proj2 (proj2 (proj2
             (call_text_resolution Sample.ctx Sample.render
                Sample.no_globals Sample.empty_template_and_text w))))))))
             Hact2 Htemplate2).
  - split; [exact Haction|].
    exact (proj1 (proj2 (proj2 (proj2 (proj2
             (call_text_resolution Sample.ctx Sample.render
                Sample.no_globals (Sample.act "ls") w)))))
             "l"%char "s" Haction).
Defined.

(** C8 at work: three calls, the device refuses the second one for good;
    the first result stays stored, the third call is never sent. *)
Lemma fatal_line_aborts_run_witness :
  let kwargs := Sample.kwargs Sample.version_reload_users
                  (Sample.admin_at ["r1"]) in
  let w := Scripted.world
             (Sample.device [inr "#"] [inr "v1"; inl Sample.critical]) in
  let r := run Scripted.connection Sample.ctx Sample.render kwargs 3 w in
  let kw := line_kwargs (globals_of (merged_auth Sample.ctx kwargs))
              (Sample.act_and_save "reload" "reload") "reload" in
  r = (r.1.1, r.1.2, r.2) /\
  r.2 = removelast r.2 ++ Run kw (inl Sample.critical) :: [] /\
  is_warning Sample.critical = false /\
  r.1.1 = Exc Sample.critical /\
  stores_of (removelast r.2) = [("version", "v1")] /\
  runtime_properties r.1.2 = replay [("version", "v1")] ∅.
Proof.
  intros kwargs w r kw.
  assert (Hrun : r = (r.1.1, r.1.2, r.2)) by (vm_compute; reflexivity).
  assert (Hevs : r.2 = removelast r.2 ++ Run kw (inl Sample.critical) :: [])
    by (vm_compute; reflexivity).
  assert (Hfatal : is_warning Sample.critical = false) by reflexivity.
  assert (Hstores : stores_of (removelast r.2) = [("version", "v1")])
    by (vm_compute; reflexivity).
  split; [exact Hrun|]. split; [exact Hevs|]. split; [exact Hfatal|].
  pose proof (fatal_line_aborts_run Sample.ctx Sample.render kwargs 3%nat w
                r.1.2 r.1.1 r.2 (removelast r.2) [] kw Sample.critical
                Hrun Hevs Hfatal) as (Ho & _ & _ & _ & _ & Hprops).
  rewrite Hstores in Hprops.
  split; [exact Ho|]. split; [exact Hstores|exact Hprops].
Defined.

(* ===================================================================== *)
(** * More facts about Python strings and the property store *)
(* ===================================================================== *)

Lemma split_newline_nonempty (s : string) : Py.split_newline s <> [].
Proof.
  destruct s as [|a r]; simpl; [discriminate|].
  destruct (Ascii.eqb a Py.newline); [discriminate|].
  destruct (Py.split_newline r); discriminate.
Qed.

(** The pieces of [s.split("\n")] have no newline in them. *)
Lemma split_newline_pieces (s : string) (piece : string) :
  In piece (Py.split_newline s) -> has_newline piece = false.
Proof.
  revert piece. induction s as [|a r IH]; intros piece Hin; simpl in Hin.
  - destruct Hin as [<-|[]]. reflexivity.
  - destruct (Ascii.eqb a Py.newline) eqn:Ea.
    + destruct Hin as [<-|Hin]; [reflexivity|exact (IH _ Hin)].
    + destruct (Py.split_newline r) as [|p ps] eqn:Es.
      * destruct Hin as [<-|[]]. simpl. rewrite Ea. reflexivity.
      * destruct Hin as [<-|Hin].
        -- simpl. rewrite Ea. simpl. apply IH. left. reflexivity.
        -- apply IH. right. exact Hin.
Qed.

Lemma lstrip_idempotent (s : string) : Py.lstrip (Py.lstrip s) = Py.lstrip s.
Proof.
  induction s as [|a r IH]; [reflexivity|].
  simpl. destruct (Py.isspace a) eqn:Ea; [exact IH|].
  simpl. rewrite Ea. reflexivity.
Qed.

Lemma rstrip_idempotent (s : string) : Py.rstrip (Py.rstrip s) = Py.rstrip s.
Proof.
  induction s as [|a r IH]; [reflexivity|].
  simpl. destruct (Py.rstrip r) as [|b r'] eqn:Er.
  - destruct (Py.isspace a) eqn:Ea; [reflexivity|].
    simpl. rewrite Ea. reflexivity.
  - change (Py.rstrip (String a (String b r')))
      with (match Py.rstrip (String b r') with
            | EmptyString =>
                if Py.isspace a then EmptyString else String a EmptyString
            | String c t => String a (String c t)
            end).
    rewrite IH. reflexivity.
Qed.

(** Stripping on the left keeps a string free of trailing whitespace. *)
Lemma rstrip_lstrip (s : string) :
  Py.rstrip s = s -> Py.rstrip (Py.lstrip s) = Py.lstrip s.
Proof.
  induction s as [|a r IH]; intros H; [reflexivity|].
  cbn [Py.lstrip]. destruct (Py.isspace a) eqn:Ea; [|exact H].
  apply IH. simpl in H. rewrite Ea in H.
  destruct (Py.rstrip r) as [|b r']; [discriminate|].
  inversion H. reflexivity.
Qed.

(** A stripped string stays as it is when it is stripped again. *)
Lemma strip_idempotent (s : string) : Py.strip (Py.strip s) = Py.strip s.
Proof.
  unfold Py.strip.
  rewrite (rstrip_lstrip (Py.rstrip s) (rstrip_idempotent s)).
  apply lstrip_idempotent.
Qed.

(** Writes under other keys leave a key as it was. *)
Lemma replay_lookup_other (kvs : list (string * string))
    (props : gmap string string) (key : string) :
  Forall (fun kv => kv.1 <> key) kvs ->
  replay kvs props !! key = props !! key.
Proof.
  revert props. induction kvs as [|[k v] kvs IH]; intros props H;
    [reflexivity|].
  apply Forall_cons in H as [Hk H]. simpl in Hk.
  change (replay ((k, v) :: kvs) props) with (replay kvs (<[k := v]> props)).
  rewrite (IH _ H). apply lookup_insert_ne. exact Hk.
Qed.

Lemma closes_of_not_close (evs : list Event) :
  Forall not_close evs -> closes_of evs = O.
Proof.
  induction 1 as [|ev evs Hev _ IH]; [reflexivity|].
  destruct ev; simpl; try exact IH. destruct Hev.
Qed.

Lemma connects_of_not_connect (evs : list Event) :
  Forall not_connect evs -> connects_of evs = [].
Proof.
  induction 1 as [|ev evs Hev _ IH]; [reflexivity|].
  destruct ev; simpl; try exact IH. destruct Hev.
Qed.

(* ===================================================================== *)
(** * What the pieces of [run] emit and raise *)
(* ===================================================================== *)

Section Invariants.

Context {connection : terminal_connection.connection}.
Context (ctx : Ctx).
Context (render : string -> gmap string ParamValue -> string).

Lemma emits_weaken {A} (P Q : Event -> Prop) (m : M connection A) :
  (forall ev, P ev -> Q ev) -> emits P m -> emits Q m.
Proof.
  intros HPQ Hm w o w' evs H. eapply Forall_impl; [exact (Hm _ _ _ _ H)|].
  exact HPQ.
Qed.

Lemma emits_ret {A} (P : Event -> Prop) (a : A) : emits P (ret connection a).
Proof. intros w o w' evs H. inversion H. constructor. Qed.

Lemma emits_raise {A} (P : Event -> Prop) (e : Exn) :
  emits P (@raise connection A e).
Proof. intros w o w' evs H. inversion H. constructor. Qed.

Lemma emits_unfinished {A} (P : Event -> Prop) :
  emits P (@unfinished connection A).
Proof. intros w o w' evs H. inversion H. constructor. Qed.

(** The continuation only matters at the values its argument can return. *)
Lemma emits_bind {A B} (P : Event -> Prop) (m : M connection A)
    (f : A -> M connection B) :
  emits P m ->
  (forall a, returns m a -> emits P (f a)) ->
  emits P (bind connection m f).
Proof.
  intros Hm Hf w o w' evs H. unfold bind in H.
  destruct (m w) as [[o1 w1] e1] eqn:Em.
  pose proof (Hm _ _ _ _ Em) as H1.
  destruct o1 as [a|e|].
  - destruct (f a w1) as [[o2 w2] e2] eqn:Ef.
    inversion H; subst. apply Forall_app. split; [exact H1|].
    refine (Hf a _ _ _ _ _ Ef). exists w, w1, e1. exact Em.
  - inversion H; subst. exact H1.
  - inversion H; subst. exact H1.
Qed.

Lemma emits_emit (P : Event -> Prop) (ev : Event) :
  P ev -> emits P (emit connection ev).
Proof. intros Hev w o w' evs H. inversion H. repeat constructor. exact Hev. Qed.

Lemma emits_sleep (P : Event -> Prop) (seconds : Z) :
  (0 <= seconds -> P (Sleep seconds)) -> emits P (sleep connection seconds).
Proof.
  intros Hev w o w' evs H. unfold sleep in H.
  destruct (seconds <? 0) eqn:E; inversion H; repeat constructor.
  apply Hev. lia.
Qed.

Lemma emits_connect (P : Event -> Prop) (ip : string) (a : ConnectArgs) :
  (forall r, P (Connect ip a r)) -> emits P (connection_connect connection ip a).
Proof.
  intros HP w o w' evs H. unfold connection_connect in H.
  destruct (terminal_connection.connect _ _ _ _) as [r s].
  inversion H. repeat constructor. apply HP.
Qed.

Lemma emits_run (P : Event -> Prop) (args : list string) (kw : RunKwargs) :
  (forall r, P (Run kw r)) -> emits P (connection_run connection args kw).
Proof.
  intros HP w o w' evs H. unfold connection_run in H.
  destruct (terminal_connection.run _ _ _) as [r s].
  inversion H. repeat constructor. apply HP.
Qed.

Lemma emits_is_closed (P : Event -> Prop) :
  (forall b, P (IsClosed b)) -> emits P (connection_is_closed connection).
Proof.
  intros HP w o w' evs H. unfold connection_is_closed in H.
  destruct (terminal_connection.is_closed _ _) as [b s].
  inversion H. repeat constructor. apply HP.
Qed.

Lemma emits_store (P : Event -> Prop) (key value : string) :
  P (Store key value) -> emits P (store connection key value).
Proof. intros HP w o w' evs H. inversion H. repeat constructor. exact HP. Qed.

Lemma emits_uncaught {A} (P : Event -> Prop) (m : M connection (Exn + A)) :
  emits P m -> emits P (uncaught connection m).
Proof.
  intros Hm. unfold uncaught. apply emits_bind; [exact Hm|].
  intros [e|a] _; [apply emits_raise|apply emits_ret].
Qed.

(** [_rerun] on [connection.run] emits calls of [run] with its keywords,
    log lines and pauses of [retry_sleep]. *)
Lemma emits_rerun (P : Event -> Prop) (args : list string) (kw : RunKwargs)
    (retry_count retry_sleep : Z) :
  (forall r, P (Run kw r)) ->
  (forall lvl m, P (Log lvl m)) ->
  (0 <= retry_sleep -> P (Sleep retry_sleep)) ->
  emits P (_rerun connection (connection_run connection) args kw
             retry_count retry_sleep).
Proof.
  intros Hrun Hlog Hsleep. unfold _rerun.
  generalize (Z.to_nat 10). intros n.
  induction n as [|n IH]; cbn [rerun_loop]; [apply emits_raise|].
  apply emits_bind; [apply emits_run; exact Hrun|].
  intros [e|output] _; [|apply emits_ret].
  destruct e; try apply emits_raise.
  apply emits_bind; [apply emits_emit, Hlog|intros _ _].
  apply emits_bind; [apply emits_sleep, Hsleep|intros _ _].
  exact IH.
Qed.

Lemma emits_connect_first (P : Event -> Prop) (ip_list : list string)
    (a : ConnectArgs) :
  (forall ip r, In ip ip_list -> P (Connect ip a r)) ->
  (forall lvl m, P (Log lvl m)) ->
  emits P (connect_first connection ip_list a).
Proof.
  intros Hconnect Hlog.
  induction ip_list as [|ip rest IH]; cbn [connect_first];
    [apply emits_raise|].
  apply emits_bind.
  - apply emits_connect. intros r. apply Hconnect. left. reflexivity.
  - intros [ex|prompt] _.
    + apply emits_bind; [apply emits_emit, Hlog|intros _ _].
      apply IH. intros ip' r Hin. apply Hconnect. right. exact Hin.
    + apply emits_bind; [apply emits_emit, Hlog|intros _ _].
      apply emits_ret.
Qed.

Lemma emits_call_operation (P : Event -> Prop) (call : Call) :
  (forall lvl m, P (Log lvl m)) ->
  emits P (call_operation connection ctx render call).
Proof.
  intros Hlog.
  unfold call_operation, from_template, from_template_text.
  repeat first
    [ apply emits_ret
    | apply emits_emit, Hlog
    | apply emits_bind; [|intros ? _]
    | match goal with
      | |- emits _ (if ?b then _ else _) => destruct b
      | |- emits _ (match ?x with _ => _ end) => destruct x
      end ].
Qed.

Lemma emits_close_loop (fuel : nat) (exit_command : string)
    (promt_check : option (list string)) (error_examples : list string) :
  emits (closing_event (exit_kwargs exit_command promt_check error_examples))
    (close_loop connection fuel exit_command promt_check error_examples).
Proof.
  induction fuel as [|fuel IH]; cbn [close_loop]; [apply emits_unfinished|].
  apply emits_bind; [apply emits_is_closed; intros b; exact I|].
  intros closed _. destruct (negb closed && Py.truthy exit_command);
    [|apply emits_ret].
  apply emits_bind; [apply emits_emit; exact I|intros _ _].
  apply emits_bind;
    [apply emits_uncaught, emits_run; intros r; reflexivity|intros result _].
  apply emits_bind; [apply emits_emit; exact I|intros _ _].
  apply emits_bind; [apply emits_sleep; reflexivity|intros _ _].
  exact IH.
Qed.

Lemma save_keys_in (calls : list Call) (call : Call) (a : ascii) (r : string) :
  In call calls -> save_to call = Some (String a r) ->
  In (String a r) (save_keys calls).
Proof.
  induction calls as [|c calls IH]; intros Hin Hsave; [destruct Hin|].
  simpl. destruct Hin as [->|Hin].
  - rewrite Hsave. left. reflexivity.
  - destruct (save_to c) as [[|b t]|]; try (apply IH; assumption).
    right. apply IH; assumption.
Qed.

Lemma emits_run_lines (g : Globals) (calls : list Call) (call : Call)
    (lines : list string) (result : string) :
  In call calls ->
  (forall line, In line lines ->
                In line (Py.split_newline (compile ctx render call))) ->
  emits (call_event ctx render g calls)
    (run_lines connection g call lines result).
Proof.
  intros Hcall. revert result.
  induction lines as [|op_line rest IH]; intros result Hlines;
    cbn [run_lines]; [apply emits_ret|].
  assert (Hrest : forall line, In line rest ->
            In line (Py.split_newline (compile ctx render call)))
    by (intros line Hin; apply Hlines; right; exact Hin).
  destruct (Py.truthy (Py.strip op_line)) eqn:Hnb; cbn [negb];
    [|apply IH; exact Hrest].
  apply emits_bind; [apply emits_emit; exact I|intros _ _].
  apply emits_bind; [apply emits_emit; exact I|intros _ _].
  apply emits_bind.
  - apply emits_rerun.
    + intros r. exists call. repeat split; try assumption.
      apply Hlines. left. reflexivity.
    + intros lvl m. exact I.
    + intros Hpos. split; [exact Hpos|].
      exists call. split; [exact Hcall|reflexivity].
  - intros result_part _.
    apply emits_bind; [|intros _ _; apply IH; exact Hrest].
    destruct (Py.truthy (Py.strip result_part));
      [apply emits_emit; exact I|apply emits_ret].
Qed.

Lemma emits_run_call (g : Globals) (calls : list Call) (call : Call) :
  In call calls ->
  emits (call_event ctx render g calls)
    (run_call connection ctx render g call).
Proof.
  intros Hcall. unfold run_call. apply emits_bind.
  - apply emits_call_operation. intros lvl m. exact I.
  - intros o (w & w' & evs & Hret).
    destruct (call_operation_compile ctx render call w)
      as (logs & Hop & _).
    rewrite Hop in Hret. inversion Hret as [[Ho Hw He]]. clear Hret Hop.
    destruct (Py.truthy (compile ctx render call)); [|apply emits_ret].
    apply emits_bind.
    { destruct (Py.truthy_list _); [apply emits_emit; exact I|apply emits_ret]. }
    intros _ _.
    apply emits_bind; [apply emits_emit; exact I|intros _ _].
    apply emits_bind.
    { apply emits_run_lines; [exact Hcall|]. intros line Hin. exact Hin. }
    intros result _.
    destruct (save_to call) as [[|a r]|] eqn:Hsave; try apply emits_ret.
    apply emits_bind; [apply emits_emit; exact I|intros _ _].
    apply emits_store. split.
    + exact (save_keys_in _ _ _ _ Hcall Hsave).
    + apply strip_idempotent.
Qed.

Lemma emits_run_calls_sub (g : Globals) (calls sub : list Call) :
  (forall call, In call sub -> In call calls) ->
  emits (call_event ctx render g calls)
    (run_calls connection ctx render g sub).
Proof.
  induction sub as [|call rest IH]; intros Hsub; cbn [run_calls];
    [apply emits_ret|].
  apply emits_bind.
  - apply emits_run_call. apply Hsub. left. reflexivity.
  - intros _ _. apply IH. intros c Hin. apply Hsub. right. exact Hin.
Qed.

(** The events of [for call in calls]. *)
Lemma emits_run_calls (g : Globals) (calls : list Call) :
  emits (call_event ctx render g calls)
    (run_calls connection ctx render g calls).
Proof. apply emits_run_calls_sub. intros call Hin. exact Hin. Qed.

(** The events of [run_session]. *)
Lemma emits_run_session (kwargs : Kwargs) (calls : list Call) :
  emits (session_event ctx render kwargs calls)
    (run_session connection ctx render kwargs calls).
Proof.
  assert (Hlog : forall lvl m,
            session_event ctx render kwargs calls (Log lvl m))
    by (intros lvl m; exact I).
  unfold run_session. apply emits_bind.
  - unfold resolve_ip_list.
    apply emits_bind; [|intros ? _; apply emits_ret].
    destruct (truthy_ip _); [apply emits_ret|].
    apply emits_bind; [apply emits_emit, Hlog|intros _ _; apply emits_ret].
  - intros ip_list (w & w' & evs & Hret).
    rewrite resolve_ip_list_eq in Hret. inversion Hret as [[Hips Hw He]].
    clear Hret.
    destruct (negb (Py.truthy_list _) || negb (Py.truthy_opt _));
      [apply emits_raise|].
    assert (Hconnect : forall log_file_name,
      log_file_name
        = (if get (auth_store_logs (merged_auth ctx kwargs)) false
           then Some (log_file_of ctx (ctx_instance ctx)) else None) ->
      emits (session_event ctx render kwargs calls)
        (bind connection
           (connect_first connection
              (ip_list_of ctx (merged_auth ctx kwargs))
              (connect_args (merged_auth ctx kwargs) log_file_name))
           (fun prompt =>
              bind connection (log_info connection (DevicePrompt prompt))
                (fun _ =>
                   run_calls connection ctx render
                     (globals_of (merged_auth ctx kwargs)) calls)))).
    { intros log_file_name ->. apply emits_bind.
      - apply emits_connect_first; [|exact Hlog].
        intros ip r Hin. split; [exact Hin|reflexivity].
      - intros prompt _.
        apply emits_bind; [apply emits_emit, Hlog|intros _ _].
        eapply emits_weaken; [|apply emits_run_calls].
        intros ev Hev. destruct ev; try exact Hev; destruct Hev. }
    destruct (get (auth_store_logs (merged_auth ctx kwargs)) false) eqn:Hsl.
    + apply emits_bind.
      * apply emits_bind; [apply emits_emit, Hlog|intros _ _; apply emits_ret].
      * intros log_file_name (w1 & w1' & evs1 & Hret).
        inversion Hret. apply Hconnect. reflexivity.
    + apply emits_bind; [apply emits_ret|].
      intros log_file_name (w1 & w1' & evs1 & Hret).
      inversion Hret. apply Hconnect. reflexivity.
Qed.

(** The events of a run. *)
Lemma emits_whole_run (kwargs : Kwargs) (fuel : nat)
    (first_call : Call) (more_calls : list Call) :
  kw_calls kwargs = Some (first_call :: more_calls) ->
  emits (run_event ctx render kwargs (first_call :: more_calls)
           (List.last more_calls first_call))
    (run connection ctx render kwargs fuel).
Proof.
  intros Hcalls. unfold run. rewrite Hcalls. cbn [get].
  apply emits_bind.
  - eapply emits_weaken; [|apply emits_run_session].
    intros ev Hev. unfold run_event. left. exact Hev.
  - intros _ _. unfold run_closing. apply emits_bind.
    + eapply emits_weaken; [|apply emits_close_loop].
      intros ev Hev. unfold run_event. right. left. exact Hev.
    + intros _ _. intros w o w' evs H. inversion H.
      constructor; [|constructor].
      unfold run_event. right. right. reflexivity.
Qed.

(** ** Exceptions *)

Lemma raises_only_weaken {A} (Q R : Exn -> Prop) (m : M connection A) :
  (forall e, Q e -> R e) -> raises_only Q m -> raises_only R m.
Proof.
  intros HQR Hm w o w' evs H. specialize (Hm _ _ _ _ H).
  destruct o; try exact Hm. apply HQR. exact Hm.
Qed.

Lemma raises_only_ret {A} (Q : Exn -> Prop) (a : A) :
  raises_only Q (ret connection a).
Proof. intros w o w' evs H. inversion H. exact I. Qed.

Lemma raises_only_raise {A} (Q : Exn -> Prop) (e : Exn) :
  Q e -> raises_only Q (@raise connection A e).
Proof. intros HQ w o w' evs H. inversion H. exact HQ. Qed.

Lemma raises_only_emit (Q : Exn -> Prop) (ev : Event) :
  raises_only Q (emit connection ev).
Proof. intros w o w' evs H. inversion H. exact I. Qed.

Lemma raises_only_sleep (Q : Exn -> Prop) (seconds : Z) :
  Q sleep_error -> raises_only Q (sleep connection seconds).
Proof.
  intros HQ w o w' evs H. unfold sleep in H.
  destruct (seconds <? 0); inversion H; [exact HQ|exact I].
Qed.

Lemma raises_only_bind {A B} (Q : Exn -> Prop) (m : M connection A)
    (f : A -> M connection B) :
  raises_only Q m -> (forall a, raises_only Q (f a)) ->
  raises_only Q (bind connection m f).
Proof.
  intros Hm Hf w o w' evs H. unfold bind in H.
  destruct (m w) as [[o1 w1] e1] eqn:Em.
  specialize (Hm _ _ _ _ Em).
  destruct o1 as [a|e|]; [|inversion H; subst; exact Hm|destruct Hm].
  destruct (f a w1) as [[o2 w2] e2] eqn:Ef.
  inversion H; subst. exact (Hf a _ _ _ _ Ef).
Qed.

Lemma raises_only_store (Q : Exn -> Prop) (key value : string) :
  raises_only Q (store connection key value).
Proof. intros w o w' evs H. inversion H. exact I. Qed.

(** What [_rerun] raises is never a warning. *)
Lemma raises_only_rerun (args : list string) (kw : RunKwargs)
    (retry_count retry_sleep : Z) :
  raises_only (fun e => is_warning e = false)
    (_rerun connection (connection_run connection) args kw
       retry_count retry_sleep).
Proof.
  intros w o w' evs H.
  destruct (rerun_loop_trace args kw retry_sleep (Z.to_nat 10) w)
    as (o' & w'' & evs' & ms & Hloop & _ & Htrace).
  unfold _rerun in H. rewrite Hloop in H. inversion H; subst.
  destruct Htrace as [ms output _ _|ms e _ _ Hw|ms _ _|m _ _];
    [exact I|exact Hw|reflexivity|reflexivity].
Qed.

(** One step of a proof of [raises_only]. *)
Ltac raises_step :=
  first
    [ apply raises_only_ret | apply raises_only_emit
    | apply raises_only_store | apply raises_only_rerun
    | apply raises_only_sleep; reflexivity
    | apply raises_only_raise; reflexivity
    | assumption
    | apply raises_only_bind; [|intros ?]
    | match goal with
      | |- raises_only _ (if ?b then _ else _) => destruct b
      | |- raises_only _ (match ?x with _ => _ end) => destruct x
      end ].

Lemma raises_only_run_lines (g : Globals) (call : Call)
    (lines : list string) (result : string) :
  raises_only (fun e => is_warning e = false)
    (run_lines connection g call lines result).
Proof.
  revert result. induction lines as [|op_line rest IH]; intros result;
    cbn [run_lines]; unfold log_info, log_debug; repeat raises_step;
    apply IH.
Qed.

Lemma raises_only_run_call (g : Globals) (call : Call) :
  raises_only (fun e => is_warning e = false)
    (run_call connection ctx render g call).
Proof.
  unfold run_call, call_operation, from_template, from_template_text,
    log_info, log_debug.
  repeat first [apply raises_only_run_lines | raises_step].
Qed.

Lemma raises_only_run_calls (g : Globals) (calls : list Call) :
  raises_only (fun e => is_warning e = false)
    (run_calls connection ctx render g calls).
Proof.
  induction calls as [|call rest IH]; cbn [run_calls];
    [apply raises_only_ret|].
  apply raises_only_bind; [apply raises_only_run_call|intros _; exact IH].
Qed.

(** ** The connection loop, whatever the transport does *)

Lemma connect_first_outcome (ips : list string) (a : ConnectArgs)
    (w w' : World connection) (o : Outcome string) (evs : list Event) :
  connect_first connection ips a w = (o, w', evs) ->
  runtime_properties w' = runtime_properties w /\
  ((o = Exc (OperationRetry TryOneMoreTime) /\
    exists exs,
      connect_failures connection a ips (session w) = Some (exs, session w') /\
      evs = flat_map (refused a) (zip ips exs)) \/
   (exists pre ip post exs s1 prompt,
      ips = pre ++ ip :: post /\
      connect_failures connection a pre (session w) = Some (exs, s1) /\
      terminal_connection.connect connection s1 ip a
        = (inr prompt, session w') /\
      o = Val prompt /\
      evs = flat_map (refused a) (zip pre exs)
              ++ [Connect ip a (inr prompt); Log Info (WillBeUsed ip)])).
Proof.
  revert w evs. induction ips as [|ip rest IH]; intros w evs H.
  - inversion H; subst. split; [reflexivity|]. left. split; [reflexivity|].
    exists []. split; reflexivity.
  - cbn [connect_first] in H. unfold bind at 1, connection_connect at 1 in H.
    destruct (terminal_connection.connect connection (session w) ip a)
      as [[ex|prompt] s1] eqn:Ec.
    + unfold log_info in H. rewrite bind_emit in H.
      destruct (connect_first connection rest a _) as [[o2 w2] evs2] eqn:Erest.
      inversion H; subst.
      destruct (IH _ _ Erest) as [Hprops [(Ho & exs & Hfail & Hevs)|
        (pre & ip' & post & exs & s2 & prompt & Hips & Hfail & Hok & Ho & Hevs)]];
        cbn [session runtime_properties] in *.
      * split; [exact Hprops|]. left. split; [exact Ho|].
        exists (ex :: exs). cbn [connect_failures]. rewrite Ec, Hfail.
        split; [reflexivity|]. rewrite Hevs. reflexivity.
      * split; [exact Hprops|]. right.
        exists (ip :: pre), ip', post, (ex :: exs), s2, prompt.
        cbn [connect_failures]. rewrite Ec, Hfail, Hips, Hevs.
        repeat split; assumption.
    + unfold log_info in H. rewrite bind_emit in H. unfold ret in H.
      inversion H; subst. split; [reflexivity|]. right.
      exists [], ip, rest, [], (session w), prompt.
      cbn [session]. repeat split. exact Ec.
Qed.

Lemma raises_only_connect_first (ips : list string) (a : ConnectArgs) :
  raises_only (fun e => is_warning e = false)
    (connect_first connection ips a).
Proof.
  intros w o w' evs H.
  destruct (connect_first_outcome _ _ _ _ _ _ H)
    as [_ [(-> & _)|(? & ? & ? & ? & ? & ? & _ & _ & _ & -> & _)]];
    [reflexivity|exact I].
Qed.

Lemma raises_only_run_session (kwargs : Kwargs) (calls : list Call) :
  raises_only (fun e => is_warning e = false)
    (run_session connection ctx render kwargs calls).
Proof.
  unfold run_session, resolve_ip_list, log_info.
  repeat first
    [ apply raises_only_connect_first | apply raises_only_run_calls
    | raises_step ].
Qed.

(** ** The shape of a run *)

(** A run with calls: the session, then the closing loop, then
    [connection.close()], each only if what comes before it returned. *)
Lemma run_unfold (kwargs : Kwargs) (fuel : nat)
    (first_call : Call) (more_calls : list Call) (w : World connection) :
  kw_calls kwargs = Some (first_call :: more_calls) ->
  run connection ctx render kwargs fuel w
  = match run_session connection ctx render kwargs
            (first_call :: more_calls) w with
    | (Val _, w1, evs1) =>
        match close_loop connection fuel
                (get (auth_exit_command (merged_auth ctx kwargs)) "exit")
                (override (auth_promt_check (merged_auth ctx kwargs))
                   (promt_check (List.last more_calls first_call)))
                (get (errors (List.last more_calls first_call))
                   (get (auth_errors (merged_auth ctx kwargs)) [])) w1 with
        | (Val _, w2, evs2) =>
            (Val tt,
             Build_World (terminal_connection.close connection (session w2))
               (runtime_properties w2),
             evs1 ++ evs2 ++ [Close])
        | (Exc e, w2, evs2) => (Exc e, w2, evs1 ++ evs2)
        | (Unfinished, w2, evs2) => (Unfinished, w2, evs1 ++ evs2)
        end
    | (Exc e, w1, evs1) => (Exc e, w1, evs1)
    | (Unfinished, w1, evs1) => (Unfinished, w1, evs1)
    end.
Proof.
  intros Hcalls. unfold run. rewrite Hcalls. cbn [get].
  unfold bind at 1.
  destruct (run_session _ _ _ _ _ _) as [[[[]|e|] w1] evs1]; try reflexivity.
  unfold run_closing, bind, globals_of.
  cbn [global_promt_check global_error_examples].
  destruct (close_loop _ _ _ _ _ _) as [[[[]|e|] w2] evs2]; reflexivity.
Qed.

(** When the closing loop raises, the last thing it did is the exit
    command that raised. *)
Lemma close_loop_raises (fuel : nat) (exit_command : string)
    (promt_check : option (list string)) (error_examples : list string)
    (w w' : World connection) (e : Exn) (evs : list Event) :
  close_loop connection fuel exit_command promt_check error_examples w
    = (Exc e, w', evs) ->
  exists pre,
    evs = pre ++ [Run (exit_kwargs exit_command promt_check error_examples)
                    (inl e)].
Proof.
  revert w evs. induction fuel as [|fuel IH]; intros w evs H;
    [discriminate|].
  cbn [close_loop] in H. unfold bind at 1, connection_is_closed at 1 in H.
  destruct (terminal_connection.is_closed connection (session w)) as [b s1].
  destruct (negb b && Py.truthy exit_command); [|discriminate].
  unfold log_info in H.
  change (sleep connection 1) with (emit connection (Sleep 1)) in H.
  rewrite bind_emit in H.
  unfold bind at 1, uncaught at 1, bind at 1, connection_run at 1 in H.
  cbn [session] in H.
  destruct (terminal_connection.run connection s1 _) as [[e'|result] s2].
  - cbn in H. inversion H; subst.
    exists [IsClosed b; Log Info ExecuteClose]. reflexivity.
  - cbn [ret] in H. rewrite !bind_emit in H.
    destruct (close_loop connection fuel _ _ _ _) as [[o2 w2] evs2] eqn:Eloop.
    destruct o2 as [[]|e2|]; try discriminate.
    inversion H; subst.
    destruct (IH _ _ Eloop) as (pre & ->).
    eexists (IsClosed b :: Log Info ExecuteClose :: Run _ (inr result)
               :: Log Info (ResultOfClose result) :: Sleep 1 :: pre).
    reflexivity.
Qed.

Lemma call_event_not_connect (g : Globals) (calls : list Call) (ev : Event) :
  call_event ctx render g calls ev -> not_connect ev /\ not_close ev.
Proof. destruct ev; intros H; try destruct H; split; exact I. Qed.

Lemma closing_event_not_connect (kw : RunKwargs) (ev : Event) :
  closing_event kw ev -> not_connect ev /\ not_close ev.
Proof. destruct ev; intros H; try destruct H; split; exact I. Qed.

Lemma session_event_not_close (kwargs : Kwargs) (calls : list Call)
    (ev : Event) :
  session_event ctx render kwargs calls ev -> not_close ev.
Proof. destruct ev; intros H; try destruct H; exact I. Qed.

(** The addresses a run with calls and a user connects to: the first
    ones of the resolved list, at least one. *)
Lemma run_connects (kwargs : Kwargs) (fuel : nat)
    (first_call : Call) (more_calls : list Call) (w : World connection) :
  kw_calls kwargs = Some (first_call :: more_calls) ->
  Py.truthy_opt (auth_user (merged_auth ctx kwargs)) = true ->
  exists n,
    (1 <= n <= length (ip_list_of ctx (merged_auth ctx kwargs)))%nat /\
    connects_of (run connection ctx render kwargs fuel w).2
      = take n (ip_list_of ctx (merged_auth ctx kwargs)).
Proof.
  intros Hcalls Huser.
  assert (Hcheck :
    negb (Py.truthy_list (ip_list_of ctx (merged_auth ctx kwargs)))
      || negb (Py.truthy_opt (auth_user (merged_auth ctx kwargs))) = false).
  { rewrite ip_list_of_nonempty, Huser. reflexivity. }
  assert (Hpre1 : connects_of (fallback_log ctx kwargs) = []).
  { unfold fallback_log. destruct (truthy_ip _); reflexivity. }
  assert (Hpre2 : connects_of (store_logs_log ctx kwargs) = []).
  { unfold store_logs_log.
    destruct (get (auth_store_logs _) false); reflexivity. }
  rewrite (run_unfold _ fuel _ _ w Hcalls).
  rewrite (run_session_connects _ _ _ _ _ Hcheck).
  destruct (connect_first connection _ _ w) as [[o1 w1] evs1] eqn:Ecf.
  destruct (connect_first_outcome _ _ _ _ _ _ Ecf)
    as [_ [(-> & exs & Hfail & ->)|
           (pre & ip & post & exs & s1 & prompt & Hips & Hfail & _ & -> & ->)]].
  - exists (length (ip_list_of ctx (merged_auth ctx kwargs))). split.
    + pose proof (ip_list_of_nonempty ctx (merged_auth ctx kwargs)) as Hne.
      destruct (ip_list_of ctx (merged_auth ctx kwargs)); [discriminate|].
      simpl. lia.
    + cbn [snd]. rewrite !connects_of_app, Hpre1, Hpre2.
      rewrite refused_connects
        by exact (connect_failures_length _ _ _ _ _ Hfail).
      rewrite firstn_all. reflexivity.
  - exists (S (length pre)). rewrite Hips. split.
    + rewrite length_app. simpl. lia.
    + pose proof (connect_failures_length _ _ _ _ _ Hfail) as Hlen.
      assert (Htake : take (S (length pre)) (pre ++ ip :: post) = pre ++ [ip]).
      { rewrite take_app_ge by lia.
        replace (S (length pre) - length pre)%nat with 1%nat by lia.
        reflexivity. }
      rewrite Htake.
      destruct (run_calls connection ctx render _ _ w1)
        as [[o2 w2] evs2] eqn:Ecalls.
      pose proof (emits_run_calls _ _ _ _ _ _ Ecalls) as Hev2.
      assert (Hc2 : connects_of evs2 = []).
      { apply connects_of_not_connect.
        eapply Forall_impl; [exact Hev2|].
        intros ev Hev. exact (proj1 (call_event_not_connect _ _ _ Hev)). }
      set (evs_s :=
             fallback_log ctx kwargs ++ store_logs_log ctx kwargs ++
             (flat_map (refused (connect_args_of ctx kwargs)) (zip pre exs)
                ++ [Connect ip (connect_args_of ctx kwargs) (inr prompt);
                    Log Info (WillBeUsed ip)])
             ++ Log Info (DevicePrompt prompt) :: evs2).
      assert (Hs : connects_of evs_s = pre ++ [ip]).
      { subst evs_s. rewrite !connects_of_app, Hpre1, Hpre2.
        rewrite refused_connects by exact Hlen.
        cbn [connects_of app]. rewrite Hc2, app_nil_r. reflexivity. }
      clearbody evs_s.
      destruct o2 as [[]|e2|]; cbn [snd]; try exact Hs.
      destruct (close_loop connection fuel _ _ _ w2)
        as [[o3 w3] evs3] eqn:Eloop.
      pose proof (emits_close_loop _ _ _ _ _ _ _ _ Eloop) as Hev3.
      assert (Hc3 : connects_of evs3 = []).
      { apply connects_of_not_connect.
        eapply Forall_impl; [exact Hev3|].
        intros ev Hev. exact (proj1 (closing_event_not_connect _ _ Hev)). }
      destruct o3 as [[]|e3|]; cbn [snd];
        rewrite !connects_of_app, Hs, Hc3; cbn [connects_of];
        rewrite ?app_nil_r; reflexivity.
Qed.

Lemma Forall_stores_of (P : string * string -> Prop) (evs : list Event) :
  Forall (fun ev => match ev with Store k v => P (k, v) | _ => True end) evs ->
  Forall P (stores_of evs).
Proof.
  induction 1 as [|ev evs Hev _ IH]; [constructor|].
  destruct ev; simpl; try exact IH. constructor; assumption.
Qed.

Lemma Forall_runs_of (P : RunKwargs * (Exn + string) -> Prop)
    (evs : list Event) :
  Forall (fun ev => match ev with Run kw r => P (kw, r) | _ => True end) evs ->
  Forall P (runs_of evs).
Proof.
  induction 1 as [|ev evs Hev _ IH]; [constructor|].
  destruct ev; simpl; try exact IH. constructor; assumption.
Qed.

(** The writes of a run, as events. *)
Lemma run_store_events (kwargs : Kwargs) (fuel : nat) (w : World connection) :
  Forall (fun ev =>
            match ev with
            | Store k v =>
                In (k, v).1 (save_keys (get (kw_calls kwargs) [])) /\
                Py.strip (k, v).2 = (k, v).2
            | _ => True
            end)
    (run connection ctx render kwargs fuel w).2.
Proof.
  destruct (kw_calls kwargs) as [[|first_call more_calls]|] eqn:Hcalls.
  - unfold run. rewrite Hcalls. repeat constructor.
  - destruct (run connection ctx render kwargs fuel w) as [[o w'] evs] eqn:Hrun.
    pose proof (emits_whole_run kwargs fuel _ _ Hcalls _ _ _ _ Hrun) as Hev.
    cbn [snd get]. eapply Forall_impl; [exact Hev|].
    intros [] Hrev; try exact I.
    destruct Hrev as [Hs|[Hc|Hc]]; [exact Hs|destruct Hc|discriminate Hc].
  - unfold run. rewrite Hcalls. repeat constructor.
Qed.

(** The events of a run with calls start with the log line of the
    fallback, when the fallback applies. *)
Lemma run_starts_with_fallback (kwargs : Kwargs) (fuel : nat)
    (first_call : Call) (more_calls : list Call) (w : World connection) :
  kw_calls kwargs = Some (first_call :: more_calls) ->
  exists rest,
    (run connection ctx render kwargs fuel w).2
      = fallback_log ctx kwargs ++ rest.
Proof.
  intros Hcalls. rewrite (run_unfold _ fuel _ _ w Hcalls).
  destruct (negb (Py.truthy_list (ip_list_of ctx (merged_auth ctx kwargs)))
              || negb (Py.truthy_opt (auth_user (merged_auth ctx kwargs))))
    eqn:Hcheck.
  - rewrite (run_session_missing _ _ _ _ _ Hcheck). exists [].
    cbn [snd]. rewrite app_nil_r. reflexivity.
  - rewrite (run_session_connects _ _ _ _ _ Hcheck).
    destruct (connect_first connection _ _ w) as [[[prompt|e|] w1] evs1];
      try (eexists; reflexivity).
    destruct (run_calls connection ctx render _ _ w1) as [[[[]|e|] w2] evs2];
      try (eexists; reflexivity).
    destruct (close_loop connection fuel _ _ _ w2) as [[[[]|e|] w3] evs3];
      cbn [snd]; rewrite <- app_assoc; eexists; reflexivity.
Qed.

(* ===================================================================== *)
(** * Further properties of the terminal task *)
(* ===================================================================== *)

(** X1: whatever count the caller passes, [_rerun] calls
    [connection.run] at most 10 times, always with the same keywords.
    Every pause it makes lasts [retry_sleep], which is then not negative,
    and comes right after an attempt that raised a RecoverableWarning and
    the log line of that warning; there is no other pause.  After fewer
    than 10 such attempts one more attempt ends the call, with its output
    or with its exception, which is not a warning; after 10 of them
    [_rerun] gives up with its own RecoverableError; and when
    [retry_sleep] is negative the call ends after the first warning and
    its log line, with the exception of the pause. *)
Theorem rerun_attempts_at_most_ten (args : list string) (kw : RunKwargs)
    (retry_count retry_sleep : Z) (w : World connection) :
  exists o w' evs ms,
    _rerun connection (connection_run connection) args kw
      retry_count retry_sleep w = (o, w', evs) /\
    (length (runs_of evs) <= 10)%nat /\
    Forall (fun kr => kr.1 = kw) (runs_of evs) /\
    sleeps_of evs = repeat retry_sleep (length ms) /\
    (ms <> [] -> 0 <= retry_sleep) /\
    ((exists r,
        evs = flat_map (warned kw retry_sleep) ms ++ [Run kw r] /\
        (length ms < 10)%nat /\
        match r with
        | inr output => o = Val output
        | inl e => o = Exc e /\ is_warning e = false
        end) \/
     (evs = flat_map (warned kw retry_sleep) ms /\
      length ms = 10%nat /\
      o = Exc (RecoverableError (FailedToRerun args kw))) \/
     (retry_sleep < 0 /\ ms = [] /\
      exists m,
        evs = [Run kw (inl (RecoverableWarning m));
               Log Info (NeedRerun (RecoverableWarning m))] /\
        o = Exc sleep_error)).
Proof.
  destruct (rerun_loop_trace args kw retry_sleep (Z.to_nat 10) w)
    as (o & w' & evs & ms & Hloop & _ & Htrace).
  exists o, w', evs, ms. split; [exact Hloop|].
  assert (Hwarned : Forall (fun kr : RunKwargs * (Exn + string) => kr.1 = kw)
            (map (fun m => (kw, inl (RecoverableWarning m))) ms)).
  { apply Forall_map. apply Forall_forall. intros m _. reflexivity. }
  change (Z.to_nat 10) with 10%nat in Htrace.
  destruct Htrace as [ms output Hlen Hs|ms e Hlen Hs Hw|ms Hlen Hs|m _ Hneg];
    rewrite ?runs_of_app, ?sleeps_of_app, ?warned_runs, ?warned_sleeps;
    cbn [runs_of sleeps_of unslept]; rewrite ?app_nil_r, ?length_app,
      ?length_map; cbn [length].
  - split; [lia|]. split; [apply Forall_app; split;
      [exact Hwarned|repeat constructor]|].
    split; [reflexivity|]. split; [exact Hs|]. left.
    exists (inr output). repeat split. exact Hlen.
  - split; [lia|]. split; [apply Forall_app; split;
      [exact Hwarned|repeat constructor]|].
    split; [reflexivity|]. split; [exact Hs|]. left.
    exists (inl e). repeat split; [exact Hlen|exact Hw].
  - split; [lia|]. split; [exact Hwarned|].
    split; [reflexivity|]. split; [exact Hs|]. right. left.
    repeat split. exact Hlen.
  - split; [lia|]. split; [repeat constructor|].
    split; [reflexivity|]. split; [easy|]. right. right.
    repeat split; [exact Hneg|]. exists m. split; reflexivity.
Qed.

(** X2: the loop over the addresses fails in one way only: every address
    of the list was tried, in order, and refused - whatever the exception,
    a NonRecoverableError included - each refusal was logged, and the loop
    raises OperationRetry.  Nothing is written meanwhile. *)
Theorem connection_loop_fails_only_when_all_refused (ips : list string)
    (a : ConnectArgs) (w w' : World connection) (e : Exn)
    (evs : list Event) :
  connect_first connection ips a w = (Exc e, w', evs) ->
  e = OperationRetry TryOneMoreTime /\
  connects_of evs = ips /\
  (exists exs,
     connect_failures connection a ips (session w) = Some (exs, session w') /\
     connect_failures_logged evs = zip ips exs) /\
  runtime_properties w' = runtime_properties w.
Proof.
  intros H.
  destruct (connect_first_outcome _ _ _ _ _ _ H)
    as [Hprops [(Ho & exs & Hfail & ->)|
                (? & ? & ? & ? & ? & ? & _ & _ & _ & Ho & _)]];
    [|discriminate Ho].
  inversion Ho; subst. split; [reflexivity|]. split; [|split].
  - apply refused_connects. exact (connect_failures_length _ _ _ _ _ Hfail).
  - exists exs. split; [exact Hfail|apply refused_logged].
  - exact Hprops.
Qed.

(** X3: a run with at least one call and a user connects to the first
    addresses of the resolved list, in order, one attempt each, at least
    one and never past the first that accepts; and every attempt is made
    with the same arguments, those of the merged credentials. *)
Theorem run_connects_in_list_order (kwargs : Kwargs) (fuel : nat)
    (first_call : Call) (more_calls : list Call) (w : World connection) :
  kw_calls kwargs = Some (first_call :: more_calls) ->
  Py.truthy_opt (auth_user (merged_auth ctx kwargs)) = true ->
  (exists n,
     (1 <= n <= length (ip_list_of ctx (merged_auth ctx kwargs)))%nat /\
     connects_of (run connection ctx render kwargs fuel w).2
       = take n (ip_list_of ctx (merged_auth ctx kwargs))) /\
  Forall (connect_with (ip_list_of ctx (merged_auth ctx kwargs))
            (connect_args_of ctx kwargs))
    (run connection ctx render kwargs fuel w).2.
Proof.
  intros Hcalls Huser. split.
  - exact (run_connects kwargs fuel _ _ w Hcalls Huser).
  - destruct (run connection ctx render kwargs fuel w) as [[o w'] evs] eqn:Hrun.
    pose proof (emits_whole_run kwargs fuel _ _ Hcalls _ _ _ _ Hrun) as Hev.
    cbn [snd]. eapply Forall_impl; [exact Hev|].
    intros [] Hrev; try exact I.
    destruct Hrev as [Hs|[Hc|Hc]]; [exact Hs|destruct Hc|discriminate Hc].
Qed.

(** X4: when the merged credentials have no address (no ['ip'], an empty
    string or an empty list), a run with at least one call and a user
    connects to the host of the instance and to nothing else, and the
    first thing it does is log that fallback. *)
Theorem run_falls_back_on_container_host (kwargs : Kwargs) (fuel : nat)
    (first_call : Call) (more_calls : list Call) (w : World connection) :
  kw_calls kwargs = Some (first_call :: more_calls) ->
  Py.truthy_opt (auth_user (merged_auth ctx kwargs)) = true ->
  truthy_ip (auth_ip (merged_auth ctx kwargs)) = false ->
  connects_of (run connection ctx render kwargs fuel w).2
    = [host_ip (ctx_instance ctx)] /\
  exists rest,
    (run connection ctx render kwargs fuel w).2
      = Log Info (UsedHostFromContainer [host_ip (ctx_instance ctx)]) :: rest.
Proof.
  intros Hcalls Huser Hip. split.
  - destruct (run_connects kwargs fuel _ _ w Hcalls Huser) as (n & Hn & ->).
    assert (Hips : ip_list_of ctx (merged_auth ctx kwargs)
                   = [host_ip (ctx_instance ctx)]).
    { unfold ip_list_of. destruct (auth_ip _) as [spec|]; [|reflexivity].
      rewrite Hip. reflexivity. }
    rewrite Hips in *. simpl in Hn.
    assert (n = 1%nat) as -> by lia. reflexivity.
  - destruct (run_starts_with_fallback kwargs fuel _ _ w Hcalls)
      as (rest & Hrest).
    exists rest. rewrite Hrest. unfold fallback_log. rewrite Hip. reflexivity.
Qed.

(** X5: a run changes the runtime properties under the save keys of its
    calls only: a key that is not the non-empty ['save_to'] of one of the
    calls holds after the run what it held before, however the run ends. *)
Theorem run_leaves_other_keys_alone (kwargs : Kwargs) (fuel : nat)
    (w : World connection) (key : string) :
  ~ In key (save_keys (get (kw_calls kwargs) [])) ->
  runtime_properties (run connection ctx render kwargs fuel w).1.2 !! key
    = runtime_properties w !! key.
Proof.
  intros Hkey.
  pose proof (run_store_events kwargs fuel w) as Hev.
  destruct (run connection ctx render kwargs fuel w) as [[o w'] evs] eqn:Hrun.
  destruct (tracked_run ctx render kwargs fuel _ _ _ _ Hrun) as [Hprops _].
  cbn [fst snd] in *. rewrite Hprops. apply replay_lookup_other.
  eapply Forall_impl;
    [exact (Forall_stores_of
              (fun kv => In kv.1 (save_keys (get (kw_calls kwargs) [])) /\
                         Py.strip kv.2 = kv.2) _ Hev)|].
  intros [k v] [Hin _] Heq. cbn [fst] in *. subst k. exact (Hkey Hin).
Qed.

(** X6: every write of a run is under the non-empty save key of one of
    its calls, and the value written has no whitespace at either end:
    stripping it again changes nothing. *)
Theorem run_writes_stripped_values (kwargs : Kwargs) (fuel : nat)
    (w : World connection) :
  Forall (fun kv => In kv.1 (save_keys (get (kw_calls kwargs) [])) /\
                    Py.strip kv.2 = kv.2)
    (stores_of (run connection ctx render kwargs fuel w).2).
Proof.
  apply (Forall_stores_of
           (fun kv => In kv.1 (save_keys (get (kw_calls kwargs) [])) /\
                      Py.strip kv.2 = kv.2)).
  apply run_store_events.
Qed.

(** X7: what a run sends to the device is, line by line, either a line of
    the text of one of its calls - a piece of that text between newlines,
    not blank, with no newline in it, sent with the patterns and responses
    of that call - or the exit command with the keywords of the closing
    loop. *)
Theorem run_sends_lines_of_calls (kwargs : Kwargs) (fuel : nat)
    (first_call : Call) (more_calls : list Call) (w : World connection) :
  kw_calls kwargs = Some (first_call :: more_calls) ->
  Forall (fun kr =>
            (exists call,
               In call (first_call :: more_calls) /\
               kr.1 = line_kwargs (globals_of (merged_auth ctx kwargs)) call
                        (command kr.1) /\
               In (command kr.1)
                  (Py.split_newline (compile ctx render call)) /\
               nonblank (command kr.1) = true /\
               has_newline (command kr.1) = false) \/
            kr.1 = exit_kwargs_of ctx kwargs (List.last more_calls first_call))
    (runs_of (run connection ctx render kwargs fuel w).2).
Proof.
  intros Hcalls.
  destruct (run connection ctx render kwargs fuel w) as [[o w'] evs] eqn:Hrun.
  pose proof (emits_whole_run kwargs fuel _ _ Hcalls _ _ _ _ Hrun) as Hev.
  cbn [snd]. apply Forall_runs_of. eapply Forall_impl; [exact Hev|].
  intros [] Hrev; try exact I. cbn [fst].
  destruct Hrev as [(call & Hin & Hkw & Hline & Hnb)|[Hc|Hc]];
    [|right; exact Hc|discriminate Hc].
  left. exists call. repeat split; try assumption.
  exact (split_newline_pieces _ _ Hline).
Qed.

(** X8: [connection.close()] is called at most once, and only at the very
    end of a run that succeeds: a run that ends with an exception, in the
    session or in the closing loop, or that has no calls, never calls it. *)
Theorem close_only_after_success (kwargs : Kwargs) (fuel : nat)
    (w : World connection) :
  match (run connection ctx render kwargs fuel w).1.1 with
  | Val _ =>
      (get (kw_calls kwargs) [] = [] /\
       closes_of (run connection ctx render kwargs fuel w).2 = O) \/
      (exists evs0,
         (run connection ctx render kwargs fuel w).2 = evs0 ++ [Close] /\
         closes_of evs0 = O)
  | _ => closes_of (run connection ctx render kwargs fuel w).2 = O
  end.
Proof.
  destruct (kw_calls kwargs) as [[|first_call more_calls]|] eqn:Hcalls;
    try (unfold run; rewrite Hcalls; left; split; reflexivity).
  rewrite (run_unfold _ fuel _ _ w Hcalls).
  destruct (run_session connection ctx render kwargs _ w)
    as [[o1 w1] evs1] eqn:Hsession.
  assert (Hc1 : closes_of evs1 = O).
  { apply closes_of_not_close.
    eapply Forall_impl; [exact (emits_run_session _ _ _ _ _ _ Hsession)|].
    intros ev Hev. exact (session_event_not_close _ _ _ Hev). }
  destruct o1 as [[]|e|]; cbn [fst snd]; try exact Hc1.
  destruct (close_loop connection fuel _ _ _ w1) as [[o2 w2] evs2] eqn:Hloop.
  assert (Hc2 : closes_of evs2 = O).
  { apply closes_of_not_close.
    eapply Forall_impl; [exact (emits_close_loop _ _ _ _ _ _ _ _ Hloop)|].
    intros ev Hev. exact (proj2 (closing_event_not_connect _ _ Hev)). }
  destruct o2 as [[]|e|]; cbn [fst snd].
  - right. exists (evs1 ++ evs2). split; [rewrite app_assoc; reflexivity|].
    rewrite closes_of_app, Hc1, Hc2. reflexivity.
  - rewrite closes_of_app, Hc1, Hc2. reflexivity.
  - rewrite closes_of_app, Hc1, Hc2. reflexivity.
Qed.

(** X9: after the calls, when the transport already reports "closed", or
    when the exit command is empty, the closing loop sends nothing: there
    is one check, then [connection.close()], and the run succeeds. *)
Theorem closing_without_exit_command (kwargs : Kwargs) (fuel : nat)
    (first_call : Call) (more_calls : list Call)
    (w w1 : World connection) (evs1 : list Event)
    (closed : bool) (s1 : terminal_connection.state connection) :
  kw_calls kwargs = Some (first_call :: more_calls) ->
  run_session connection ctx render kwargs (first_call :: more_calls) w
    = (Val tt, w1, evs1) ->
  terminal_connection.is_closed connection (session w1) = (closed, s1) ->
  closed = true \/
    Py.truthy (get (auth_exit_command (merged_auth ctx kwargs)) "exit")
      = false ->
  (0 < fuel)%nat ->
  run connection ctx render kwargs fuel w
  = (Val tt,
     Build_World (terminal_connection.close connection s1)
       (runtime_properties w1),
     evs1 ++ [IsClosed closed; Close]).
Proof.
  intros Hcalls Hsession Hclosed Hstop Hfuel.
  rewrite (run_unfold _ fuel _ _ w Hcalls), Hsession.
  destruct fuel as [|fuel]; [lia|].
  cbn [close_loop]. unfold bind at 1, connection_is_closed at 1.
  rewrite Hclosed.
  assert (Hcond :
    negb closed
      && Py.truthy (get (auth_exit_command (merged_auth ctx kwargs)) "exit")
    = false).
  { destruct Hstop as [-> | ->]; [reflexivity|apply andb_false_r]. }
  rewrite Hcond. reflexivity.
Qed.

(** X10: the exit command is not run through [_rerun]: when it raises,
    be it a RecoverableWarning, the run ends at once with that exception;
    there is no pause, no second attempt, and [connection.close()] is not
    called. *)
Theorem exit_command_failure_ends_run (kwargs : Kwargs) (fuel : nat)
    (first_call : Call) (more_calls : list Call)
    (w w1 : World connection) (evs1 : list Event)
    (s1 s2 : terminal_connection.state connection) (e : Exn) :
  kw_calls kwargs = Some (first_call :: more_calls) ->
  run_session connection ctx render kwargs (first_call :: more_calls) w
    = (Val tt, w1, evs1) ->
  Py.truthy (get (auth_exit_command (merged_auth ctx kwargs)) "exit") = true ->
  terminal_connection.is_closed connection (session w1) = (false, s1) ->
  terminal_connection.run connection s1
    (exit_kwargs_of ctx kwargs (List.last more_calls first_call))
    = (inl e, s2) ->
  (0 < fuel)%nat ->
  run connection ctx render kwargs fuel w
  = (Exc e, Build_World s2 (runtime_properties w1),
     evs1 ++ [IsClosed false; Log Info ExecuteClose;
              Run (exit_kwargs_of ctx kwargs (List.last more_calls first_call))
                (inl e)]).
Proof.
  intros Hcalls Hsession Hexit Hclosed Hrun Hfuel.
  rewrite (run_unfold _ fuel _ _ w Hcalls), Hsession.
  destruct fuel as [|fuel]; [lia|].
  cbn [close_loop]. unfold bind at 1, connection_is_closed at 1.
  rewrite Hclosed, Hexit. cbn [negb andb].
  unfold log_info. rewrite bind_emit.
  unfold bind at 1, uncaught at 1, bind at 1, connection_run at 1.
  cbn [session]. unfold exit_kwargs_of in Hrun. rewrite Hrun. reflexivity.
Qed.

(** X11: the session - credentials, connection, calls - always comes to
    an end, and when it ends with an exception that exception is not a
    RecoverableWarning: the warnings of the lines are retried, or replaced
    by the RecoverableError of [_rerun], and what [connect] raises is
    replaced by OperationRetry. *)
Theorem session_ends_without_warning (kwargs : Kwargs) (calls : list Call)
    (w : World connection) :
  match (run_session connection ctx render kwargs calls w).1.1 with
  | Val _ => True
  | Exc e => is_warning e = false
  | Unfinished => False
  end.
Proof.
  destruct (run_session connection ctx render kwargs calls w)
    as [[o w'] evs] eqn:Hsession.
  exact (raises_only_run_session kwargs calls _ _ _ _ Hsession).
Qed.

(** X12: a run ends with a RecoverableWarning only when the exit command
    of the closing loop raised it: the calls were all processed, and the
    last event of the run is that exit command. *)
Theorem warning_escapes_from_exit_command_only (kwargs : Kwargs) (fuel : nat)
    (w w' : World connection) (e : Exn) (evs : list Event) :
  run connection ctx render kwargs fuel w = (Exc e, w', evs) ->
  is_warning e = true ->
  exists first_call more_calls w1 evs1 pre,
    kw_calls kwargs = Some (first_call :: more_calls) /\
    run_session connection ctx render kwargs (first_call :: more_calls) w
      = (Val tt, w1, evs1) /\
    evs = evs1 ++ pre ++
          [Run (exit_kwargs_of ctx kwargs (List.last more_calls first_call))
             (inl e)].
Proof.
  intros Hrun Hw.
  destruct (kw_calls kwargs) as [[|first_call more_calls]|] eqn:Hcalls;
    try (unfold run in Hrun; rewrite Hcalls in Hrun; discriminate Hrun).
  rewrite (run_unfold _ fuel _ _ w Hcalls) in Hrun.
  destruct (run_session connection ctx render kwargs _ w)
    as [[o1 w1] evs1] eqn:Hsession.
  pose proof (raises_only_run_session kwargs _ _ _ _ _ Hsession) as Hq.
  destruct o1 as [[]|e1|]; [| |destruct Hq].
  - destruct (close_loop connection fuel _ _ _ w1)
      as [[o2 w2] evs2] eqn:Hloop.
    destruct o2 as [[]|e2|]; try discriminate Hrun.
    inversion Hrun; subst.
    destruct (close_loop_raises _ _ _ _ _ _ _ _ Hloop) as (pre & ->).
    exists first_call, more_calls, w1, evs1, pre.
    split; [reflexivity|]. split; [exact Hsession|reflexivity].
  - inversion Hrun; subst. cbn in Hq. congruence.
Qed.

Lemma Forall_sleeps_of (P : Z -> Prop) (evs : list Event) :
  Forall (fun ev => match ev with Sleep seconds => P seconds | _ => True end)
    evs ->
  Forall P (sleeps_of evs).
Proof.
  induction 1 as [|ev evs Hev _ IH]; [constructor|].
  destruct ev; simpl; try exact IH. constructor; assumption.
Qed.

(** X17: a run pauses for two reasons only: after a line that raised a
    warning, for the ['retry_sleep'] of the call the line belongs to (15
    seconds when the call has none), and after an exit command, for one
    second. *)
Theorem run_pauses (kwargs : Kwargs) (fuel : nat)
    (first_call : Call) (more_calls : list Call) (w : World connection) :
  kw_calls kwargs = Some (first_call :: more_calls) ->
  Forall (fun seconds =>
            (exists call,
               In call (first_call :: more_calls) /\
               seconds = get (retry_sleep call) 15) \/
            seconds = 1)
    (sleeps_of (run connection ctx render kwargs fuel w).2).
Proof.
  intros Hcalls.
  destruct (run connection ctx render kwargs fuel w) as [[o w'] evs] eqn:Hrun.
  pose proof (emits_whole_run kwargs fuel _ _ Hcalls _ _ _ _ Hrun) as Hev.
  cbn [snd].
  apply (Forall_sleeps_of
           (fun seconds =>
              (exists call,
                 In call (first_call :: more_calls) /\
                 seconds = get (retry_sleep call) 15) \/
              seconds = 1)).
  eapply Forall_impl; [exact Hev|].
  intros [] Hrev; try exact I.
  destruct Hrev as [Hs|[Hc|Hc]];
    [left; exact (proj2 Hs)|right; exact Hc|discriminate Hc].
Qed.

End Invariants.

(* ===================================================================== *)
(** * Properties of the deployment proxy helpers *)
(* ===================================================================== *)

Section ProxyFacts.

Import deployment_proxy.

Context (message_of traceback_of : Exn -> string).
Context {Object : Type}.
Context (DeploymentProxyBase : gmap string PyValue -> Exn + Object).
Context (methods : string -> option (Object -> Exn + PyValue)).

(** X13: [get_desired_value] takes the value of the key from the first of
    the keyword arguments, the instance attributes and the node properties
    where it is true in Python's sense.  A value that is there but false
    ([False], [0], [""], an empty list or mapping) is passed over like a
    missing one; when none of the three is true the result is what the
    node properties hold, [None] if they do not have the key; and the
    result is true exactly when one of the three is. *)
Theorem get_desired_value_first_truthy (key : string)
    (args instance_attr node_prop : gmap string PyValue) :
  (truthy (dict_get args key) = true ->
   get_desired_value key args instance_attr node_prop = dict_get args key) /\
  (truthy (dict_get args key) = false ->
   truthy (dict_get instance_attr key) = true ->
   get_desired_value key args instance_attr node_prop
     = dict_get instance_attr key) /\
  (truthy (dict_get args key) = false ->
   truthy (dict_get instance_attr key) = false ->
   get_desired_value key args instance_attr node_prop
     = dict_get node_prop key) /\
  (truthy (dict_get args key) = false ->
   truthy (dict_get instance_attr key) = false ->
   node_prop !! key = None ->
   get_desired_value key args instance_attr node_prop = VNone) /\
  truthy (get_desired_value key args instance_attr node_prop)
    = truthy (dict_get args key) || truthy (dict_get instance_attr key)
      || truthy (dict_get node_prop key).
Proof.
  unfold get_desired_value, or_.
  destruct (truthy (dict_get args key)) eqn:Ea;
    destruct (truthy (dict_get instance_attr key)) eqn:Eb;
    rewrite ?Ea, ?Eb; repeat split; try discriminate; try reflexivity;
    try (rewrite Ea; reflexivity); try (rewrite Eb; reflexivity).
  intros _ _ Hnone. unfold dict_get. rewrite Hnone. reflexivity.
Qed.

(** X14: [update_attributes] on a type that is there sets the key of that
    type to the value - reading it back gives the value - and leaves every
    other key of every type as it was; it creates no type.  On a type that
    is not there it is a KeyError and nothing is set.  Setting the same key
    twice is the same as setting it to the second value. *)
Theorem update_attributes_round_trip
    (props : gmap string (gmap string PyValue))
    (_type _key : string) (_value : PyValue) :
  match update_attributes props _type _key _value with
  | inr props' =>
      (exists attributes,
         props !! _type = Some attributes /\
         props' !! _type = Some (<[_key := _value]> attributes)) /\
      (props' !! _type ≫= (fun attributes => attributes !! _key))
        = Some _value /\
      (forall t k, (t, k) <> (_type, _key) ->
         (props' !! t ≫= (fun attributes => attributes !! k))
         = (props !! t ≫= (fun attributes => attributes !! k))) /\
      (forall t, is_Some (props' !! t) <-> is_Some (props !! t)) /\
      (forall v, update_attributes props' _type _key v
                 = update_attributes props _type _key v)
  | inl e =>
      props !! _type = None /\ e = OtherException "KeyError" (Text _type)
  end.
Proof.
  unfold update_attributes.
  destruct (props !! _type) as [attributes|] eqn:Ht; [|split; reflexivity].
  split; [|split; [|split; [|split]]].
  - exists attributes. split; [reflexivity|apply lookup_insert_eq].
  - rewrite lookup_insert_eq. cbn. apply lookup_insert_eq.
  - intros t k Hne. destruct (decide (t = _type)) as [->|Ht'].
    + rewrite lookup_insert_eq, Ht. cbn.
      apply lookup_insert_ne. intros ->. apply Hne. reflexivity.
    + rewrite lookup_insert_ne by (intros Heq; apply Ht'; symmetry; exact Heq).
      reflexivity.
  - intros t. destruct (decide (t = _type)) as [->|Ht'].
    + rewrite lookup_insert_eq, Ht. split; intros _; eexists; reflexivity.
    + rewrite lookup_insert_ne by (intros Heq; apply Ht'; symmetry; exact Heq).
      reflexivity.
  - intros v. rewrite lookup_insert_eq.
    rewrite !insert_insert_eq. reflexivity.
Qed.

(** X15: the wrapper of [proxy_operation] returns what the task returns
    and logs nothing; when the task raises it logs one error line and
    raises OperationRetry if the task raised OperationRetry, and
    NonRecoverableError in every other case: a RecoverableError of the task
    comes out fatal.  The wrapper raises nothing else. *)
Theorem proxy_operation_outcomes (operation : string)
    (task : gmap string PyValue -> Exn + PyValue)
    (kwargs : gmap string PyValue) :
  match task (<["operation" := VStr operation]> kwargs) with
  | inr value =>
      proxy_operation message_of traceback_of operation task kwargs
        = ([], inr value)
  | inl e =>
      exists line e',
        proxy_operation message_of traceback_of operation task kwargs
          = ([line], inl e') /\
        line = traceback_log (traceback_of e) (message_of e) /\
        ((exists m, e = OperationRetry m) ->
         e' = OperationRetry (proxy_error (message_of e) operation) /\
         is_retryable e' = true) /\
        ((forall m, e <> OperationRetry m) ->
         e' = NonRecoverableError (proxy_error (message_of e) operation) /\
         is_fatal e' = true) /\
        (is_fatal e' = true \/ is_retryable e' = true)
  end.
Proof.
  unfold proxy_operation.
  destruct (task (<["operation" := VStr operation]> kwargs)) as [e|value];
    [|reflexivity].
  destruct e as [m|m|m|m|cls m]; eexists _, _;
    (split; [reflexivity|]); (split; [reflexivity|]);
    (split; [|split]);
    try (intros [m' Hm']; discriminate Hm');
    try (intros Hne; exfalso; exact (Hne _ eq_refl));
    try (intros _; split; reflexivity);
    try (left; reflexivity); try (right; reflexivity).
Qed.

(** X16: each of the four tasks builds a [DeploymentProxyBase] from the
    caller's keywords less ['operation'] and calls, on that object, the
    method that its decorator names ([execute_start] calls
    [execute_workflow]); when the object cannot be built the exception of
    the constructor is the one of the task.  An ['operation'] that the
    caller passes is overwritten and changes nothing.  A name that is not
    a method is an AttributeError with Python's text for it, which the
    wrapper turns into a NonRecoverableError. *)
Theorem proxied_task_runs_the_named_method (name operation : string)
    (kwargs : gmap string PyValue) (caller_value : PyValue) :
  task_body DeploymentProxyBase methods name
    (<["operation" := VStr operation]> kwargs)
    = match DeploymentProxyBase (delete "operation" kwargs) with
      | inl e => inl e
      | inr object =>
          match methods operation with
          | Some method => method object
          | None =>
              inl (OtherException "AttributeError"
                     (Text ("'DeploymentProxyBase' object has no attribute '"
                              +:+ operation +:+ "'")))
          end
      end /\
  proxy_operation message_of traceback_of operation
    (task_body DeploymentProxyBase methods name)
    (<["operation" := caller_value]> kwargs)
    = proxy_operation message_of traceback_of operation
        (task_body DeploymentProxyBase methods name) kwargs /\
  upload_blueprint message_of traceback_of DeploymentProxyBase methods kwargs
    = proxy_operation message_of traceback_of "upload_blueprint"
        (task_body DeploymentProxyBase methods "upload_blueprint") kwargs /\
  create_deployment message_of traceback_of DeploymentProxyBase methods kwargs
    = proxy_operation message_of traceback_of "create_deployment"
        (task_body DeploymentProxyBase methods "create_deployment") kwargs /\
  delete_deployment message_of traceback_of DeploymentProxyBase methods kwargs
    = proxy_operation message_of traceback_of "delete_deployment"
        (task_body DeploymentProxyBase methods "delete_deployment") kwargs /\
  execute_start message_of traceback_of DeploymentProxyBase methods kwargs
    = proxy_operation message_of traceback_of "execute_workflow"
        (task_body DeploymentProxyBase methods "execute_start") kwargs /\
  (forall object,
     DeploymentProxyBase (delete "operation" kwargs) = inr object ->
     methods operation = None ->
     exists line,
       proxy_operation message_of traceback_of operation
         (task_body DeploymentProxyBase methods name) kwargs
       = ([line],
          inl (NonRecoverableError
                 (proxy_error
                    (message_of
                       (OtherException "AttributeError"
                          (Text ("'DeploymentProxyBase' object has no attribute '"
                                   +:+ operation +:+ "'"))))
                    operation)))).
Proof.
  assert (Hbody :
    task_body DeploymentProxyBase methods name
      (<["operation" := VStr operation]> kwargs)
    = match DeploymentProxyBase (delete "operation" kwargs) with
      | inl e => inl e
      | inr object =>
          match methods operation with
          | Some method => method object
          | None => inl (no_attribute operation)
          end
      end).
  { unfold task_body. rewrite lookup_insert_eq, delete_insert_eq.
    reflexivity. }
  split; [exact Hbody|]. split; [|repeat (split; [reflexivity|])].
  - unfold proxy_operation. rewrite insert_insert_eq. reflexivity.
  - intros object Hobject Hnone. unfold proxy_operation.
    rewrite Hbody, Hobject, Hnone. eexists. reflexivity.
Qed.

End ProxyFacts.

(* ===================================================================== *)
(** * The further properties at work on concrete runs *)
(* ===================================================================== *)

(** X2 at work: two addresses, the first refuses with a
    NonRecoverableError, the second is unreachable. *)
Lemma connection_loop_fails_only_when_all_refused_witness :
  let a := connect_args (Sample.admin_at []) None in
  let r := connect_first Scripted.connection ["r1"; "r2"] a
             (Scripted.world Sample.refusing_device) in
  r = (Exc (OperationRetry TryOneMoreTime), r.1.2, r.2) /\
  connects_of r.2 = ["r1"; "r2"] /\
  connect_failures_logged r.2
    = [("r1", NonRecoverableError (Text "bad password"));
       ("r2", Scripted.unreachable)].
Proof.
  intros a r.
  assert (Hloop : r = (Exc (OperationRetry TryOneMoreTime), r.1.2, r.2))
    by (vm_compute; reflexivity).
  split; [exact Hloop|].
  destruct (connection_loop_fails_only_when_all_refused
              ["r1"; "r2"] a (Scripted.world Sample.refusing_device)
              r.1.2 (OperationRetry TryOneMoreTime) r.2 Hloop)
    as (_ & Hconnects & _ & _).
  split; [exact Hconnects|]. vm_compute. reflexivity.
Defined.

(** X3 at work: three addresses, the second one answers. *)
Lemma run_connects_in_list_order_witness :
  let kwargs := Sample.kwargs [Sample.act "show version"]
                  (Sample.admin_at ["r1"; "r2"; "r3"]) in
  let r := run Scripted.connection Sample.ctx Sample.render kwargs 2
             (Scripted.world Sample.second_host_device) in
  kw_calls kwargs = Some [Sample.act "show version"] /\
  Py.truthy_opt (auth_user (merged_auth Sample.ctx kwargs)) = true /\
  connects_of r.2 = ["r1"; "r2"] /\
  exists n,
    (1 <= n <= 3)%nat /\ connects_of r.2 = take n ["r1"; "r2"; "r3"].
Proof.
  intros kwargs r.
  assert (Hcalls : kw_calls kwargs = Some [Sample.act "show version"])
    by reflexivity.
  assert (Huser :
    Py.truthy_opt (auth_user (merged_auth Sample.ctx kwargs)) = true)
    by reflexivity.
  split; [exact Hcalls|]. split; [exact Huser|].
  split; [vm_compute; reflexivity|].
  exact (proj1 (run_connects_in_list_order Sample.ctx Sample.render kwargs
                  2%nat (Sample.act "show version") []
                  (Scripted.world Sample.second_host_device) Hcalls Huser)).
Defined.

(** X4 at work: a user and no address. *)
Lemma run_falls_back_on_container_host_witness :
  let kwargs := Sample.kwargs [Sample.act "show version"]
                  (Sample.auth None (Some "admin")) in
  let r := run Scripted.connection Sample.ctx Sample.render kwargs 2
             (Scripted.world (Sample.device [inr "#"] [inr "v1"])) in
  kw_calls kwargs = Some [Sample.act "show version"] /\
  Py.truthy_opt (auth_user (merged_auth Sample.ctx kwargs)) = true /\
  truthy_ip (auth_ip (merged_auth Sample.ctx kwargs)) = false /\
  connects_of r.2 = ["10.0.0.1"].
Proof.
  intros kwargs r.
  assert (Hcalls : kw_calls kwargs = Some [Sample.act "show version"])
    by reflexivity.
  assert (Huser :
    Py.truthy_opt (auth_user (merged_auth Sample.ctx kwargs)) = true)
    by reflexivity.
  assert (Hip : truthy_ip (auth_ip (merged_auth Sample.ctx kwargs)) = false)
    by reflexivity.
  split; [exact Hcalls|]. split; [exact Huser|]. split; [exact Hip|].
  exact (proj1 (run_falls_back_on_container_host Sample.ctx Sample.render
                  kwargs 2%nat (Sample.act "show version") []
                  (Scripted.world (Sample.device [inr "#"] [inr "v1"]))
                  Hcalls Huser Hip)).
Defined.

(** X5 at work: the call saves under ["out"]; ["other"] keeps its value. *)
Lemma run_leaves_other_keys_alone_witness :
  let kwargs := Sample.kwargs [Sample.two_lines] (Sample.admin_at ["r1"]) in
  let w := @Build_World Scripted.connection
             (Sample.device [inr "#"] [inr "  v1  "; inr "eth0"])
             (<["other" := "kept"]> ∅) in
  ~ In "other" (save_keys (get (kw_calls kwargs) [])) /\
  runtime_properties
    (run Scripted.connection Sample.ctx Sample.render kwargs 2 w).1.2
    !! "other" = Some "kept".
Proof.
  intros kwargs w.
  assert (Hkey : ~ In "other" (save_keys (get (kw_calls kwargs) []))).
  { simpl. intros [H|[]]. discriminate H. }
  split; [exact Hkey|].
  exact (run_leaves_other_keys_alone Sample.ctx Sample.render kwargs 2%nat w
           "other" Hkey).
Defined.

(** X7 at work: two lines around a blank one, then the exit command. *)
Lemma run_sends_lines_of_calls_witness :
  let kwargs := Sample.kwargs [Sample.two_lines] (Sample.admin_at ["r1"]) in
  let r := run Scripted.connection Sample.ctx Sample.render kwargs 3
             (Scripted.world (Sample.closing_device [false])) in
  kw_calls kwargs = Some [Sample.two_lines] /\
  map (fun kr => command kr.1) (runs_of r.2)
    = ["show version"; "show interfaces"; "exit"] /\
  Forall (fun kr => has_newline (command kr.1) = false \/
                    kr.1 = exit_kwargs_of Sample.ctx kwargs Sample.two_lines)
    (runs_of r.2).
Proof.
  intros kwargs r.
  assert (Hcalls : kw_calls kwargs = Some [Sample.two_lines]) by reflexivity.
  split; [exact Hcalls|]. split; [vm_compute; reflexivity|].
  eapply Forall_impl;
    [exact (run_sends_lines_of_calls Sample.ctx Sample.render kwargs 3%nat
              Sample.two_lines []
              (Scripted.world (Sample.closing_device [false])) Hcalls)|].
  intros kr [(call & _ & _ & _ & _ & Hnl)|Hexit];
    [left; exact Hnl|right; exact Hexit].
Defined.

(** X9 at work: a device that is closed at the first check. *)
Lemma closing_without_exit_command_witness :
  let kwargs := Sample.kwargs [Sample.act "show version"]
                  (Sample.admin_at ["r1"]) in
  let w := Scripted.world (Sample.closing_device []) in
  let r1 := run_session Scripted.connection Sample.ctx Sample.render kwargs
              [Sample.act "show version"] w in
  kw_calls kwargs = Some [Sample.act "show version"] /\
  r1 = (Val tt, r1.1.2, r1.2) /\
  Scripted.is_closed (session r1.1.2) = (true, Sample.connected []) /\
  (0 < 1)%nat /\
  run Scripted.connection Sample.ctx Sample.render kwargs 1 w
  = (Val tt,
     @Build_World Scripted.connection (Sample.connected [])
       (runtime_properties r1.1.2),
     r1.2 ++ [IsClosed true; Close]).
Proof.
  intros kwargs w r1.
  assert (Hcalls : kw_calls kwargs = Some [Sample.act "show version"])
    by reflexivity.
  assert (Hsession : r1 = (Val tt, r1.1.2, r1.2)) by (vm_compute; reflexivity).
  assert (Hclosed : Scripted.is_closed (session r1.1.2)
                    = (true, Sample.connected []))
    by (vm_compute; reflexivity).
  assert (Hfuel : (0 < 1)%nat) by lia.
  repeat (split; [assumption|]).
  exact (closing_without_exit_command Sample.ctx Sample.render kwargs 1%nat
           (Sample.act "show version") [] w r1.1.2 r1.2 true
           (Sample.connected []) Hcalls Hsession Hclosed
           (or_introl eq_refl) Hfuel).
Defined.

(** X10 at work: the exit command is answered with a warning. *)
Lemma exit_command_failure_ends_run_witness :
  let kwargs := Sample.kwargs [Sample.act "show version"]
                  (Sample.admin_at ["r1"]) in
  let w := Scripted.world Sample.exit_refused_device in
  let r1 := run_session Scripted.connection Sample.ctx Sample.render kwargs
              [Sample.act "show version"] w in
  let kw := exit_kwargs_of Sample.ctx kwargs (Sample.act "show version") in
  kw_calls kwargs = Some [Sample.act "show version"] /\
  r1 = (Val tt, r1.1.2, r1.2) /\
  Py.truthy (get (auth_exit_command (merged_auth Sample.ctx kwargs)) "exit")
    = true /\
  Scripted.is_closed (session r1.1.2)
    = (false, Sample.exit_refused_later [Sample.warning] []) /\
  Scripted.run (Sample.exit_refused_later [Sample.warning] []) kw
    = (Sample.warning, Sample.exit_refused_later [] []) /\
  (0 < 5)%nat /\
  run Scripted.connection Sample.ctx Sample.render kwargs 5 w
  = (Exc (RecoverableWarning (Text "busy")),
     @Build_World Scripted.connection (Sample.exit_refused_later [] [])
       (runtime_properties r1.1.2),
     r1.2 ++ [IsClosed false; Log Info ExecuteClose; Run kw Sample.warning]).
Proof.
  intros kwargs w r1 kw.
  assert (Hcalls : kw_calls kwargs = Some [Sample.act "show version"])
    by reflexivity.
  assert (Hsession : r1 = (Val tt, r1.1.2, r1.2)) by (vm_compute; reflexivity).
  assert (Hexit :
    Py.truthy (get (auth_exit_command (merged_auth Sample.ctx kwargs)) "exit")
      = true) by reflexivity.
  assert (Hclosed : Scripted.is_closed (session r1.1.2)
                    = (false, Sample.exit_refused_later [Sample.warning] []))
    by (vm_compute; reflexivity).
  assert (Hrun : Scripted.run (Sample.exit_refused_later [Sample.warning] []) kw
                 = (Sample.warning, Sample.exit_refused_later [] []))
    by reflexivity.
  assert (Hfuel : (0 < 5)%nat) by lia.
  repeat (split; [assumption|]).
  exact (exit_command_failure_ends_run Sample.ctx Sample.render kwargs 5%nat
           (Sample.act "show version") [] w r1.1.2 r1.2
           (Sample.exit_refused_later [Sample.warning] [])
           (Sample.exit_refused_later [] [])
           (RecoverableWarning (Text "busy"))
           Hcalls Hsession Hexit Hclosed Hrun Hfuel).
Defined.

(** X12 at work: the run ends with the warning of the exit command. *)
Lemma warning_escapes_from_exit_command_only_witness :
  let kwargs := Sample.kwargs [Sample.act "show version"]
                  (Sample.admin_at ["r1"]) in
  let r := run Scripted.connection Sample.ctx Sample.render kwargs 5
             (Scripted.world Sample.exit_refused_device) in
  r = (Exc (RecoverableWarning (Text "busy")), r.1.2, r.2) /\
  is_warning (RecoverableWarning (Text "busy")) = true /\
  exists pre,
    r.2 = pre ++
          [Run (exit_kwargs_of Sample.ctx kwargs (Sample.act "show version"))
             (inl (RecoverableWarning (Text "busy")))].
Proof.
  intros kwargs r.
  assert (Hrun : r = (Exc (RecoverableWarning (Text "busy")), r.1.2, r.2))
    by (vm_compute; reflexivity).
  assert (Hw : is_warning (RecoverableWarning (Text "busy")) = true)
    by reflexivity.
  split; [exact Hrun|]. split; [exact Hw|].
  destruct (warning_escapes_from_exit_command_only Sample.ctx Sample.render
              kwargs 5%nat (Scripted.world Sample.exit_refused_device)
              r.1.2 (RecoverableWarning (Text "busy")) r.2 Hrun Hw)
    as (first_call & more_calls & w1 & evs1 & pre & Hcalls & _ & Hevs).
  inversion Hcalls; subst first_call more_calls.
  exists (evs1 ++ pre). rewrite <- app_assoc. exact Hevs.
Defined.

(** X13 at work: [False] in the arguments does not hide the value of the
    instance. *)
Lemma get_desired_value_first_truthy_witness :
  deployment_proxy.truthy
    (deployment_proxy.dict_get
       (<["force" := deployment_proxy.VBool false]> ∅) "force") = false /\
  deployment_proxy.truthy
    (deployment_proxy.dict_get
       (<["force" := deployment_proxy.VStr "yes"]> ∅) "force") = true /\
  deployment_proxy.get_desired_value "force"
    (<["force" := deployment_proxy.VBool false]> ∅)
    (<["force" := deployment_proxy.VStr "yes"]> ∅) ∅
  = deployment_proxy.VStr "yes".
Proof.
  assert (Ha : deployment_proxy.truthy
                 (deployment_proxy.dict_get
                    (<["force" := deployment_proxy.VBool false]> ∅) "force")
               = false) by (vm_compute; reflexivity).
  assert (Hb : deployment_proxy.truthy
                 (deployment_proxy.dict_get
                    (<["force" := deployment_proxy.VStr "yes"]> ∅) "force")
               = true) by (vm_compute; reflexivity).
  split; [exact Ha|]. split; [exact Hb|].
  rewrite (proj1 (proj2 (get_desired_value_first_truthy "force"
                           (<["force" := deployment_proxy.VBool false]> ∅)
                           (<["force" := deployment_proxy.VStr "yes"]> ∅) ∅))
             Ha Hb).
  vm_compute. reflexivity.
Defined.

(** X15 at work: the task raises a RecoverableError, the wrapper a
    NonRecoverableError. *)
Lemma proxy_operation_outcomes_witness :
  deployment_proxy.proxy_operation ProxySample.message_of
    ProxySample.traceback_of "create_deployment"
    (deployment_proxy.task_body ProxySample.DeploymentProxyBase
       ProxySample.methods "create_deployment") ∅
  = (["Error traceback Traceback with message not ready"],
     inl (NonRecoverableError
            (Text "Error: not ready while trying to run proxy task create_deployment"))).
Proof.
  pose proof (proxy_operation_outcomes ProxySample.message_of
                ProxySample.traceback_of "create_deployment"
                (deployment_proxy.task_body ProxySample.DeploymentProxyBase
                   ProxySample.methods "create_deployment") ∅) as H.
  change (deployment_proxy.task_body ProxySample.DeploymentProxyBase
            ProxySample.methods "create_deployment"
            (<["operation" := deployment_proxy.VStr "create_deployment"]> ∅))
    with (@inl Exn deployment_proxy.PyValue
            (RecoverableError (Text "not ready"))) in H.
  destruct H as (line & e' & Heq & -> & _ & Hfatal & _).
  destruct (Hfatal ltac:(intros m; discriminate)) as [-> _].
  exact Heq.
Defined.

(** X16 at work: a name that is not a method of the object. *)
Lemma proxied_task_runs_the_named_method_witness :
  ProxySample.DeploymentProxyBase (delete "operation" ∅) = inr ∅ /\
  ProxySample.methods "execute_workflow" = None /\
  exists line,
    deployment_proxy.execute_start ProxySample.message_of
      ProxySample.traceback_of ProxySample.DeploymentProxyBase
      ProxySample.methods ∅
    = ([line],
       inl (NonRecoverableError
              (Text "Error: 'DeploymentProxyBase' object has no attribute 'execute_workflow' while trying to run proxy task execute_workflow"))).
Proof.
  assert (Hobject :
    ProxySample.DeploymentProxyBase (delete "operation" ∅) = inr ∅)
    by reflexivity.
  assert (Hnone : ProxySample.methods "execute_workflow" = None)
    by reflexivity.
  split; [exact Hobject|]. split; [exact Hnone|].
  exact (proj2 (proj2 (proj2 (proj2 (proj2 (proj2
           (proxied_task_runs_the_named_method ProxySample.message_of
              ProxySample.traceback_of ProxySample.DeploymentProxyBase
              ProxySample.methods "execute_start"
              "execute_workflow" ∅ deployment_proxy.VNone))))))
           ∅ Hobject Hnone).
Defined.

(** X17 at work: three warnings with a ['retry_sleep'] of 5, then two exit
    commands. *)
Lemma run_pauses_witness :
  let kwargs := Sample.kwargs [Sample.three_tries] (Sample.admin_at ["r1"]) in
  let w := @Build_World Scripted.connection
             {| Scripted.connects := [inr "#"];
                Scripted.runs := [Sample.warning; Sample.warning;
                                  Sample.warning; inr "v1"];
                Scripted.run_default := inr "";
                Scripted.closed := [false; false];
                Scripted.closed_default := true |} ∅ in
  let r := run Scripted.connection Sample.ctx Sample.render kwargs 5 w in
  kw_calls kwargs = Some [Sample.three_tries] /\
  sleeps_of r.2 = [5; 5; 5; 1; 1] /\
  Forall (fun seconds => seconds = 5 \/ seconds = 1) (sleeps_of r.2).
Proof.
  intros kwargs w r.
  assert (Hcalls : kw_calls kwargs = Some [Sample.three_tries]) by reflexivity.
  split; [exact Hcalls|]. split; [vm_compute; reflexivity|].
  eapply Forall_impl;
    [exact (run_pauses Sample.ctx Sample.render kwargs 5%nat
              Sample.three_tries [] w Hcalls)|].
  intros seconds [(call & Hin & Hs)|Hs].
  - destruct Hin as [Hc|[]]. subst call. left. exact Hs.
  - right. exact Hs.
Defined.
